(** * monsterSpotter: the rules engine and the simulation engine

    A shallow embedding of the calculation core of the Swedish Monster
    Spotter (config.js, state.js, services/time.js, monster.js,
    services/spottingCalculator.js, services/dataLoader.js) and the
    properties of it that the specification states.

    Conventions of the embedding.
    - A JavaScript number is an exact rational ([Q]), kept in lowest terms by
      every arithmetic operation, so that two equal numbers are the same
      term.  The probabilities are computed exactly; the coordinates of a
      placement are computed in binary64, every operation rounded to the
      nearest double ([Num.double]).  NaN and the infinities are outside the
      model.
    - An object literal used as a lookup table ([TIME_PERIODS],
      [GLOBAL_MODIFIERS], [MODIFIER_DEFINITIONS], [LOCATION_GROUPS]) is a
      finite map over the keys written in the literal.  Where the code
      calls a method of what it finds under a name ([forEach] on a location
      group, [condition] on a modifier definition), the names that every
      object inherits from [Object.prototype] matter: the call throws a
      TypeError ([config.getProperty], [spottingCalculator.resolveLoop],
      [monster.throwsTypeError]).
    - A [Date] is its number of milliseconds since the epoch; its UTC
      calendar fields are computed from it, its local fields through the
      time zone of the caller ([JSDate.TimeZone]), which is part of what a
      recomputation reads.  The local wall clock is read once for a whole
      recomputation.
    - [Math.seedrandom] is a parameter: a generator seeded with [s] is the
      stream [seedrandom s 0], [seedrandom s 1], ... of numbers in [0, 1).
    - Objects that are shared by reference (the locations of the dataset,
      the placements built from them) live in a store addressed by natural
      numbers; an object literal allocates a new cell. *)

From Stdlib Require Import ZArith QArith Qround Qminmax Qabs Qpower String Ascii Lia Lqa.
From stdpp Require Import gmap strings list fin_maps pretty.

Local Open Scope string_scope.
Local Open Scope Z_scope.

(** ** Numbers *)

Abbreviation number := Q (only parsing).

Module Num.

Definition add (a b : number) : number := Qred (a + b).
Definition sub (a b : number) : number := Qred (a - b).
Definition mul (a b : number) : number := Qred (a * b).
Definition div (a b : number) : number := Qred (a / b).

Definition ofZ (z : Z) : number := inject_Z z.

(** [a < b], [a <= b], [a === b] on numbers. *)
Definition ltb (a b : number) : bool := negb (Qle_bool b a).
Definition leb (a b : number) : bool := Qle_bool a b.
Definition eqb (a b : number) : bool := Qeq_bool a b.

(** [Math.pow(x, 2)]. *)
Definition pow2 (x : number) : number := mul x x.

(** [Math.max], [Math.min], [Math.floor], [Math.round]. *)
Definition max (a b : number) : number := if leb a b then b else a.
Definition min (a b : number) : number := if leb a b then a else b.
Definition floor (x : number) : Z := Qfloor x.
Definition round (x : number) : Z := Qfloor (x + (1 # 2))%Q.

(** The integer part, rounding toward zero. *)
Definition trunc (x : number) : Z :=
  if leb 0%Q x then Qfloor x else Qceiling x.

(** The remainder operator [%] of JavaScript: the result has the sign of
    the dividend. *)
Definition rem (a b : number) : number :=
  sub a (mul b (ofZ (trunc (div a b)))).

(** *** Binary64

    The nearest integer, ties to the even one. *)
Definition roundHalfEven (q : Q) : Z :=
  let f := Qfloor q in
  match (q - inject_Z f ?= 1 # 2)%Q with
  | Lt => f
  | Gt => f + 1
  | Eq => if Z.even f then f else f + 1
  end.

(** The binary exponent of a positive number [a]: the [e] with
    [2^e <= a < 2^(e+1)]. *)
Definition exponent (a : Q) : Z :=
  let k := Z.log2 (Qnum a) - Z.log2 (Zpos (Qden a)) in
  if Qle_bool (2 ^ k) a then k else k - 1.

(** The double nearest to [x], ties to even: [x] rounded to 53 significant
    bits.  The range of the exponent is not bounded: overflow and the
    subnormal numbers are outside the model. *)
Definition double (x : Q) : number :=
  if Qeq_bool x 0 then 0%Q
  else
    let ulp := (2 ^ (exponent (Qabs x) - 52))%Q in
    Qred (inject_Z (roundHalfEven (x / ulp)) * ulp).

(** [a + b], [a - b] and [a * b] on doubles: the exact result, rounded. *)
Definition fadd (a b : number) : number := double (a + b).
Definition fsub (a b : number) : number := double (a - b).
Definition fmul (a b : number) : number := double (a * b).

End Num.

(** [a.push(x)] on an array held as a list. *)
Definition push {A : Type} (a : list A) (x : A) : list A := (a ++ [x])%list.

(** ** The built-in Date, as far as the engine uses it *)

Module JSDate.

Definition msPerDay : Z := 86400000.

(** Days since the epoch of the proleptic Gregorian date [y]-[m]-[d],
    with [m] counted from 1. *)
Definition days_from_civil (y m d : Z) : Z :=
  let y' := if m <=? 2 then y - 1 else y in
  let era := y' / 400 in
  let yoe := y' - era * 400 in
  let mp := if 2 <? m then m - 3 else m + 9 in
  let doy := (153 * mp + 2) / 5 + d - 1 in
  let doe := yoe * 365 + yoe / 4 - yoe / 100 + doy in
  era * 146097 + doe - 719468.

(** The Gregorian date (year, month from 1, day) of a day number. *)
Definition civil_from_days (z : Z) : Z * Z * Z :=
  let z := z + 719468 in
  let era := z / 146097 in
  let doe := z - era * 146097 in
  let yoe := (doe - doe / 1460 + doe / 36524 - doe / 146096) / 365 in
  let y := yoe + era * 400 in
  let doy := doe - (365 * yoe + yoe / 4 - yoe / 100) in
  let mp := (5 * doy + 2) / 153 in
  let d := doy - (153 * mp + 2) / 5 + 1 in
  let m := if mp <? 10 then mp + 3 else mp - 9 in
  (if m <=? 2 then y + 1 else y, m, d).

(** [Date.UTC(year, month, day, hours, minutes)], [month] from 0. *)
Definition UTC (year month day hours minutes : Z) : Z :=
  days_from_civil year (month + 1) day * msPerDay
  + hours * 3600000 + minutes * 60000.

Definition getUTCFullYear (t : Z) : Z := fst (fst (civil_from_days (t / msPerDay))).
Definition getUTCMonth (t : Z) : Z := snd (fst (civil_from_days (t / msPerDay))) - 1.
Definition getUTCDate (t : Z) : Z := snd (civil_from_days (t / msPerDay)).

(** The time zone of the caller, as ECMAScript reads it: [offsetAtUTC t]
    is [LocalTZA(t, true)], the offset of local time from UTC, in
    milliseconds, that is in effect at the time value [t]; [offsetAtLocal t]
    is [LocalTZA(t, false)], the offset by which the local time [t] is read
    back as a time value (for a local time that a change of the clock
    skips or repeats, the offset before the change). *)
Record TimeZone := {
  offsetAtUTC : Z -> Z;
  offsetAtLocal : Z -> Z
}.

(** The abstract operations [LocalTime], [UTC], [Day] and [MakeTime] of
    ECMAScript. *)
Definition LocalTime (zone : TimeZone) (t : Z) : Z := t + offsetAtUTC zone t.
Definition UTCOfLocal (zone : TimeZone) (t : Z) : Z := t - offsetAtLocal zone t.
Definition Day (t : Z) : Z := t / msPerDay.
Definition MakeTime (h m s ms : Z) : Z := ((h * 60 + m) * 60 + s) * 1000 + ms.

(** The local time of day of a [Date], in milliseconds after local
    midnight: what [getHours], [getMinutes], [getSeconds] and
    [getMilliseconds] read. *)
Record TimeOfDay := { msOfDay : Z }.

Definition timeOfDay (zone : TimeZone) (t : Z) : TimeOfDay :=
  {| msOfDay := LocalTime zone t mod msPerDay |}.

Definition getHours (t : TimeOfDay) : Z := msOfDay t / 3600000.
Definition getMinutes (t : TimeOfDay) : Z := (msOfDay t / 60000) mod 60.
Definition getSeconds (t : TimeOfDay) : Z := (msOfDay t / 1000) mod 60.
Definition getMilliseconds (t : TimeOfDay) : Z := msOfDay t mod 1000.

(** [d.setHours(h, m, s, ms)] on the [Date] with time value [t]: the new
    time value.  The local day of [t] is kept, values out of range carry
    over into the neighbouring days, and the local time made of them is
    read back through the zone. *)
Definition setHours (zone : TimeZone) (t h m s ms : Z) : Z :=
  UTCOfLocal zone (Day (LocalTime zone t) * msPerDay + MakeTime h m s ms).

(** [d.setMinutes(min)]: the hour, the seconds and the milliseconds are
    those of the local time of [t]. *)
Definition setMinutes (zone : TimeZone) (t min : Z) : Z :=
  let local := timeOfDay zone t in
  UTCOfLocal zone
    (Day (LocalTime zone t) * msPerDay
     + MakeTime (getHours local) min (getSeconds local) (getMilliseconds local)).

(** [String(n).padStart(2, '0')]. *)
Definition padStart2 (s : string) : string :=
  if (String.length s <? 2)%nat then
    (if (String.length s <? 1)%nat then "00" else String.append "0" s)
  else s.

End JSDate.

(** ** state.js *)

Module state.

(** The components of the caller's local wall clock, [new Date()]. *)
Record WallClock := {
  nowHours : Z;
  nowMinutes : Z;
  nowSeconds : Z;
  nowMilliseconds : Z
}.

(** [debugState].  [forceTime] is the text of a time input, ["HH:MM"],
    held here as the two numbers [split(':').map(Number)] makes of it;
    [forceSeason] is ['auto'] or the name of a season. *)
Record DebugState := {
  multiplier : number;
  forceTime : option (Z * Z);
  forceFullMoon : option bool;
  forceSeason : string;
  forceHalloween : option bool
}.

(** The fields of [appState] that the engine reads: the application date
    and the two indexes of the location objects, which hold references
    into the store. *)
Record AppState := {
  currentDate : Z;
  locationsByFeatureCode : gmap string (list nat);
  locationsByFeatureClass : gmap string (list nat)
}.

(** What one recomputation reads from its surroundings: the two state
    objects, the wall clock and the time zone of the caller. *)
Record Env := {
  appState : AppState;
  debugState : DebugState;
  now : WallClock;
  zone : JSDate.TimeZone
}.

(** The wall clock of a caller in [zone] at the time value [t]. *)
Definition clockAt (zone : JSDate.TimeZone) (t : Z) : WallClock :=
  let local := JSDate.timeOfDay zone t in
  {| nowHours := JSDate.getHours local;
     nowMinutes := JSDate.getMinutes local;
     nowSeconds := JSDate.getSeconds local;
     nowMilliseconds := JSDate.getMilliseconds local |}.

Definition defaultDebugState : DebugState :=
  {| multiplier := 1%Q; forceTime := None; forceFullMoon := None;
     forceSeason := "auto"; forceHalloween := None |}.

End state.

(** ** config.js: the tables that do not depend on time.js *)

Module config.

Record Period := {
  start : Z;
  peak : Z;
  end_ : Z;
  multiplier : number
}.

(** [TIME_PERIODS], in the order of the literal ([for ... in] follows it). *)
Definition TIME_PERIODS : list (string * Period) := [
  ("Midnight",      {| start := 0;    peak := 15;   end_ := 59;   multiplier := 2.5 |});
  ("Late Night",    {| start := 60;   peak := 150;  end_ := 239;  multiplier := 2.0 |});
  ("Early Morning", {| start := 240;  peak := 300;  end_ := 359;  multiplier := 1.4 |});
  ("Morning",       {| start := 360;  peak := 420;  end_ := 539;  multiplier := 1.2 |});
  ("Day",           {| start := 540;  peak := 720;  end_ := 1079; multiplier := 1.0 |});
  ("Evening",       {| start := 1080; peak := 1140; end_ := 1259; multiplier := 1.4 |});
  ("Night",         {| start := 1260; peak := 1350; end_ := 1439; multiplier := 2.2 |})
].

(** [TIME_PERIODS[periodName]]. *)
Fixpoint period_of (table : list (string * Period)) (periodName : string)
  : option Period :=
  match table with
  | [] => None
  | (name, period) :: rest =>
      if String.eqb name periodName then Some period else period_of rest periodName
  end.

(** The two groups of modifiers that [_evaluateModifier] is called on. *)
Inductive ModifierType := bonuses | penalties.

Definition GLOBAL_MODIFIERS (type : ModifierType) : gmap string number :=
  match type with
  | bonuses => list_to_map [
      ("witchingHour", 0.15%Q); ("midnight", 0.07%Q); ("fullMoon", 0.12%Q);
      ("yule", 0.10%Q); ("midsummer", 0.25%Q) ]
  | penalties => list_to_map [
      ("day", 0.4%Q); ("earlyMorning", 0.6%Q); ("evening", 0.6%Q);
      ("night", 0.7%Q); ("lateNight", 0.6%Q) ]
  end.

(** [GLOBAL_MODIFIERS.events.halloween]. *)
Definition GLOBAL_MODIFIERS_events_halloween : number := 2.5.

(** The names of the properties of [Object.prototype], which every object
    literal inherits: those of ECMAScript, Annex B included. *)
Definition objectPrototypeNames : list string :=
  ["constructor"; "hasOwnProperty"; "isPrototypeOf"; "propertyIsEnumerable";
   "toLocaleString"; "toString"; "valueOf"; "__proto__";
   "__defineGetter__"; "__defineSetter__"; "__lookupGetter__"; "__lookupSetter__"].

(** What [table[key]] finds on an object literal: the value written under
    the key, a member of [Object.prototype] (a function, or the prototype
    itself: truthy, and without the methods of the values of the table), or
    [undefined]. *)
Inductive Property (A : Type) : Type :=
  | own (a : A)
  | inherited
  | undefined.
Arguments own {A} a.
Arguments inherited {A}.
Arguments undefined {A}.

Definition getProperty {A : Type} (table : gmap string A) (key : string)
  : Property A :=
  match table !! key with
  | Some a => own a
  | None => if bool_decide (key ∈ objectPrototypeNames) then inherited else undefined
  end.

Definition LOCATION_GROUPS : gmap string (list string) := list_to_map [
  ("settlements_urban", ["P.PPL"; "P.PPLA"; "P.PPLA2"; "P.PPLA3"; "P.PPLA4"; "P.PPLC"; "S.SQR"]);
  ("settlements_rural", ["P.PPLF"; "P.PPLL"; "S.FRM"; "S.FRMT"; "S.HUT"; "S.HUTS"; "L.LCTY"]);
  ("settlements_all", ["P.PPL"; "P.PPLA"; "P.PPLA2"; "P.PPLA3"; "P.PPLA4"; "P.PPLC"; "P.PPLF"; "P.PPLL"]);
  ("structures_affluent", ["S.PAL"; "S.CSTL"; "S.HSEC"; "S.EST"]);
  ("structures_abandoned", ["P.PPLH"; "P.PPLQ"; "P.PPLW"; "S.RUIN"; "R.RRQ"; "S.AIRQ"; "S.BDGQ"; "S.DAMQ"; "S.FRMQ"; "S.CMPQ"; "S.MLSGQ"]);
  ("structures_historic", ["A.ADM1H"; "A.ADM2H"; "A.ADM3H"; "A.ADM4H"; "L.BTL"; "S.ANS"; "S.HSTS"; "S.MNMT"; "S.WALLA"; "R.RDA"]);
  ("structures_defensive", ["S.FT"; "S.WALL"; "S.WALLA"; "S.TOWR"; "L.MILB"; "L.NVB"; "S.INSM"]);
  ("structures_industrial", ["S.MFG"; "S.ML"; "S.FNDY"; "S.PS"; "S.OILR"; "S.WTRW"; "S.DIKE"; "S.DAM"; "S.LOCK"]);
  ("structures_mines_quarries", ["S.MN"; "S.MNC"; "S.MNFE"; "S.MNAU"; "S.MNQ"; "S.MNQR"; "L.MNA"]);
  ("places_of_worship", ["S.CH"; "S.MSQE"; "S.SYG"; "S.TMPL"; "S.PGDA"; "S.SHRN"]);
  ("places_of_seclusion", ["S.MSTY"; "S.CVNT"; "S.RLGR"; "S.HERM"]);
  ("places_of_death", ["S.CMTY"; "S.GRVE"; "S.TMB"; "S.BUR"; "L.BTL"; "S.WRCK"]);
  ("places_sacred_all", ["S.CH"; "S.MSQE"; "S.SYG"; "S.TMPL"; "S.PGDA"; "S.SHRN"; "S.MSTY"; "S.CVNT"; "S.RLGR"; "S.HERM"; "S.CMTY"; "S.GRVE"; "S.TMB"; "S.BUR"; "L.BTL"; "S.RLG"]);
  ("forests_dense", ["V.FRST"; "V.FRSTF"]);
  ("forests_sparse", ["V.GROVE"; "V.HTH"; "V.SCRB"; "L.CLG"]);
  ("forests_all", ["V.FRST"; "V.FRSTF"; "V.GROVE"; "V.HTH"; "V.SCRB"]);
  ("cultivated_land", ["L.AGRC"; "V.CULT"; "L.FLDI"; "S.NSY"; "V.OCH"; "V.VIN"]);
  ("grasslands", ["V.GRSLD"; "V.MDW"; "L.GRAZ"; "L.PRK"; "L.CMN"]);
  ("mountains_high", ["T.MT"; "T.MTS"; "T.PK"; "T.PKS"; "T.VLC"; "T.NTK"]);
  ("mountains_low", ["T.HLL"; "T.HLLS"; "T.RDGE"; "T.SPUR"; "T.UPLD"; "T.MESA"]);
  ("mountains_all", ["T.MT"; "T.MTS"; "T.PK"; "T.PKS"; "T.VLC"; "T.NTK"; "T.HLL"; "T.HLLS"; "T.RDGE"; "T.SPUR"; "T.UPLD"]);
  ("underground_natural", ["S.CAVE"; "S.BUR"; "R.TNLN"; "H.LKSB"]);
  ("canyons_and_gorges", ["T.CNYN"; "T.GRGE"; "T.VALG"; "T.RVN"; "T.FSR"]);
  ("rocky_terrain", ["T.RK"; "T.RKS"; "T.BLDR"; "T.SCRP"; "T.TAL"; "T.KRST"; "T.LAVA"]);
  ("deserts_and_barrens", ["T.DSRT"; "T.ERG"; "T.HMDA"; "T.REG"; "L.LAND"; "L.SALT"; "T.BDLD"]);
  ("water_freshwater_large", ["H.LK"; "H.LKS"; "H.RSV"; "H.LGN"]);
  ("water_freshwater_moving", ["H.STM"; "H.STMS"; "H.CNL"; "H.RPDS"; "H.FLLS"]);
  ("water_coastal", ["H.SEA"; "H.OCN"; "H.STRT"; "H.BAY"; "H.GULF"; "H.FJD"; "H.SD"; "T.BCH"]);
  ("water_islands", ["T.ISL"; "T.ISLS"; "T.ISLET"; "T.ATOL"]);
  ("water_wetlands", ["H.SWMP"; "H.MRSH"; "H.BOG"; "V.TUND"; "H.WTLD"; "L.PEAT"]);
  ("transport_roads", ["R.RD"; "R.ST"; "R.TRL"; "R.CSWY"]);
  ("transport_railways", ["R.RR"; "R.RSTN"; "R.RSTP"; "R.RYD"]);
  ("transport_bridges_tunnels", ["S.BDG"; "R.TNL"; "R.TNLRD"; "R.TNLRR"]);
  ("transport_hubs", ["S.AIRP"; "L.PRT"; "S.FYT"; "S.RSTN"; "S.BUSTN"; "S.MAR"])
].

End config.

(** ** services/time.js *)

Module time.
Import state config.

Definition INACTIVE_TIME_PENALTY : number := 0.05.

(** [getDateSeed]: the application date as YYYY-MM-DD, from its UTC fields. *)
Definition getDateSeed (env : Env) : string :=
  let d := currentDate (appState env) in
  let year := JSDate.getUTCFullYear d in
  let month := JSDate.padStart2 (pretty (JSDate.getUTCMonth d + 1)) in
  let day := JSDate.padStart2 (pretty (JSDate.getUTCDate d)) in
  String.append (pretty year)
    (String.append "-" (String.append month (String.append "-" day))).

(** [getCurrentTime]: the forced time of day if there is one, the caller's
    local wall-clock time otherwise, set on the application date in the
    time zone of the caller; the result is held as the local time of day
    that its readers ask for. *)
Definition getCurrentTime (env : Env) : JSDate.TimeOfDay :=
  let simulationTime := currentDate (appState env) in
  JSDate.timeOfDay (zone env)
    match forceTime (debugState env) with
    | Some (hours, minutes) =>
        JSDate.setHours (zone env) simulationTime hours minutes 0 0
    | None =>
        let now := now env in
        JSDate.setHours (zone env) simulationTime
          (nowHours now) (nowMinutes now) (nowSeconds now) (nowMilliseconds now)
    end.

Definition timeToMins (t : JSDate.TimeOfDay) : Z :=
  JSDate.getHours t * 60 + JSDate.getMinutes t.

(** The loop of [getCurrentPeriodName] over [TIME_PERIODS]. *)
Fixpoint firstPeriodAt (table : list (string * Period)) (currentTimeInMins : Z)
  : option string :=
  match table with
  | [] => None
  | (periodName, period) :: rest =>
      if (start period <=? currentTimeInMins) && (currentTimeInMins <=? end_ period)
      then Some periodName
      else firstPeriodAt rest currentTimeInMins
  end.

Definition getCurrentPeriodName (env : Env) : string :=
  let currentTimeInMins := timeToMins (getCurrentTime env) in
  match firstPeriodAt TIME_PERIODS currentTimeInMins with
  | Some periodName => periodName
  | None => "Day"
  end.

Definition isPeriod (env : Env) (periodName : string) : bool :=
  String.eqb (getCurrentPeriodName env) periodName.

Definition isNight (env : Env) : bool :=
  let h := JSDate.getHours (getCurrentTime env) in
  (21 <=? h) || (h <? 6).

Definition isDark (env : Env) : bool :=
  isPeriod env "Evening" || isNight env.

Definition isWitchingHour (env : Env) : bool :=
  JSDate.getHours (getCurrentTime env) =? 0.

Definition LUNAR_MONTH : number := 29.530588853.
Definition knownNewMoon : Z := JSDate.UTC 2000 0 6 18 14.
Definition moonIcons : list string :=
  ["🌑"; "🌒"; "🌓"; "🌔"; "🌕"; "🌖"; "🌗"; "🌘"].

(** The index into [moonIcons] that [getMoonPhaseIcon] computes. *)
Definition moonPhaseIndex (date : Z) : Z :=
  let daysSinceKnownNewMoon :=
    Num.div (Num.ofZ (date - knownNewMoon)) (Num.ofZ 86400000) in
  let phase := Num.div (Num.rem daysSinceKnownNewMoon LUNAR_MONTH) LUNAR_MONTH in
  Z.rem (Num.round (Num.mul phase 8)) 8.

(** [getMoonPhaseIcon]: [None] is the [undefined] that reading an array
    outside its bounds gives. *)
Definition getMoonPhaseIcon (date : Z) : option string :=
  let index := moonPhaseIndex date in
  if index <? 0 then None else moonIcons !! Z.to_nat index.

Definition isFullMoon (env : Env) : bool :=
  match forceFullMoon (debugState env) with
  | Some forced => forced
  | None =>
      match getMoonPhaseIcon (currentDate (appState env)) with
      | Some icon => String.eqb icon "🌕"
      | None => false
      end
  end.

Definition isHalloween (env : Env) : bool :=
  match forceHalloween (debugState env) with
  | Some forced => forced
  | None =>
      let d := currentDate (appState env) in
      (JSDate.getUTCMonth d =? 9) && (JSDate.getUTCDate d =? 31)
  end.

Definition isMidsummer (env : Env) : bool :=
  let d := currentDate (appState env) in
  (JSDate.getUTCMonth d =? 5) && (JSDate.getUTCDate d =? 21).

Definition isYule (env : Env) : bool :=
  JSDate.getUTCMonth (currentDate (appState env)) =? 11.

Definition getCurrentSeason (env : Env) : string :=
  if negb (String.eqb (forceSeason (debugState env)) "auto")
  then forceSeason (debugState env)
  else
    let month := JSDate.getUTCMonth (currentDate (appState env)) in
    if (2 <=? month) && (month <=? 4) then "Spring"
    else if (5 <=? month) && (month <=? 7) then "Summer"
    else if (8 <=? month) && (month <=? 10) then "Fall"
    else "Winter".

(** The multiplier of one period at a minute inside it: the body of the
    [if] in the loop of [getTimeMultiplier]. *)
Definition currentMultiplierOf (period : Period) (currentTimeInMins : Z) : number :=
  let maxBonus := Num.sub (multiplier period) 1.0 in
  if currentTimeInMins <=? peak period then
    let duration := peak period - start period in
    let progress :=
      if 0 <? duration
      then Num.div (Num.ofZ (currentTimeInMins - start period)) (Num.ofZ duration)
      else 1%Q in
    Num.add 1.0 (Num.mul maxBonus (Num.pow2 progress))
  else
    let duration := end_ period - peak period in
    let progress :=
      if 0 <? duration
      then Num.div (Num.ofZ (end_ period - currentTimeInMins)) (Num.ofZ duration)
      else 1%Q in
    Num.add 1.0 (Num.mul maxBonus (Num.pow2 progress)).

(** One turn of the [forEach] of [getTimeMultiplier], on the running
    [highestMultiplier]. *)
Definition timeMultiplierStep (currentTimeInMins : Z)
    (highestMultiplier : number) (periodName : string) : number :=
  match period_of TIME_PERIODS periodName with
  | None => highestMultiplier
  | Some period =>
      if (start period <=? currentTimeInMins) && (currentTimeInMins <=? end_ period)
      then
        let currentMultiplier := currentMultiplierOf period currentTimeInMins in
        if Num.ltb highestMultiplier currentMultiplier
        then currentMultiplier else highestMultiplier
      else highestMultiplier
  end.

Definition getTimeMultiplier (env : Env) (monsterActiveTimes : list string) : number :=
  if bool_decide ("any" ∈ monsterActiveTimes) then 1.0%Q
  else
    let currentTimeInMins := timeToMins (getCurrentTime env) in
    let highestMultiplier :=
      fold_left (timeMultiplierStep currentTimeInMins) monsterActiveTimes 0%Q in
    if Num.eqb highestMultiplier 0 then INACTIVE_TIME_PENALTY else highestMultiplier.

End time.

(** ** config.js: the modifier definitions, which use time.js *)

Module modifiers.
Import state config.

Record ModifierDefinition := {
  condition : Env -> bool;
  label : string
}.

Definition MODIFIER_DEFINITIONS (type : ModifierType)
  : gmap string ModifierDefinition :=
  match type with
  | bonuses => list_to_map [
      ("witchingHour", {| condition := time.isWitchingHour; label := "Witching Hour" |});
      ("midnight", {| condition := fun env => time.isPeriod env "Midnight"; label := "Midnight" |});
      ("fullMoon", {| condition := time.isFullMoon; label := "Full Moon" |});
      ("yule", {| condition := time.isYule; label := "Yule Season" |});
      ("midsummer", {| condition := time.isMidsummer; label := "Midsummer" |}) ]
  | penalties => list_to_map [
      ("day", {| condition := fun env => time.isPeriod env "Day"; label := "Daylight" |});
      ("evening", {| condition := fun env => time.isPeriod env "Evening"; label := "Evening" |});
      ("earlyMorning", {| condition := fun env => time.isPeriod env "Early Morning"; label := "Early Morning" |});
      ("night", {| condition := fun env => time.isPeriod env "Night"; label := "Night" |});
      ("lateNight", {| condition := fun env => time.isPeriod env "Late Night"; label := "Late Night" |}) ]
  end.

End modifiers.

(** ** monster.js: the rules engine *)

Module monster.
Import state modifiers.

Record Restriction := {
  requiresFullMoon : bool;
  requiresDark : bool;
  requiresNight : bool
}.

(** An entity as monsters.json gives it.  A field that the code tests
    before it reads it may be absent and is an [option]; the others are
    read without a test.  [overrides] is read as
    [overrides[type][modifierName]]. *)
Record Monster := {
  id : string;
  spottingChance : number;
  activeSeasons : list string;
  activeTime : list string;
  restriction : option Restriction;
  bonuses : option (list string);
  penalties : option (list string);
  overrides : option (config.ModifierType -> option (gmap string number));
  locations : list string
}.

(** One step of a breakdown, by its [type]. *)
Inductive Step :=
| final (label : string) (value : number)
| base (label : string) (value : number)
| multiplier (label : string) (subLabel : option string) (value : number)
| bonus (label : string) (value : number)
| penalty (label : string) (value : number)
| impossible (reason : string).

Record SpottingData := {
  chance : number;
  event : option string;
  breakdown : list Step
}.

(** The array [failed] of [_checkRestrictions]: the names of the
    restrictions that are required and do not hold. *)
Definition failedRestrictions (env : Env) (r : Restriction) : list string :=
  let failed := [] in
  let failed :=
    if requiresFullMoon r && negb (time.isFullMoon env)
    then push failed "Full Moon" else failed in
  let failed :=
    if requiresDark r && negb (time.isDark env)
    then push failed "Darkness" else failed in
  if requiresNight r && negb (time.isNight env)
  then push failed "Night" else failed.

(** What [_checkRestrictions] returns: [None] is [{ met: true }], [Some r]
    is [{ met: false, reason: r }]. *)
Definition _checkRestrictions (env : Env) (m : Monster) : option string :=
  match restriction m with
  | None => None
  | Some r =>
      let failed := failedRestrictions env r in
      match failed with
      | [] => None
      | _ => Some (String.append "Requires: " (String.concat ", " failed))
      end
  end.

(** [this.overrides?.[type]?.[modifierName]]. *)
Definition overrideOf (m : Monster) (type : config.ModifierType)
    (modifierName : string) : option number :=
  match overrides m with
  | None => None
  | Some byType =>
      match byType type with
      | None => None
      | Some table => table !! modifierName
      end
  end.

(** [a || b] on values that are a number or [undefined]: [undefined] and
    0 are the falsy ones. *)
Definition orElse (a b : option number) : option number :=
  match a with
  | Some v => if Num.eqb v 0 then b else Some v
  | None => b
  end.

(** What [_evaluateModifier] returns: [None] is [{ active: false }]. *)
Record ModifierInfo := {
  infoValue : option number;
  infoLabel : string
}.

Definition _evaluateModifier (env : Env) (m : Monster)
    (modifierName : string) (type : config.ModifierType) : option ModifierInfo :=
  match MODIFIER_DEFINITIONS type !! modifierName with
  | Some definition =>
      if condition definition env then
        let value := orElse (overrideOf m type modifierName)
                            (config.GLOBAL_MODIFIERS type !! modifierName) in
        Some {| infoValue := value; infoLabel := label definition |}
      else None
  | None => None
  end.

(** The number a value stands for in arithmetic.  Every modifier that has
    a definition has a global magnitude ([defined_modifier_has_magnitude]
    below), so [undefined] does not reach arithmetic. *)
Definition toNumber (v : option number) : number :=
  match v with Some q => q | None => 0%Q end.

(** One turn of the [forEach] over [this.bonuses]. *)
Definition bonusStep (env : Env) (m : Monster)
    (acc : number * list Step) (bonusName : string) : number * list Step :=
  let '(chance, breakdown) := acc in
  match _evaluateModifier env m bonusName config.bonuses with
  | Some bonusInfo =>
      (Num.add chance (toNumber (infoValue bonusInfo)),
       push breakdown (bonus (infoLabel bonusInfo) (toNumber (infoValue bonusInfo))))
  | None => acc
  end.

(** One turn of the [forEach] over [this.penalties]. *)
Definition penaltyStep (env : Env) (m : Monster)
    (acc : number * list Step) (penaltyName : string) : number * list Step :=
  let '(chance, breakdown) := acc in
  match _evaluateModifier env m penaltyName config.penalties with
  | Some penaltyInfo =>
      (Num.mul chance (toNumber (infoValue penaltyInfo)),
       push breakdown (penalty (infoLabel penaltyInfo) (toNumber (infoValue penaltyInfo))))
  | None => acc
  end.

(** The [else] branch of [calculateSpottingData] after the restrictions
    are met: the running chance and the breakdown it leaves. *)
Definition ordinaryDay (env : Env) (m : Monster) : number * list Step :=
  let chance := spottingChance m in
  let breakdown := [base "Base Chance" (spottingChance m)] in
  let currentSeason := time.getCurrentSeason env in
  let '(chance, breakdown) :=
    if negb (bool_decide (currentSeason ∈ activeSeasons m))
    then (Num.div chance 2,
          push breakdown (multiplier "Season" (Some currentSeason) 0.5))
    else (chance, breakdown) in
  let timeMultiplier := time.getTimeMultiplier env (activeTime m) in
  let '(chance, breakdown) :=
    if negb (Num.eqb timeMultiplier 1.0)
    then (Num.mul chance timeMultiplier,
          push breakdown (multiplier "Time" (Some (time.getCurrentPeriodName env)) timeMultiplier))
    else (chance, breakdown) in
  let '(chance, breakdown) :=
    match bonuses m with
    | Some names => fold_left (bonusStep env m) names (chance, breakdown)
    | None => (chance, breakdown)
    end in
  match penalties m with
  | Some names => fold_left (penaltyStep env m) names (chance, breakdown)
  | None => (chance, breakdown)
  end.

(** The end of [calculateSpottingData], common to both branches: the
    debug multiplier, the clamp and the [final] step put in front. *)
Definition finish (env : Env) (chance : number) (event : option string)
    (breakdown : list Step) : SpottingData :=
  let '(chance, breakdown) :=
    if negb (Num.eqb (state.multiplier (debugState env)) 1)
    then (Num.mul chance (state.multiplier (debugState env)),
          push breakdown (multiplier "Debug Multiplier" None (state.multiplier (debugState env))))
    else (chance, breakdown) in
  let finalChance := Num.max 0 (Num.min chance 1) in
  {| chance := finalChance;
     event := event;
     breakdown := final "Final Chance" finalChance :: breakdown |}.

Definition calculateSpottingData (env : Env) (m : Monster) : SpottingData :=
  if time.isHalloween env then
    let multiplier_ := config.GLOBAL_MODIFIERS_events_halloween in
    finish env (Num.mul (spottingChance m) multiplier_) (Some "halloween")
           [multiplier "Global Multiplier" None multiplier_]
  else
    match _checkRestrictions env m with
    | Some reason =>
        {| chance := 0; event := None; breakdown := [impossible reason] |}
    | None =>
        let '(chance, breakdown) := ordinaryDay env m in
        finish env chance None breakdown
    end.

(** [definition.condition()] in [_evaluateModifier] is a call of
    [undefined] when [modifierName] is a name that the table inherits from
    [Object.prototype]: the definition found is truthy and has no
    [condition]. *)
Definition evaluationThrows (modifierName : string) (type : config.ModifierType)
  : bool :=
  match config.getProperty (MODIFIER_DEFINITIONS type) modifierName with
  | config.inherited => true
  | _ => false
  end.

(** When [calculateSpottingData] throws a TypeError instead of returning:
    off Halloween and with the restrictions met, when it evaluates a bonus
    or a penalty under such a name.  [calculateSpottingData] above is the
    value that is returned otherwise. *)
Definition throwsTypeError (env : Env) (m : Monster) : bool :=
  negb (time.isHalloween env)
  && match _checkRestrictions env m with
     | Some _ => false
     | None =>
         existsb (fun n => evaluationThrows n config.bonuses)
                 (default [] (bonuses m))
         || existsb (fun n => evaluationThrows n config.penalties)
                    (default [] (penalties m))
     end.

End monster.

(** ** The store of shared objects *)

Module store.

(** A location object of the dataset, after [processLoadedData]. *)
Record Location := {
  geonameid : Z;
  name : string;
  latitude : number;
  longitude : number;
  featureClass : string;
  featureCode : string;
  fullFeatureCode : string;
  admin1 : string;
  admin2 : string;
  admin3 : string
}.

(** The object literal [{ ...baseLocation, lat, lng }]: the properties
    copied from the base location, and the two new ones. *)
Record SpottedLocation := {
  spread : Location;
  lat : number;
  lng : number
}.

Inductive Obj :=
| ObjLocation (l : Location)
| ObjSpotted (s : SpottedLocation).

(** The address of an object is its position; allocation appends. *)
Definition Store := list Obj.

(** What one generator and the store are at a point of the simulation:
    how many numbers the generator has given, and the objects. *)
Record SimState := {
  drawn : nat;
  objects : Store
}.

(** Computations that read the generator, read and extend the store, and
    may throw ([None]). *)
Definition Sim (A : Type) : Type := SimState -> option (A * SimState).

Definition ret {A : Type} (a : A) : Sim A := fun st => Some (a, st).

Definition bind {A B : Type} (c : Sim A) (k : A -> Sim B) : Sim B :=
  fun st => match c st with
            | Some (a, st') => k a st'
            | None => None
            end.

Definition throw {A : Type} : Sim A := fun _ => None.

(** [rng()] on the generator whose outputs are [stream]. *)
Definition next (stream : nat -> number) : Sim number :=
  fun st => Some (stream (drawn st),
                  {| drawn := S (drawn st); objects := objects st |}).

(** A new object. *)
Definition alloc (o : Obj) : Sim nat :=
  fun st => Some (length (objects st),
                  {| drawn := drawn st; objects := push (objects st) o |}).

(** Reading the properties of the location object that [r] refers to;
    reading them off [undefined], or off what is no location, throws. *)
Definition readLocation (r : option nat) : Sim Location :=
  fun st => match r with
            | Some a =>
                match objects st !! a with
                | Some (ObjLocation l) => ret l st
                | _ => throw st
                end
            | None => throw st
            end.

End store.

Notation "'let!' x ':=' c 'in' k" := (store.bind c (fun x => k))
  (at level 10, x name, c at level 100, k at level 200).

(** ** services/dataLoader.js *)

Module dataLoader.
Import state store.

(** A location as locations_se.json gives it. *)
Record RawLocation := {
  rawGeonameid : Z;
  rawName : string;
  rawLatitude : number;
  rawLongitude : number;
  rawFeatureClass : string;
  rawFeatureCode : string;
  rawAdmin1 : string;
  rawAdmin2 : string;
  rawAdmin3 : string
}.

(** [{ ...loc, fullFeatureCode: `${loc.featureClass}.${loc.featureCode}` }]. *)
Definition withFullFeatureCode (loc : RawLocation) : Location :=
  {| geonameid := rawGeonameid loc;
     name := rawName loc;
     latitude := rawLatitude loc;
     longitude := rawLongitude loc;
     featureClass := rawFeatureClass loc;
     featureCode := rawFeatureCode loc;
     fullFeatureCode :=
       String.append (rawFeatureClass loc) (String.append "." (rawFeatureCode loc));
     admin1 := rawAdmin1 loc;
     admin2 := rawAdmin2 loc;
     admin3 := rawAdmin3 loc |}.

(** [if (!index.has(key)) index.set(key, []); index.get(key).push(ref)]. *)
Definition pushAt (key : string) (ref : nat) (index : gmap string (list nat))
  : gmap string (list nat) :=
  <[key := push (default [] (index !! key)) ref]> index.

(** The part of [processLoadedData] that the engine depends on: the
    location objects are allocated in order, and both indexes receive
    their addresses.  The date of [app] is kept. *)
Fixpoint indexLocations (locations : list RawLocation) (objects : Store)
    (byCode byClass : gmap string (list nat))
  : Store * gmap string (list nat) * gmap string (list nat) :=
  match locations with
  | [] => (objects, byCode, byClass)
  | loc :: rest =>
      let l := withFullFeatureCode loc in
      let ref := length objects in
      indexLocations rest (push objects (ObjLocation l))
        (pushAt (fullFeatureCode l) ref byCode)
        (pushAt (featureClass l) ref byClass)
  end.

Definition processLoadedData (date : Z) (locations : list RawLocation)
  : Store * AppState :=
  let '(objects, byCode, byClass) := indexLocations locations [] ∅ ∅ in
  (objects,
   {| currentDate := date;
      locationsByFeatureCode := byCode;
      locationsByFeatureClass := byClass |}).

End dataLoader.

(** ** services/spottingCalculator.js: the simulation engine *)

Module spottingCalculator.
Import state config store.

Definition getLikelihood (count : Z) : string :=
  if count <=? 0 then "Very Low"
  else if count <=? 2 then "Low"
  else if count <=? 5 then "Medium"
  else "High".

(** [set.add(x)] on a [Set] held as the list of its elements in the order
    they were first added. *)
Definition setAdd (set : list string) (x : string) : list string :=
  if bool_decide (x ∈ set) then set else push set x.

(** One turn of the [forEach] over [monster.locations]; [None] is the
    TypeError of [LOCATION_GROUPS[locIdentifier].forEach] when what is
    found under the identifier is inherited from [Object.prototype]. *)
Definition resolveTurn (resolvedFeatureCodes : list string) (locIdentifier : string)
  : option (list string) :=
  match getProperty LOCATION_GROUPS locIdentifier with
  | own group => Some (fold_left setAdd group resolvedFeatureCodes)
  | inherited => None
  | undefined => Some (setAdd resolvedFeatureCodes locIdentifier)
  end.

(** The [forEach] over [monster.locations]. *)
Fixpoint resolveLoop (locIdentifiers : list string)
    (resolvedFeatureCodes : list string) : option (list string) :=
  match locIdentifiers with
  | [] => Some resolvedFeatureCodes
  | locIdentifier :: rest =>
      match resolveTurn resolvedFeatureCodes locIdentifier with
      | Some resolvedFeatureCodes' => resolveLoop rest resolvedFeatureCodes'
      | None => None
      end
  end.

(** One turn of that [forEach] when it does not throw, and the set that
    the loop then leaves ([resolveLoop_plain] below). *)
Definition resolveStep (resolvedFeatureCodes : list string) (locIdentifier : string)
  : list string :=
  match LOCATION_GROUPS !! locIdentifier with
  | Some group => fold_left setAdd group resolvedFeatureCodes
  | None => setAdd resolvedFeatureCodes locIdentifier
  end.

Definition resolveFeatureCodes (m : monster.Monster) : list string :=
  fold_left resolveStep (monster.locations m) [].

(** [code.includes('.')]. *)
Fixpoint includesDot (code : string) : bool :=
  match code with
  | EmptyString => false
  | String c rest => Ascii.eqb c "."%char || includesDot rest
  end.

(** One turn of the [forEach] over [resolvedFeatureCodes]. *)
Definition poolStep (app : AppState) (locationPool : list nat) (code : string)
  : list nat :=
  if includesDot code
  then (locationPool ++ default [] (locationsByFeatureCode app !! code))%list
  else (locationPool ++ default [] (locationsByFeatureClass app !! code))%list.

(** The [forEach] over [resolvedFeatureCodes]. *)
Definition poolOf (app : AppState) (resolvedFeatureCodes : list string) : list nat :=
  fold_left (poolStep app) resolvedFeatureCodes [].

(** The pool of a monster, when the resolution of its habitats does not
    throw. *)
Definition buildLocationPool (app : AppState) (m : monster.Monster) : list nat :=
  fold_left (poolStep app) (resolveFeatureCodes m) [].

(** [locationPool[Math.floor(r * locationPool.length)]]. *)
Definition pick (locationPool : list nat) (r : number) : option nat :=
  let index := Num.floor (Num.mul r (Num.ofZ (Z.of_nat (length locationPool)))) in
  if index <? 0 then None else locationPool !! Z.to_nat index.

(** [latitude + (r - 0.5) * 0.01], in binary64: [0.01] is the double
    nearest to it, and each of the three operations rounds. *)
Definition jitter (coordinate r : number) : number :=
  Num.fadd coordinate (Num.fmul (Num.fsub r 0.5) (Num.double 0.01)).

(** The [for] loop of [generateMonsterLocations], [remaining] turns of it. *)
Fixpoint placeSightings (rng : nat -> number) (locationPool : list nat)
    (remaining : nat) (monsterLocations : list nat) : Sim (list nat) :=
  match remaining with
  | O => ret monsterLocations
  | S remaining' =>
      let! r := next rng in
      let! baseLocation := readLocation (pick locationPool r) in
      let! r1 := next rng in
      let! r2 := next rng in
      let! spottedLocation := alloc (ObjSpotted
        {| spread := baseLocation;
           lat := jitter (latitude baseLocation) r1;
           lng := jitter (longitude baseLocation) r2 |}) in
      placeSightings rng locationPool remaining' (push monsterLocations spottedLocation)
  end.

Definition generateMonsterLocations (app : AppState) (m : monster.Monster) (count : nat)
    (rng : nat -> number) : Sim (list nat) :=
  if (count =? 0)%nat then ret []
  else
    match resolveLoop (monster.locations m) [] with
    | None => throw
    | Some resolvedFeatureCodes =>
        let locationPool := poolOf app resolvedFeatureCodes in
        if (length locationPool =? 0)%nat then ret []
        else placeSightings rng locationPool count []
    end.

(** A record of [calculatedData]. *)
Record SpottedMonster := {
  count : nat;
  locations : list nat;
  likelihood : string;
  currentChance : number;
  breakdown : list monster.Step;
  event : option string
}.

(** [step.type === 'impossible']. *)
Definition isImpossibleStep (step : monster.Step) : bool :=
  match step with monster.impossible _ => true | _ => false end.

(** The loop of the sighting rolls, [remaining] turns of it. *)
Fixpoint rollSightings (rng : nat -> number) (chance : number)
    (remaining : nat) (spottedCount : nat) : Sim nat :=
  match remaining with
  | O => ret spottedCount
  | S remaining' =>
      let! r := next rng in
      rollSightings rng chance remaining'
        (if Num.ltb r chance then S spottedCount else spottedCount)
  end.

Definition maxSpotted : nat := 40.

Section WithGenerator.

(** [new Math.seedrandom(seed)]: the outputs of the generator. *)
Variable seedrandom : string -> nat -> number.

(** The body of the [forEach] of [calculateSpottedMonsters] for one
    monster, on its own generator, once [calculateSpottingData] has
    returned. *)
Definition spotMonster (env : Env) (dateSeed : string) (m : monster.Monster)
  : Sim SpottedMonster :=
  let monsterRNG := seedrandom (String.append dateSeed (monster.id m)) in
  let spottingData := monster.calculateSpottingData env m in
  if Num.leb (monster.chance spottingData) 0 then
    let isImpossible := existsb isImpossibleStep (monster.breakdown spottingData) in
    ret {| count := 0;
           locations := [];
           likelihood := if isImpossible then "Impossible" else "Very Low";
           currentChance := 0;
           breakdown := monster.breakdown spottingData;
           event := monster.event spottingData |}
  else
    let! spottedCount := rollSightings monsterRNG (monster.chance spottingData) maxSpotted 0 in
    let! placed := generateMonsterLocations (appState env) m spottedCount monsterRNG in
    ret {| count := spottedCount;
           locations := placed;
           likelihood := getLikelihood (Z.of_nat spottedCount);
           currentChance := monster.chance spottingData;
           breakdown := monster.breakdown spottingData;
           event := monster.event spottingData |}.

(** The whole body of the [forEach] for one monster: it throws when
    [calculateSpottingData] does. *)
Definition spotTurn (env : Env) (dateSeed : string) (m : monster.Monster)
  : Sim SpottedMonster :=
  if monster.throwsTypeError env m then throw
  else spotMonster env dateSeed m.

(** The [forEach] over the monsters: each has a generator of its own,
    the store is the one of all; an error in one turn ends the loop. *)
Fixpoint spotAll (env : Env) (dateSeed : string) (monsters : list monster.Monster)
    (calculatedData : gmap string SpottedMonster) (objects : Store)
  : option (gmap string SpottedMonster * Store) :=
  match monsters with
  | [] => Some (calculatedData, objects)
  | m :: rest =>
      match spotTurn env dateSeed m {| drawn := 0; objects := objects |} with
      | Some (data, st) =>
          spotAll env dateSeed rest (<[monster.id m := data]> calculatedData) (store.objects st)
      | None => None
      end
  end.

(** [calculateSpottedMonsters]: the records by monster id, and the store
    it leaves; [None] when it throws. *)
Definition calculateSpottedMonsters (env : Env) (monsters : list monster.Monster)
    (objects : Store) : option (gmap string SpottedMonster * Store) :=
  let dateSeed := time.getDateSeed env in
  spotAll env dateSeed monsters ∅ objects.

End WithGenerator.

End spottingCalculator.

(** ** utils/helpers.js *)

Module helpers.

Definition getLikelihoodClass (likelihood : string) : string :=
  if String.eqb likelihood "Impossible" then "likelihood-impossible"
  else if String.eqb likelihood "High" then "likelihood-high"
  else if String.eqb likelihood "Medium" then "likelihood-medium"
  else if String.eqb likelihood "Low" then "likelihood-low"
  else "likelihood-vlow".

(** [code.startsWith(p)] is [String.prefix p code]. *)
Definition getLocationIcon (code : string) : string :=
  if String.prefix "P." code then "🏙️"
  else if String.prefix "V.FRST" code then "🌲"
  else if String.prefix "T." code then "🏔️"
  else if String.prefix "H." code then "💧"
  else if String.prefix "S." code then "🏛️"
  else "❓".

(** An entry of [featureCodeMap]: what featureCodes_sv.json gives for a
    code; [name] may be absent. *)
Record FeatureCodeInfo := {
  name : option string;
  description : option string
}.

(** [info && info.name]: the name when the entry is there and its name is
    a string that is not empty. *)
Definition truthyName (info : option FeatureCodeInfo) : option string :=
  match info with
  | Some i =>
      match name i with
      | Some n => if String.eqb n "" then None else Some n
      | None => None
      end
  | None => None
  end.

(** [getLocationTypeName]; [featureCodeMap] is [appState.featureCodeMap],
    [location] is [None] for [null]. *)
Definition getLocationTypeName (featureCodeMap : gmap string FeatureCodeInfo)
    (location : option store.Location) : string :=
  match location with
  | None => "Unknown"
  | Some location =>
      match truthyName (featureCodeMap !! store.fullFeatureCode location) with
      | Some specificName => specificName
      | None =>
          match truthyName (featureCodeMap !! store.featureClass location) with
          | Some generalName => generalName
          | None => "Area"
          end
      end
  end.

End helpers.

(** ** utils/url.js and ui/listeners.js: the date of a shared view *)

Module url.

(** [Date.UTC(year, month, day)] in full: a month outside 0..11 carries
    into the year, a day outside the month carries into the neighbouring
    months, and a year from 0 to 99 stands for 1900 + year. *)
Definition DateUTC (year month day : Z) : Z :=
  let year := if (0 <=? year) && (year <=? 99) then 1900 + year else year in
  (JSDate.days_from_civil (year + month / 12) (month mod 12 + 1) 1 + day - 1)
  * JSDate.msPerDay.

Definition isDigit (c : ascii) : bool :=
  (48 <=? nat_of_ascii c)%nat && (nat_of_ascii c <=? 57)%nat.

(** [Number(s)] for a string of decimal digits. *)
Fixpoint digitsValue (s : string) (acc : Z) : Z :=
  match s with
  | EmptyString => acc
  | String c rest => digitsValue rest (acc * 10 + (Z.of_nat (nat_of_ascii c) - 48))
  end.

(** [/^\d{4}-\d{2}-\d{2}$/.test(s)], and with it the three parts of
    [s.split('-')]. *)
Definition dateParts (s : string) : option (string * string * string) :=
  match s with
  | String y1 (String y2 (String y3 (String y4 (String sep1
      (String m1 (String m2 (String sep2 (String d1 (String d2 EmptyString))))))))) =>
      if isDigit y1 && isDigit y2 && isDigit y3 && isDigit y4
         && Ascii.eqb sep1 "-" && isDigit m1 && isDigit m2
         && Ascii.eqb sep2 "-" && isDigit d1 && isDigit d2
      then Some (String y1 (String y2 (String y3 (String y4 EmptyString))),
                 String m1 (String m2 EmptyString),
                 String d1 (String d2 EmptyString))
      else None
  | _ => None
  end.

(** The part of [parseUrlHash] that sets the date: [dateStr] is
    [params.get('date')], the result is the new [appState.currentDate],
    [None] when the date is left as it was. *)
Definition dateFromParam (dateStr : option string) : option Z :=
  match dateStr with
  | None => None
  | Some dateStr =>
      match dateParts dateStr with
      | Some (year, month, day) =>
          Some (DateUTC (digitsValue year 0) (digitsValue month 0 - 1)
                        (digitsValue day 0))
      | None => None
      end
  end.

End url.

(** ** ui/header.js *)

Module header.
Import state.

(** The text of the day and night icon that [updateHeader] sets; [None] is
    [undefined]. *)
Definition dayNightIcon (env : Env) : option string :=
  let now := time.getCurrentTime env in
  if (6 <=? JSDate.getHours now) && (JSDate.getHours now <? 18)
  then Some "☀️"
  else time.getMoonPhaseIcon (currentDate (appState env)).

End header.

(** ** ui/debugPanel.js *)

Module debugPanel.
Import state.

(** [adjustTime]: the hours and minutes that it writes into the time
    input, from the input's value ([None] when it is empty), the time
    value [today] of its [new Date()], the time zone and the number of
    minutes to add. *)
Definition adjustTime (zone : JSDate.TimeZone) (today : Z)
    (currentTime : option (Z * Z)) (minutes : Z) : Z * Z :=
  let d :=
    match currentTime with
    | None => today
    | Some (hours, mins) =>
        let local := JSDate.timeOfDay zone today in
        JSDate.setHours zone today hours mins
          (JSDate.getSeconds local) (JSDate.getMilliseconds local)
    end in
  let d :=
    JSDate.setMinutes zone d (JSDate.getMinutes (JSDate.timeOfDay zone d) + minutes) in
  (JSDate.getHours (JSDate.timeOfDay zone d),
   JSDate.getMinutes (JSDate.timeOfDay zone d)).

(** The listener of the time input after [adjustTime]: the value it wrote
    becomes [debugState.forceTime]. *)
Definition adjustForcedTime (env : Env) (today : Z) (minutes : Z) : Env :=
  {| appState := appState env;
     debugState :=
       {| multiplier := multiplier (debugState env);
          forceTime :=
            Some (adjustTime (zone env) today (forceTime (debugState env)) minutes);
          forceFullMoon := forceFullMoon (debugState env);
          forceSeason := forceSeason (debugState env);
          forceHalloween := forceHalloween (debugState env) |};
     now := now env;
     zone := zone env |}.

End debugPanel.

(** ** ui/map.js: the administrative parents of a location *)

Module map.
Import store.

(** [allLocations.find(test)]. *)
Fixpoint find (test : Location -> bool) (allLocations : list Location)
  : option Location :=
  match allLocations with
  | [] => None
  | l :: rest => if test l then Some l else find test rest
  end.

(** [findParent]; [None] is [null] or [undefined]. *)
Definition findParent (allLocations : list Location) (location : option Location)
  : option Location :=
  match location with
  | None => None
  | Some location =>
      if String.eqb (featureClass location) ""
         || negb (String.eqb (featureClass location) "A")
         || String.eqb (fullFeatureCode location) "A.ADM1"
      then None
      else
        let code := fullFeatureCode location in
        if String.eqb code "A.ADM2" then
          find (fun l => String.eqb (fullFeatureCode l) "A.ADM1"
                         && String.eqb (admin1 l) (admin1 location)) allLocations
        else if String.eqb code "A.ADM3" then
          find (fun l => String.eqb (fullFeatureCode l) "A.ADM2"
                         && String.eqb (admin1 l) (admin1 location)
                         && String.eqb (admin2 l) (admin2 location)) allLocations
        else if String.eqb code "A.ADM4" then
          find (fun l => String.eqb (fullFeatureCode l) "A.ADM3"
                         && String.eqb (admin1 l) (admin1 location)
                         && String.eqb (admin2 l) (admin2 location)
                         && String.eqb (admin3 l) (admin3 location)) allLocations
        else None
  end.

(** The loop of [updateRegionBrowser] that builds [ancestry]:
    [while (p) { ancestry.unshift(p); p = findParent(p); }], with a bound
    on the number of turns; [None] when the bound is reached. *)
Fixpoint climb (allLocations : list Location) (turns : nat)
    (p : option Location) (ancestry : list Location) : option (list Location) :=
  match p with
  | None => Some ancestry
  | Some parent =>
      match turns with
      | O => None
      | S turns' =>
          climb allLocations turns' (findParent allLocations (Some parent))
                (parent :: ancestry)
      end
  end.



End map.

(** ** ui/monsterPanel.js *)

Module monsterPanel.

(** [new Set(monster.locations.map(code => getLocationIcon(code)))], as
    the list of its elements in the order they were first added. *)
Definition uniqueLocIcons (m : monster.Monster) : list string :=
  fold_left spottingCalculator.setAdd
    (List.map helpers.getLocationIcon (monster.locations m)) [].

End monsterPanel.

(** ** Sample data *)

Module sample.
Import state.

Definition rawLocations : list dataLoader.RawLocation := [
  {| dataLoader.rawGeonameid := 2673730; dataLoader.rawName := "Stockholm";
     dataLoader.rawLatitude := 59.33; dataLoader.rawLongitude := 18.06;
     dataLoader.rawFeatureClass := "P"; dataLoader.rawFeatureCode := "PPLC";
     dataLoader.rawAdmin1 := "26"; dataLoader.rawAdmin2 := "0180";
     dataLoader.rawAdmin3 := "" |};
  {| dataLoader.rawGeonameid := 2700789; dataLoader.rawName := "Kebnekaise";
     dataLoader.rawLatitude := 67.9; dataLoader.rawLongitude := 18.52;
     dataLoader.rawFeatureClass := "T"; dataLoader.rawFeatureCode := "MT";
     dataLoader.rawAdmin1 := "14"; dataLoader.rawAdmin2 := "2584";
     dataLoader.rawAdmin3 := "" |}
].

(** The store and the indexes that [processLoadedData] makes of them. *)
Definition objects : store.Store :=
  fst (dataLoader.processLoadedData 0 rawLocations).

Definition appStateOn (date : Z) : AppState :=
  snd (dataLoader.processLoadedData date rawLocations).

Definition noon : WallClock :=
  {| nowHours := 12; nowMinutes := 0; nowSeconds := 0; nowMilliseconds := 0 |}.

Definition lateEvening : WallClock :=
  {| nowHours := 22; nowMinutes := 30; nowSeconds := 15; nowMilliseconds := 250 |}.

(** The same minute as [lateEvening], later in it. *)
Definition lateEveningLater : WallClock :=
  {| nowHours := 22; nowMinutes := 30; nowSeconds := 59; nowMilliseconds := 999 |}.

(** A caller whose clock is UTC. *)
Definition utc : JSDate.TimeZone :=
  {| JSDate.offsetAtUTC := fun _ => 0; JSDate.offsetAtLocal := fun _ => 0 |}.

(** Europe/Stockholm in 2024: one hour ahead of UTC, two from 31 March
    01:00 UTC to 27 October 01:00 UTC. *)
Definition stockholm2024 : JSDate.TimeZone :=
  let summerFrom := JSDate.UTC 2024 2 31 1 0 in
  let summerTo := JSDate.UTC 2024 9 27 1 0 in
  {| JSDate.offsetAtUTC := fun t =>
       if (summerFrom <=? t) && (t <? summerTo) then 7200000 else 3600000;
     JSDate.offsetAtLocal := fun t =>
       if (summerFrom + 7200000 <=? t) && (t <? summerTo + 7200000)
       then 7200000 else 3600000 |}.

Definition envOn (date : Z) (clock : WallClock) : Env :=
  {| appState := appStateOn date; debugState := defaultDebugState; now := clock;
     zone := utc |}.

Definition halloween2024 : Z := JSDate.UTC 2024 9 31 0 0.
Definition midsummer2024 : Z := JSDate.UTC 2024 5 21 0 0.
Definition march2024 : Z := JSDate.UTC 2024 2 12 0 0.
Definition december1999 : Z := JSDate.UTC 1999 11 22 0 0.

(** Base probability 0.1, no restrictions. *)
Definition ghost : monster.Monster :=
  {| monster.id := "ghost"; monster.spottingChance := 0.1;
     monster.activeSeasons := ["Fall"; "Winter"]; monster.activeTime := ["any"];
     monster.restriction := None;
     monster.bonuses := Some ["witchingHour"]; monster.penalties := Some ["day"];
     monster.overrides := None;
     monster.locations := ["places_of_death"; "haunted_houses"] |}.

(** Walks at night only, in the mountains and in populated places. *)
Definition troll : monster.Monster :=
  {| monster.id := "troll"; monster.spottingChance := 0.5;
     monster.activeSeasons := ["Spring"; "Summer"; "Fall"; "Winter"];
     monster.activeTime := ["Night"];
     monster.restriction :=
       Some {| monster.requiresFullMoon := false; monster.requiresDark := false;
               monster.requiresNight := true |};
     monster.bonuses := None; monster.penalties := None;
     monster.overrides := None;
     monster.locations := ["mountains_high"; "P"] |}.

(** Lives where people live. *)
Definition tomte : monster.Monster :=
  {| monster.id := "tomte"; monster.spottingChance := 0.3;
     monster.activeSeasons := ["Winter"]; monster.activeTime := ["any"];
     monster.restriction := None;
     monster.bonuses := Some ["yule"]; monster.penalties := None;
     monster.overrides := None;
     monster.locations := ["settlements_urban"] |}.

(** An entity whose own magnitude for the midsummer bonus is 0. *)
Definition fairy : monster.Monster :=
  {| monster.id := "fairy"; monster.spottingChance := 0.05;
     monster.activeSeasons := ["Spring"; "Summer"; "Fall"; "Winter"];
     monster.activeTime := ["any"];
     monster.restriction := None;
     monster.bonuses := Some ["midsummer"]; monster.penalties := None;
     monster.overrides :=
       Some (fun type => match type with
                         | config.bonuses => Some {[ "midsummer" := 0%Q ]}
                         | config.penalties => None
                         end);
     monster.locations := ["forests_all"] |}.

(** Stockholm with the coordinates that [JSON.parse] reads from the texts
    59.33 and 18.06: the nearest doubles. *)
Definition stockholmAsParsed : dataLoader.RawLocation :=
  {| dataLoader.rawGeonameid := 2673730; dataLoader.rawName := "Stockholm";
     dataLoader.rawLatitude := Num.double 59.33;
     dataLoader.rawLongitude := Num.double 18.06;
     dataLoader.rawFeatureClass := "P"; dataLoader.rawFeatureCode := "PPLC";
     dataLoader.rawAdmin1 := "26"; dataLoader.rawAdmin2 := "0180";
     dataLoader.rawAdmin3 := "" |}.

(** An entity whose habitat is no group and no feature code, but a name
    that every object literal inherits. *)
Definition changeling : monster.Monster :=
  {| monster.id := "changeling"; monster.spottingChance := 0.5;
     monster.activeSeasons := ["Spring"; "Summer"; "Fall"; "Winter"];
     monster.activeTime := ["any"];
     monster.restriction := None;
     monster.bonuses := None; monster.penalties := None;
     monster.overrides := None;
     monster.locations := ["constructor"] |}.

(** An entity with a bonus of such a name. *)
Definition imp : monster.Monster :=
  {| monster.id := "imp"; monster.spottingChance := 0.5;
     monster.activeSeasons := ["Spring"; "Summer"; "Fall"; "Winter"];
     monster.activeTime := ["any"];
     monster.restriction := None;
     monster.bonuses := Some ["toString"]; monster.penalties := None;
     monster.overrides := None;
     monster.locations := ["settlements_urban"] |}.

(** A generator whose numbers are all [r]. *)
Definition constantStream (r : number) : string -> nat -> number :=
  fun _ _ => r.

End sample.

(** ** The words of the specification *)

(** The clamp of the rules engine, [Math.max(0, Math.min(x, 1))], in the
    words of the specification. *)
Definition clamp01 (x : Q) : Q := Qmax 0 (Qmin x 1).

(** The ramp of a period at a minute, in the words of the specification:
    [1 + (peakMultiplier - 1) * progress^2], where [progress] is
    [(now - start) / (peak - start)] at or before the peak and
    [(end - now) / (end - peak)] after it. *)
Definition specProgress (p : config.Period) (now : Z) : Q :=
  if now <=? config.peak p
  then inject_Z (now - config.start p) / inject_Z (config.peak p - config.start p)
  else inject_Z (config.end_ p - now) / inject_Z (config.end_ p - config.peak p).

Definition specRamp (p : config.Period) (now : Z) : Q :=
  1 + (config.multiplier p - 1) * (specProgress p now * specProgress p now).

(** [p] is a period that one of the names [times] names and whose closed
    interval contains the minute [now]. *)
Definition activeAt (times : list string) (now : Z) (p : config.Period) : Prop :=
  exists periodName,
    periodName ∈ times
    /\ config.period_of config.TIME_PERIODS periodName = Some p
    /\ config.start p <= now <= config.end_ p.

(** What the loop of [getTimeMultiplier] holds in [highestMultiplier] after
    the names [times]. *)
Definition highestSoFar (times : list string) (now : Z) (h : number) : Prop :=
  (h = 0%Q /\ forall p, ~ activeAt times now p)
  \/ (exists p, activeAt times now p /\ (h == specRamp p now)%Q
      /\ forall p', activeAt times now p' -> (specRamp p' now <= h)%Q).

(** A wall clock as [new Date()] gives it: hours, minutes, seconds and
    milliseconds within their ranges. *)
Definition validClock (c : state.WallClock) : Prop :=
  0 <= state.nowHours c < 24
  /\ 0 <= state.nowMinutes c < 60
  /\ 0 <= state.nowSeconds c < 60
  /\ 0 <= state.nowMilliseconds c < 1000.

(** A habitat identifier that names a known group stands for the feature
    codes of the group; any other identifier stands for itself. *)
Definition expandsTo (locIdentifier code : string) : Prop :=
  match config.LOCATION_GROUPS !! locIdentifier with
  | Some group => code ∈ group
  | None => code = locIdentifier
  end.

(** The locations that match a resolved code: by full feature code when
    the code is specific (it has a dot), by feature class otherwise; none
    when the index has no entry for the code. *)
Definition matchingLocations (app : state.AppState) (code : string) : list nat :=
  if spottingCalculator.includesDot code
  then default [] (state.locationsByFeatureCode app !! code)
  else default [] (state.locationsByFeatureClass app !! code).

(** Every address held by an index of [app] is the address of a location
    object of the store. *)
Definition indexedLocations (app : state.AppState) (objects : store.Store) : Prop :=
  forall code refs ref,
    (state.locationsByFeatureCode app !! code = Some refs
     \/ state.locationsByFeatureClass app !! code = Some refs) ->
    ref ∈ refs ->
    exists l, objects !! ref = Some (store.ObjLocation l).

(** Every address of [pool] is the address of a location object. *)
Definition poolOfLocations (objects : store.Store) (pool : list nat) : Prop :=
  forall ref, ref ∈ pool -> exists l, objects !! ref = Some (store.ObjLocation l).

(** [o] is a placement built from a location of [pool]: it has the
    properties of that location, [latitude] and [longitude] among them,
    and coordinates [lat] and [lng] that are the location's with the
    jitter of two numbers of [0, 1). *)
Definition placementOf (objects : store.Store) (pool : list nat) (o : store.Obj)
  : Prop :=
  exists ref baseLocation spotted r1 r2,
    ref ∈ pool
    /\ objects !! ref = Some (store.ObjLocation baseLocation)
    /\ o = store.ObjSpotted spotted
    /\ store.spread spotted = baseLocation
    /\ (0 <= r1 < 1)%Q /\ (0 <= r2 < 1)%Q
    /\ store.lat spotted = spottingCalculator.jitter (store.latitude baseLocation) r1
    /\ store.lng spotted = spottingCalculator.jitter (store.longitude baseLocation) r2.

(** Geographic coordinates: a latitude and a longitude of at most 180
    degrees in magnitude. *)
Definition geographic (l : store.Location) : Prop :=
  (Qabs (store.latitude l) <= 180)%Q /\ (Qabs (store.longitude l) <= 180)%Q.

(** How far the jitter moves a geographic coordinate at most: 0.005, and
    the rounding of the three operations, less than 10^-13. *)
Definition jitterReach : Q := 0.005 + (1 # 10000000000000).

(** No habitat identifier of [m] is a name inherited from
    [Object.prototype]. *)
Definition plainHabitats (m : monster.Monster) : Prop :=
  forall locIdentifier,
    locIdentifier ∈ monster.locations m ->
    locIdentifier ∉ config.objectPrototypeNames.

(** The offsets of [zone] are whole minutes and change at whole minutes. *)
Definition minuteZone (zone : JSDate.TimeZone) : Prop :=
  forall t,
    JSDate.offsetAtUTC zone t mod 60000 = 0
    /\ JSDate.offsetAtLocal zone t mod 60000 = 0
    /\ JSDate.offsetAtUTC zone t = JSDate.offsetAtUTC zone (60000 * (t / 60000))
    /\ JSDate.offsetAtLocal zone t = JSDate.offsetAtLocal zone (60000 * (t / 60000)).

(** A zone without changes of the clock. *)
Definition fixedOffset (zone : JSDate.TimeZone) : Prop :=
  exists offset,
    forall t, JSDate.offsetAtUTC zone t = offset
              /\ JSDate.offsetAtLocal zone t = offset.

(** The local time of day that [setHours(h, m, s, ms)] gives in a zone
    without changes of the clock. *)
Definition plainTime (h m s ms : Z) : JSDate.TimeOfDay :=
  {| JSDate.msOfDay := JSDate.MakeTime h m s ms mod JSDate.msPerDay |}.

(** The local time of day that [setMinutes(getMinutes() + minutes)] gives
    there. *)
Definition plainAddMinutes (t : JSDate.TimeOfDay) (minutes : Z) : JSDate.TimeOfDay :=
  {| JSDate.msOfDay :=
       (JSDate.msOfDay t - JSDate.getMinutes t * 60000
        + (JSDate.getMinutes t + minutes) * 60000) mod JSDate.msPerDay |}.

(** The numbers of a generator lie in [0, 1). *)
Definition unitStream (stream : nat -> number) : Prop :=
  forall n, (0 <= stream n < 1)%Q.

(** What a step of a breakdown does to the running probability when the
    breakdown is read back: [base] sets it, [multiplier] and [penalty]
    multiply it, [bonus] adds to it, [final] reports and leaves it, and
    [impossible] makes it 0. *)
Definition applyStep (running : Q) (step : monster.Step) : Q :=
  match step with
  | monster.final _ _ => running
  | monster.base _ value => value
  | monster.multiplier _ _ value => running * value
  | monster.bonus _ value => running + value
  | monster.penalty _ value => running * value
  | monster.impossible _ => 0
  end.

(** Reading a breakdown back from the base probability of the entity. *)
Definition replay (baseChance : Q) (breakdown : list monster.Step) : Q :=
  fold_left applyStep breakdown baseChance.

(** The steps that a breakdown has after its [final] step. *)
Definition isModifierStep (step : monster.Step) : Prop :=
  match step with
  | monster.base _ _ | monster.multiplier _ _ _
  | monster.bonus _ _ | monster.penalty _ _ => True
  | monster.final _ _ | monster.impossible _ => False
  end.

(** A restriction of [r] is required and does not hold. *)
Definition unmetRestriction (env : state.Env) (r : monster.Restriction) : Prop :=
  (monster.requiresFullMoon r = true /\ time.isFullMoon env = false)
  \/ (monster.requiresDark r = true /\ time.isDark env = false)
  \/ (monster.requiresNight r = true /\ time.isNight env = false).

(** What the [else] branch keeps true of the running chance [c] and the
    breakdown [b]: [b] is the base step followed by modifier steps, and
    reading it back gives [c]. *)
Definition tracked (m : monster.Monster) (acc : number * list monster.Step) : Prop :=
  let '(c, b) := acc in
  (exists tail, b = monster.base "Base Chance" (monster.spottingChance m) :: tail
                /\ Forall isModifierStep tail)
  /\ (replay (monster.spottingChance m) b == c)%Q.

(** Two records that differ at most in the addresses of their placements. *)
Definition sameButLocations (r1 r2 : spottingCalculator.SpottedMonster) : Prop :=
  spottingCalculator.count r1 = spottingCalculator.count r2
  /\ spottingCalculator.likelihood r1 = spottingCalculator.likelihood r2
  /\ spottingCalculator.currentChance r1 = spottingCalculator.currentChance r2
  /\ spottingCalculator.breakdown r1 = spottingCalculator.breakdown r2
  /\ spottingCalculator.event r1 = spottingCalculator.event r2.

(** The placements of a record: the objects at the addresses it holds. *)
Definition placements (objects : store.Store)
    (r : spottingCalculator.SpottedMonster) : list (option store.Obj) :=
  List.map (fun ref => objects !! ref) (spottingCalculator.locations r).

(** The location object at [ref] has [code] under [key]. *)
Definition keyedAt (key : store.Location -> string) (code : string)
    (objects : store.Store) (ref : nat) : bool :=
  match objects !! ref with
  | Some (store.ObjLocation l) => String.eqb (key l) code
  | _ => false
  end.

(** The addresses, in the order of the store, of the locations that have
    [code] under [key]. *)
Definition refsWith (key : store.Location -> string) (code : string)
    (objects : store.Store) : list nat :=
  List.filter (keyedAt key code objects) (seq 0 (length objects)).

(** The resolved code [code] matches the location [l]: by full feature
    code when it has a dot, by feature class otherwise. *)
Definition matchesCode (l : store.Location) (code : string) : bool :=
  if spottingCalculator.includesDot code
  then String.eqb (store.fullFeatureCode l) code
  else String.eqb (store.featureClass l) code.

(** How many times [ref] is in [pool]. *)
Definition weight (ref : nat) (pool : list nat) : nat :=
  length (List.filter (Nat.eqb ref) pool).

(** [check] holds of the [n] integers from [z] on. *)
Fixpoint allFrom (check : Z -> bool) (n : nat) (z : Z) : bool :=
  match n with
  | O => true
  | S n' => check z && allFrom check n' (z + 1)
  end.

(** The text [s] is four decimal digits that read as [value]. *)
Definition fourDigits (s : string) (value : Z) : bool :=
  match s with
  | String a (String b (String c (String d EmptyString))) =>
      url.isDigit a && url.isDigit b && url.isDigit c && url.isDigit d
      && (url.digitsValue s 0 =? value)
  | _ => false
  end.

(** The text [s] is two decimal digits that read as [value]. *)
Definition twoDigits (s : string) (value : Z) : bool :=
  match s with
  | String a (String b EmptyString) =>
      url.isDigit a && url.isDigit b && (url.digitsValue s 0 =? value)
  | _ => false
  end.

(** * Properties *)

(** ** Numbers *)

Lemma add_correct (a b : number) : (Num.add a b == a + b)%Q.
Proof. apply Qred_correct. Qed.

Lemma sub_correct (a b : number) : (Num.sub a b == a - b)%Q.
Proof. apply Qred_correct. Qed.

Lemma mul_correct (a b : number) : (Num.mul a b == a * b)%Q.
Proof. apply Qred_correct. Qed.

Lemma div_correct (a b : number) : (Num.div a b == a / b)%Q.
Proof. apply Qred_correct. Qed.

Lemma pow2_correct (x : number) : (Num.pow2 x == x * x)%Q.
Proof. apply mul_correct. Qed.

Lemma leb_le (a b : number) : Num.leb a b = true <-> (a <= b)%Q.
Proof. apply Qle_bool_iff. Qed.

Lemma leb_gt (a b : number) : Num.leb a b = false <-> (b < a)%Q.
Proof.
  unfold Num.leb. rewrite <- not_true_iff_false, Qle_bool_iff.
  split; [apply Qnot_le_lt | apply Qlt_not_le].
Qed.

Lemma ltb_lt (a b : number) : Num.ltb a b = true <-> (a < b)%Q.
Proof. unfold Num.ltb. rewrite negb_true_iff. apply leb_gt. Qed.

Lemma ltb_ge (a b : number) : Num.ltb a b = false <-> (b <= a)%Q.
Proof. unfold Num.ltb. rewrite negb_false_iff. apply leb_le. Qed.

Lemma eqb_eq (a b : number) : Num.eqb a b = true <-> (a == b)%Q.
Proof. apply Qeq_bool_iff. Qed.

Lemma eqb_neq (a b : number) : Num.eqb a b = false <-> ~ (a == b)%Q.
Proof. unfold Num.eqb. rewrite <- not_true_iff_false, Qeq_bool_iff. tauto. Qed.

Lemma max_correct (a b : number) : (Num.max a b == Qmax a b)%Q.
Proof.
  unfold Num.max. destruct (Num.leb a b) eqn:E.
  - apply leb_le in E. symmetry. apply Q.max_r. exact E.
  - apply leb_gt in E. symmetry. apply Q.max_l. apply Qlt_le_weak. exact E.
Qed.

Lemma min_correct (a b : number) : (Num.min a b == Qmin a b)%Q.
Proof.
  unfold Num.min. destruct (Num.leb a b) eqn:E.
  - apply leb_le in E. symmetry. apply Q.min_l. exact E.
  - apply leb_gt in E. symmetry. apply Q.min_r. apply Qlt_le_weak. exact E.
Qed.

Lemma clamp_correct (x : number) :
  (Num.max 0 (Num.min x 1) == clamp01 x)%Q.
Proof.
  unfold clamp01. rewrite max_correct.
  apply Q.max_compat; [reflexivity | apply min_correct].
Qed.

Lemma clamp_bounds (x : number) :
  (0 <= Num.max 0 (Num.min x 1) <= 1)%Q.
Proof.
  unfold Num.max, Num.min.
  destruct (Num.leb x 1) eqn:E1.
  - destruct (Num.leb 0 x) eqn:E0.
    + apply leb_le in E0, E1. split; assumption.
    + split; [apply Qle_refl | discriminate].
  - destruct (Num.leb 0 1) eqn:E0.
    + split; [discriminate | apply Qle_refl].
    + discriminate.
Qed.

(** ** Binary64 *)

Section Binary64.

Lemma roundHalfEven_near (q : Q) :
  (Qabs (inject_Z (Num.roundHalfEven q) - q) <= 1 # 2)%Q.
Proof.
  unfold Num.roundHalfEven.
  pose proof (Qfloor_le q) as Hlo.
  pose proof (Qlt_floor q) as Hhi.
  rewrite inject_Z_plus in Hhi. change (inject_Z 1) with 1%Q in Hhi.
  apply Qabs_Qle_condition.
  destruct (Qcompare_spec (q - inject_Z (Qfloor q)) (1 # 2)) as [E | E | E].
  - destruct (Z.even (Qfloor q));
      rewrite ?inject_Z_plus; change (inject_Z 1) with 1%Q; split; lra.
  - split; lra.
  - rewrite inject_Z_plus. change (inject_Z 1) with 1%Q. split; lra.
Qed.

Lemma Qpower_2_pos (e : Z) : (0 < 2 ^ e)%Q.
Proof. apply Qpower_0_lt. reflexivity. Qed.

Lemma exponent_le (a : Q) : (0 < a)%Q -> (2 ^ Num.exponent a <= a)%Q.
Proof.
  intros Ha. unfold Num.exponent.
  set (ln := Z.log2 (Qnum a)). set (ld := Z.log2 (Z.pos (Qden a))).
  destruct (Qle_bool (2 ^ (ln - ld)) a) eqn:E; [apply Qle_bool_iff; exact E |].
  assert (Hn : 0 < Qnum a).
  { destruct a as [n d]. unfold Qlt in Ha. cbn in *. lia. }
  destruct (Z.log2_spec (Qnum a) Hn) as [Hn1 _]. fold ln in Hn1.
  destruct (Z.log2_spec (Z.pos (Qden a)) (Pos2Z.is_pos _)) as [_ Hd2]. fold ld in Hd2.
  assert (Hln : 0 <= ln) by apply Z.log2_nonneg.
  assert (Hld : 0 <= ld) by apply Z.log2_nonneg.
  assert (Hsplit : (2 ^ (ln - ld - 1) * 2 ^ (ld + 1) == 2 ^ ln)%Q).
  { rewrite <- Qpower_plus by discriminate. f_equiv. lia. }
  assert (Hup : (2 ^ (ld + 1) == inject_Z (2 ^ (ld + 1)))%Q).
  { rewrite Zpower_Qpower by lia. reflexivity. }
  assert (Hdn : (2 ^ ln == inject_Z (2 ^ ln))%Q).
  { rewrite Zpower_Qpower by lia. reflexivity. }
  assert (HdQ : (inject_Z (Z.pos (Qden a)) < 2 ^ (ld + 1))%Q).
  { rewrite Hup. rewrite <- Zlt_Qlt. replace (ld + 1) with (Z.succ ld) by lia.
    exact Hd2. }
  assert (HnQ : (2 ^ ln <= inject_Z (Qnum a))%Q).
  { rewrite Hdn. rewrite <- Zle_Qle. exact Hn1. }
  pose proof (Qpower_2_pos (ln - ld - 1)) as HP.
  assert (Hden : (0 < inject_Z (Z.pos (Qden a)))%Q).
  { change 0%Q with (inject_Z 0). rewrite <- Zlt_Qlt. reflexivity. }
  assert (Ha' : (a == inject_Z (Qnum a) / inject_Z (Z.pos (Qden a)))%Q).
  { destruct a as [n d]. apply Qmake_Qdiv. }
  rewrite Ha'. apply Qle_shift_div_l; [exact Hden |].
  set (P := (2 ^ (ln - ld - 1))%Q) in *.
  set (D := inject_Z (Z.pos (Qden a))) in *.
  set (U := (2 ^ (ld + 1))%Q) in *.
  apply Qle_trans with (P * U)%Q; [| rewrite Hsplit; exact HnQ].
  apply Qmult_le_l; [exact HP |]. apply Qlt_le_weak. exact HdQ.
Qed.

(** Rounding to the nearest double moves a number by at most 2^-53 of its
    magnitude. *)
Lemma double_near (x : Q) :
  (Qabs (Num.double x - x) <= Qabs x * (1 # 9007199254740992))%Q.
Proof.
  unfold Num.double.
  destruct (Qeq_bool x 0) eqn:E.
  - apply Qeq_bool_iff in E. rewrite E. cbn. discriminate.
  - assert (Hx : ~ (x == 0)%Q).
    { intros H. apply Qeq_bool_iff in H. congruence. }
    assert (Hax : (0 < Qabs x)%Q).
    { destruct (Qlt_le_dec 0 (Qabs x)) as [H | H]; [exact H |].
      exfalso. apply Hx. apply Qabs_Qle_condition in H. lra. }
    pose proof (exponent_le (Qabs x) Hax) as Hexp.
    set (e := Num.exponent (Qabs x)) in *.
    pose proof (Qpower_2_pos (e - 52)) as Hulp.
    assert (Hscale : (2 ^ (e - 52) * 4503599627370496 == 2 ^ e)%Q).
    { change 4503599627370496%Q with (2 ^ 52)%Q.
      rewrite <- Qpower_plus by discriminate. f_equiv. lia. }
    set (ulp := (2 ^ (e - 52))%Q) in *.
    pose proof (roundHalfEven_near (x / ulp)) as Hround.
    set (mant := inject_Z (Num.roundHalfEven (x / ulp))) in *.
    rewrite Qred_correct.
    assert (Hq : (x == x / ulp * ulp)%Q) by (field; lra).
    set (q := (x / ulp)%Q) in *.
    apply Qabs_Qle_condition in Hround.
    set (ax := Qabs x) in *.
    apply Qabs_Qle_condition.
    clearbody q mant ax ulp. split; nra.
Qed.

Lemma double_within (x bound : Q) :
  (Qabs x <= bound)%Q ->
  (Qabs (Num.double x) <= bound * (1 + (1 # 9007199254740992)))%Q.
Proof.
  intros H. pose proof (double_near x) as Hnear.
  apply Qabs_Qle_condition in H. apply Qabs_Qle_condition in Hnear.
  pose proof (Qabs_nonneg x) as H0.
  assert (Hax : (Qabs x <= bound)%Q) by (apply Qabs_Qle_condition; exact H).
  set (ax := Qabs x) in *. set (d := Num.double x) in *.
  apply Qabs_Qle_condition. clearbody ax d. split; nra.
Qed.

End Binary64.

(** ** Dates *)

Example epoch_is_1970_01_01 :
  JSDate.UTC 1970 0 1 0 0 = 0
  /\ (JSDate.getUTCFullYear 0, JSDate.getUTCMonth 0, JSDate.getUTCDate 0)
     = (1970, 0, 1)
  /\ (JSDate.getUTCFullYear (-1), JSDate.getUTCMonth (-1), JSDate.getUTCDate (-1))
     = (1969, 11, 31).
Proof. repeat split. Qed.

Example leap_day_2024 :
  let t := JSDate.UTC 2024 1 29 23 59 in
  (JSDate.getUTCFullYear t, JSDate.getUTCMonth t, JSDate.getUTCDate t)
  = (2024, 1, 29)
  /\ JSDate.getUTCDate (t + 60000) = 1.
Proof. split; reflexivity. Qed.

Example halloween_2024 :
  sample.halloween2024 = 1730332800000
  /\ time.getDateSeed (sample.envOn sample.halloween2024 sample.noon) = "2024-10-31"
  /\ time.isHalloween (sample.envOn sample.halloween2024 sample.noon) = true
  /\ time.isHalloween (sample.envOn sample.march2024 sample.noon) = false.
Proof. repeat split. Qed.

Example reference_new_moon :
  time.knownNewMoon = 947182440000
  /\ time.getMoonPhaseIcon time.knownNewMoon = Some "🌑"
  /\ time.getMoonPhaseIcon (JSDate.UTC 2024 9 17 12 0) = Some "🌕".
Proof. repeat split. Qed.

(** ** The rules engine *)

Section RulesEngine.
Import state monster.

Lemma finish_chance (env : Env) (c : number) (ev : option string)
    (b : list Step) :
  (0 <= chance (finish env c ev b) <= 1)%Q.
Proof.
  unfold finish.
  destruct (negb (Num.eqb (state.multiplier (debugState env)) 1)); cbn;
    apply clamp_bounds.
Qed.

(** C5: the probability that [calculateSpottingData] returns lies in
    [0, 1], for every entity, calendar state and debug multiplier: the
    running value may leave the interval on the way (bonuses are added,
    multipliers are unbounded), the final clamp brings it back. *)
Theorem calculateSpottingData_chance_in_unit_interval
    (env : Env) (m : Monster) :
  (0 <= chance (calculateSpottingData env m) <= 1)%Q.
Proof.
  unfold calculateSpottingData.
  destruct (time.isHalloween env).
  - apply finish_chance.
  - destruct (_checkRestrictions env m).
    + cbn. split; discriminate.
    + destruct (ordinaryDay env m). apply finish_chance.
Qed.

Lemma finish_breakdown (env : Env) (c : number) (ev : option string)
    (b : list Step) :
  breakdown (finish env c ev b)
  = final "Final Chance" (chance (finish env c ev b))
    :: (if Num.eqb (state.multiplier (debugState env)) 1 then b
        else push b (multiplier "Debug Multiplier" None
                       (state.multiplier (debugState env)))).
Proof.
  unfold finish.
  destruct (Num.eqb (state.multiplier (debugState env)) 1); reflexivity.
Qed.

Lemma finish_event (env : Env) (c : number) (ev : option string)
    (b : list Step) :
  event (finish env c ev b) = ev.
Proof.
  unfold finish.
  destruct (negb (Num.eqb (state.multiplier (debugState env)) 1)); reflexivity.
Qed.

Lemma finish_chance_value (env : Env) (c : number) (ev : option string)
    (b : list Step) :
  (chance (finish env c ev b)
   == clamp01 (c * state.multiplier (debugState env)))%Q.
Proof.
  unfold finish.
  destruct (Num.eqb (state.multiplier (debugState env)) 1) eqn:E; cbn;
    rewrite clamp_correct; unfold clamp01.
  - apply eqb_eq in E. rewrite E, Qmult_1_r. reflexivity.
  - rewrite mul_correct. reflexivity.
Qed.

(** C4: on Halloween the probability is the clamp of base x 2.5 x debug
    multiplier, the event is "halloween", and the breakdown is the [final]
    step, the "Global Multiplier" step and, for a debug multiplier other
    than 1, its step: no base, season, time, bonus, penalty or impossible
    step, whatever the restrictions and modifiers of the entity.  For base
    0.1 and debug multiplier 1 the breakdown is
    [final 0.25; multiplier "Global Multiplier" 2.5]. *)
Theorem halloween_overrides_everything (env : Env) (m : Monster) :
  time.isHalloween env = true ->
  let d := calculateSpottingData env m in
  let dm := state.multiplier (debugState env) in
  (chance d == clamp01 (spottingChance m * 2.5 * dm))%Q
  /\ event d = Some "halloween"
  /\ breakdown d
     = final "Final Chance" (chance d)
       :: multiplier "Global Multiplier" None 2.5
       :: (if Num.eqb dm 1 then []
           else [multiplier "Debug Multiplier" None dm])
  /\ (forall step, step ∈ breakdown d ->
        match step with
        | final _ _ => True
        | multiplier l _ _ => l <> "Season" /\ l <> "Time"
        | base _ _ | bonus _ _ | penalty _ _ | impossible _ => False
        end)
  /\ ((spottingChance m == 0.1)%Q -> (dm == 1)%Q ->
      breakdown d = [final "Final Chance" (Qred 0.25);
                     multiplier "Global Multiplier" None 2.5]).
Proof.
  intros Hh d dm. subst d dm. unfold calculateSpottingData. rewrite Hh.
  set (dm := state.multiplier (debugState env)).
  assert (Hb : breakdown (finish env
                 (Num.mul (spottingChance m) config.GLOBAL_MODIFIERS_events_halloween)
                 (Some "halloween")
                 [multiplier "Global Multiplier" None config.GLOBAL_MODIFIERS_events_halloween])
               = final "Final Chance" (chance (finish env
                   (Num.mul (spottingChance m) config.GLOBAL_MODIFIERS_events_halloween)
                   (Some "halloween")
                   [multiplier "Global Multiplier" None config.GLOBAL_MODIFIERS_events_halloween]))
                 :: multiplier "Global Multiplier" None 2.5
                 :: (if Num.eqb dm 1 then []
                     else [multiplier "Debug Multiplier" None dm])).
  { rewrite finish_breakdown. fold dm. destruct (Num.eqb dm 1); reflexivity. }
  split; [| split; [| split; [| split]]].
  - rewrite finish_chance_value. fold dm. unfold clamp01.
    rewrite mul_correct. reflexivity.
  - apply finish_event.
  - exact Hb.
  - intros step Hin. rewrite Hb in Hin.
    apply elem_of_cons in Hin as [-> | Hin]; [exact I |].
    apply elem_of_cons in Hin as [-> | Hin]; [split; discriminate |].
    destruct (Num.eqb dm 1).
    + apply elem_of_nil in Hin. contradiction.
    + apply list_elem_of_singleton in Hin as ->. split; discriminate.
  - intros Hbase Hdm. rewrite Hb.
    apply eqb_eq in Hdm. rewrite Hdm. f_equal. f_equal.
    unfold finish. fold dm. rewrite Hdm. cbn [negb chance].
    unfold Num.mul.
    rewrite (Qred_complete _ (0.1 * 2.5)%Q).
    + reflexivity.
    + rewrite Hbase. reflexivity.
Qed.

Lemma halloween_overrides_everything_witness :
  time.isHalloween (sample.envOn sample.halloween2024 sample.noon) = true
  /\ breakdown (calculateSpottingData
                  (sample.envOn sample.halloween2024 sample.noon) sample.ghost)
     = [final "Final Chance" (Qred 0.25);
        multiplier "Global Multiplier" None 2.5].
Proof.
  split; [reflexivity |].
  apply (halloween_overrides_everything
           (sample.envOn sample.halloween2024 sample.noon) sample.ghost);
    reflexivity.
Defined.

End RulesEngine.

(** ** Hard restrictions *)

(** The 64 cases of three required flags and three predicates. *)
Ltac restriction_cases env r :=
  unfold monster.failedRestrictions;
  destruct (monster.requiresFullMoon r), (time.isFullMoon env),
    (monster.requiresDark r), (time.isDark env),
    (monster.requiresNight r), (time.isNight env);
  cbn.

(** A name is in a list of names that is written out exactly when a
    condition on booleans that are written out holds. *)
Ltac named_iff :=
  split;
  [ intros H;
    first [ split; reflexivity
          | exfalso;
            repeat (apply elem_of_cons in H as [H | H]; [discriminate |]);
            apply elem_of_nil in H; exact H ]
  | intros [H1 H2];
    first [ discriminate
          | repeat first [ apply elem_of_cons; left; reflexivity
                         | apply elem_of_cons; right ] ] ].

Section Restrictions.
Import state monster.

Variable seedrandom : string -> nat -> number.

(** C3: off Halloween, an entity with an unmet hard restriction gets
    probability 0, no event and a breakdown of one [impossible] step, whose
    reason is "Requires: " and the names of the unmet restrictions joined by
    ", " (each unmet one, no other, in the order Full Moon, Darkness,
    Night), whatever the debug multiplier; the simulation then gives count
    0, no locations and likelihood "Impossible", and leaves the generator
    and the store as they were: no number is drawn. *)
Theorem unmet_restriction_is_impossible
    (env : Env) (m : Monster) (r : Restriction)
    (dateSeed : string) (st : store.SimState) :
  time.isHalloween env = false ->
  restriction m = Some r ->
  (requiresFullMoon r = true /\ time.isFullMoon env = false)
  \/ (requiresDark r = true /\ time.isDark env = false)
  \/ (requiresNight r = true /\ time.isNight env = false) ->
  exists failed : list string,
    sublist failed ["Full Moon"; "Darkness"; "Night"]
    /\ ("Full Moon" ∈ failed
        <-> requiresFullMoon r = true /\ time.isFullMoon env = false)
    /\ ("Darkness" ∈ failed
        <-> requiresDark r = true /\ time.isDark env = false)
    /\ ("Night" ∈ failed
        <-> requiresNight r = true /\ time.isNight env = false)
    /\ calculateSpottingData env m
       = {| chance := 0; event := None;
            breakdown :=
              [impossible (String.append "Requires: " (String.concat ", " failed))] |}
    /\ spottingCalculator.spotMonster seedrandom env dateSeed m st
       = Some ({| spottingCalculator.count := 0;
                  spottingCalculator.locations := [];
                  spottingCalculator.likelihood := "Impossible";
                  spottingCalculator.currentChance := 0;
                  spottingCalculator.breakdown :=
                    [impossible (String.append "Requires: " (String.concat ", " failed))];
                  spottingCalculator.event := None |}, st).
Proof.
  intros Hh Hr Hunmet.
  exists (failedRestrictions env r).
  assert (Hdata : calculateSpottingData env m
                  = {| chance := 0; event := None;
                       breakdown :=
                         [impossible (String.append "Requires: "
                            (String.concat ", " (failedRestrictions env r)))] |}).
  { unfold calculateSpottingData, _checkRestrictions. rewrite Hh, Hr.
    unfold failedRestrictions.
    destruct (requiresFullMoon r), (time.isFullMoon env),
      (requiresDark r), (time.isDark env),
      (requiresNight r), (time.isNight env);
      try reflexivity;
      exfalso; destruct Hunmet as [[? ?] | [[? ?] | [? ?]]]; discriminate. }
  split; [| split; [| split; [| split; [| split]]]].
  - unfold failedRestrictions.
    destruct (requiresFullMoon r && negb (time.isFullMoon env)),
      (requiresDark r && negb (time.isDark env)),
      (requiresNight r && negb (time.isNight env));
      cbn; repeat constructor.
  - restriction_cases env r; named_iff.
  - restriction_cases env r; named_iff.
  - restriction_cases env r; named_iff.
  - exact Hdata.
  - unfold spottingCalculator.spotMonster. rewrite Hdata. reflexivity.
Qed.

End Restrictions.

Section RestrictionsWitness.
Import state monster.

Lemma unmet_restriction_is_impossible_witness :
  exists failed : list string,
    sublist failed ["Full Moon"; "Darkness"; "Night"]
    /\ ("Full Moon" ∈ failed
        <-> requiresFullMoon (Build_Restriction false false true) = true
            /\ time.isFullMoon (sample.envOn sample.march2024 sample.noon) = false)
    /\ ("Darkness" ∈ failed
        <-> requiresDark (Build_Restriction false false true) = true
            /\ time.isDark (sample.envOn sample.march2024 sample.noon) = false)
    /\ ("Night" ∈ failed
        <-> requiresNight (Build_Restriction false false true) = true
            /\ time.isNight (sample.envOn sample.march2024 sample.noon) = false)
    /\ calculateSpottingData (sample.envOn sample.march2024 sample.noon) sample.troll
       = {| chance := 0; event := None;
            breakdown :=
              [impossible (String.append "Requires: " (String.concat ", " failed))] |}
    /\ spottingCalculator.spotMonster (sample.constantStream 0.5)
         (sample.envOn sample.march2024 sample.noon) "2024-03-12" sample.troll
         {| store.drawn := 0; store.objects := sample.objects |}
       = Some ({| spottingCalculator.count := 0;
                  spottingCalculator.locations := [];
                  spottingCalculator.likelihood := "Impossible";
                  spottingCalculator.currentChance := 0;
                  spottingCalculator.breakdown :=
                    [impossible (String.append "Requires: " (String.concat ", " failed))];
                  spottingCalculator.event := None |},
               {| store.drawn := 0; store.objects := sample.objects |}).
Proof.
  apply (unmet_restriction_is_impossible (sample.constantStream 0.5)
           (sample.envOn sample.march2024 sample.noon) sample.troll
           (Build_Restriction false false true) "2024-03-12"
           {| store.drawn := 0; store.objects := sample.objects |}).
  - reflexivity.
  - reflexivity.
  - right. right. split; reflexivity.
Defined.

End RestrictionsWitness.

(** ** Likelihood bands *)

Section Likelihood.
Import state monster.

Lemma getLikelihood_cases (c : Z) :
  spottingCalculator.getLikelihood c = "Very Low"
  \/ spottingCalculator.getLikelihood c = "Low"
  \/ spottingCalculator.getLikelihood c = "Medium"
  \/ spottingCalculator.getLikelihood c = "High".
Proof.
  unfold spottingCalculator.getLikelihood.
  destruct (c <=? 0); [tauto |].
  destruct (c <=? 2); [tauto |].
  destruct (c <=? 5); tauto.
Qed.

Lemma getLikelihood_not_impossible (c : Z) :
  spottingCalculator.getLikelihood c <> "Impossible".
Proof.
  destruct (getLikelihood_cases c) as [H | [H | [H | H]]];
    rewrite H; discriminate.
Qed.

Lemma has_impossible_step (b : list Step) :
  existsb spottingCalculator.isImpossibleStep b = true
  <-> exists reason, impossible reason ∈ b.
Proof.
  rewrite existsb_exists. split.
  - intros [step [Hin Hstep]]. destruct step; try discriminate.
    exists reason. apply list_elem_of_In. exact Hin.
  - intros [reason Hin]. exists (impossible reason).
    split; [apply list_elem_of_In; exact Hin | reflexivity].
Qed.

(** C8: [getLikelihood] maps a count of at most 0 to "Very Low", 1-2 to
    "Low", 3-5 to "Medium" and 6 or more to "High"; the counts 0, 1, 2, 3,
    5, 6, 40 give Very Low, Low, Low, Medium, Medium, High, High.  A record
    of the simulation is "Impossible" exactly when the probability is at
    most 0 and the breakdown has an [impossible] step; with a positive
    probability the band is the one of the count, never "Impossible", also
    for a count of 0. *)
Theorem likelihood_bands :
  (forall c, c <= 0 -> spottingCalculator.getLikelihood c = "Very Low")
  /\ (forall c, 1 <= c <= 2 -> spottingCalculator.getLikelihood c = "Low")
  /\ (forall c, 3 <= c <= 5 -> spottingCalculator.getLikelihood c = "Medium")
  /\ (forall c, 6 <= c -> spottingCalculator.getLikelihood c = "High")
  /\ map spottingCalculator.getLikelihood [0; 1; 2; 3; 5; 6; 40]
     = ["Very Low"; "Low"; "Low"; "Medium"; "Medium"; "High"; "High"]
  /\ (forall (seedrandom : string -> nat -> number) env dateSeed m st data st',
        spottingCalculator.spotMonster seedrandom env dateSeed m st
        = Some (data, st') ->
        (spottingCalculator.likelihood data = "Impossible"
         <-> (chance (calculateSpottingData env m) <= 0)%Q
             /\ exists reason,
                  impossible reason ∈ breakdown (calculateSpottingData env m))
        /\ ((0 < chance (calculateSpottingData env m))%Q ->
            spottingCalculator.likelihood data
            = spottingCalculator.getLikelihood
                (Z.of_nat (spottingCalculator.count data))
            /\ (spottingCalculator.count data = 0%nat ->
                spottingCalculator.likelihood data = "Very Low"))).
Proof.
  split; [| split; [| split; [| split; [| split]]]].
  - intros c Hc. unfold spottingCalculator.getLikelihood.
    destruct (Z.leb_spec c 0); [reflexivity | lia].
  - intros c Hc. unfold spottingCalculator.getLikelihood.
    destruct (Z.leb_spec c 0); [lia |].
    destruct (Z.leb_spec c 2); [reflexivity | lia].
  - intros c Hc. unfold spottingCalculator.getLikelihood.
    destruct (Z.leb_spec c 0); [lia |].
    destruct (Z.leb_spec c 2); [lia |].
    destruct (Z.leb_spec c 5); [reflexivity | lia].
  - intros c Hc. unfold spottingCalculator.getLikelihood.
    destruct (Z.leb_spec c 0); [lia |].
    destruct (Z.leb_spec c 2); [lia |].
    destruct (Z.leb_spec c 5); [lia | reflexivity].
  - reflexivity.
  - intros seedrandom env dateSeed m st data st'.
    unfold spottingCalculator.spotMonster.
    destruct (Num.leb (chance (calculateSpottingData env m)) 0) eqn:Hle.
    + intros [= <- <-]. cbn. apply leb_le in Hle. split.
      * rewrite <- has_impossible_step.
        destruct (existsb spottingCalculator.isImpossibleStep
                    (breakdown (calculateSpottingData env m))).
        -- tauto.
        -- split; [discriminate | intros [_ ?]; discriminate].
      * intros Hpos. exfalso. apply (Qlt_not_le _ _ Hpos). exact Hle.
    + apply leb_gt in Hle. unfold store.bind.
      destruct (spottingCalculator.rollSightings _ _ _ _ st)
        as [[spottedCount st1] |]; [| discriminate].
      destruct (spottingCalculator.generateMonsterLocations _ _ _ _ st1)
        as [[placed st2] |]; [| discriminate].
      intros [= <- <-]. cbn. split.
      * split.
        -- intros H. exfalso.
           exact (getLikelihood_not_impossible _ H).
        -- intros [H _]. exfalso. apply (Qlt_not_le _ _ Hle). exact H.
      * intros _. split; [reflexivity |]. intros ->. reflexivity.
Qed.

End Likelihood.

(** ** The time multiplier *)

Section TimeMultiplier.
Import state config.

Lemma period_shape (periodName : string) (p : Period) :
  period_of TIME_PERIODS periodName = Some p ->
  start p < peak p < end_ p /\ (1 <= multiplier p)%Q.
Proof.
  unfold TIME_PERIODS. cbn [period_of].
  repeat (destruct (String.eqb _ periodName);
          [intros [= <-]; cbn; split; [lia | discriminate] |]).
  discriminate.
Qed.

Lemma currentMultiplierOf_spec (p : Period) (now : Z) :
  start p < peak p < end_ p ->
  (time.currentMultiplierOf p now == specRamp p now)%Q.
Proof.
  intros [H1 H2]. unfold time.currentMultiplierOf, specRamp, specProgress.
  destruct (now <=? peak p).
  - destruct (Z.ltb_spec 0 (peak p - start p)); [| lia].
    rewrite add_correct, mul_correct, pow2_correct, sub_correct, div_correct.
    unfold Num.ofZ. setoid_replace 1.0%Q with 1%Q using relation Qeq by reflexivity.
    reflexivity.
  - destruct (Z.ltb_spec 0 (end_ p - peak p)); [| lia].
    rewrite add_correct, mul_correct, pow2_correct, sub_correct, div_correct.
    unfold Num.ofZ. setoid_replace 1.0%Q with 1%Q using relation Qeq by reflexivity.
    reflexivity.
Qed.

Lemma specRamp_ge_1 (p : Period) (now : Z) :
  (1 <= multiplier p)%Q -> (1 <= specRamp p now)%Q.
Proof.
  intros H. unfold specRamp.
  assert (0 <= specProgress p now * specProgress p now)%Q
    by (destruct (Qlt_le_dec (specProgress p now) 0); nra).
  nra.
Qed.

Lemma activeAt_snoc (times : list string) (periodName : string) (now : Z)
    (p : Period) :
  activeAt (times ++ [periodName]) now p
  <-> activeAt times now p
      \/ (period_of TIME_PERIODS periodName = Some p
          /\ start p <= now <= end_ p).
Proof.
  unfold activeAt. split.
  - intros [n [Hin [Hp Hc]]].
    apply elem_of_app in Hin as [Hin | Hin].
    + left. exists n. auto.
    + apply list_elem_of_singleton in Hin as ->. right. auto.
  - intros [[n [Hin [Hp Hc]]] | [Hp Hc]].
    + exists n. split; [apply elem_of_app; left; exact Hin | auto].
    + exists periodName.
      split; [apply elem_of_app; right; apply list_elem_of_singleton; reflexivity | auto].
Qed.

Lemma timeMultiplierStep_invariant (times : list string) (periodName : string)
    (now : Z) (h : number) :
  highestSoFar times now h ->
  highestSoFar (times ++ [periodName]) now (time.timeMultiplierStep now h periodName).
Proof.
  intros Hinv. unfold time.timeMultiplierStep.
  destruct (period_of TIME_PERIODS periodName) as [p |] eqn:Hp.
  2: { destruct Hinv as [[-> Hnone] | [q [Hq [Hv Hmax]]]].
       - left. split; [reflexivity |]. intros p' Hact.
         apply activeAt_snoc in Hact as [Hact | [Hc _]];
           [exact (Hnone _ Hact) | congruence].
       - right. exists q. split; [apply activeAt_snoc; left; exact Hq |].
         split; [exact Hv |]. intros p' Hact.
         apply activeAt_snoc in Hact as [Hact | [Hc _]];
           [exact (Hmax _ Hact) | congruence]. }
  destruct (period_shape _ _ Hp) as [Hshape Hmult].
  pose proof (currentMultiplierOf_spec p now Hshape) as Hcur.
  pose proof (specRamp_ge_1 p now Hmult) as Hge.
  destruct (Z.leb_spec (start p) now) as [Hs | Hs];
    [destruct (Z.leb_spec now (end_ p)) as [He | He] |]; cbn [andb].
  - destruct (Num.ltb h (time.currentMultiplierOf p now)) eqn:Hlt.
    + apply ltb_lt in Hlt. right. exists p.
      split; [apply activeAt_snoc; right; auto |].
      split; [exact Hcur |]. intros p' Hact.
      apply activeAt_snoc in Hact as [Hact | [Hp' _]].
      * destruct Hinv as [[_ Hnone] | [q [_ [_ Hmax]]]].
        -- exfalso. exact (Hnone _ Hact).
        -- apply Qle_trans with h; [exact (Hmax _ Hact) |].
           apply Qlt_le_weak. exact Hlt.
      * rewrite Hp in Hp'. injection Hp' as <-. rewrite Hcur. apply Qle_refl.
    + apply ltb_ge in Hlt. rewrite Hcur in Hlt.
      destruct Hinv as [[-> _] | [q [Hq [Hv Hmax]]]].
      * exfalso. apply (Qlt_not_le 0 1); [reflexivity |].
        apply Qle_trans with (specRamp p now); assumption.
      * right. exists q. split; [apply activeAt_snoc; left; exact Hq |].
        split; [exact Hv |]. intros p' Hact.
        apply activeAt_snoc in Hact as [Hact | [Hp' _]];
          [exact (Hmax _ Hact) |].
        rewrite Hp in Hp'. injection Hp' as <-. exact Hlt.
  - destruct Hinv as [[-> Hnone] | [q [Hq [Hv Hmax]]]].
    + left. split; [reflexivity |]. intros p' Hact.
      apply activeAt_snoc in Hact as [Hact | [Hp' Hc]];
        [exact (Hnone _ Hact) |].
      rewrite Hp in Hp'. injection Hp' as <-. lia.
    + right. exists q. split; [apply activeAt_snoc; left; exact Hq |].
      split; [exact Hv |]. intros p' Hact.
      apply activeAt_snoc in Hact as [Hact | [Hp' Hc]];
        [exact (Hmax _ Hact) |].
      rewrite Hp in Hp'. injection Hp' as <-. lia.
  - destruct Hinv as [[-> Hnone] | [q [Hq [Hv Hmax]]]].
    + left. split; [reflexivity |]. intros p' Hact.
      apply activeAt_snoc in Hact as [Hact | [Hp' Hc]];
        [exact (Hnone _ Hact) |].
      rewrite Hp in Hp'. injection Hp' as <-. lia.
    + right. exists q. split; [apply activeAt_snoc; left; exact Hq |].
      split; [exact Hv |]. intros p' Hact.
      apply activeAt_snoc in Hact as [Hact | [Hp' Hc]];
        [exact (Hmax _ Hact) |].
      rewrite Hp in Hp'. injection Hp' as <-. lia.
Qed.

Lemma timeMultiplier_loop (rest seen : list string) (now : Z) (h : number) :
  highestSoFar seen now h ->
  highestSoFar (seen ++ rest) now
    (fold_left (time.timeMultiplierStep now) rest h).
Proof.
  revert seen h. induction rest as [| periodName rest IH]; intros seen h Hinv.
  - rewrite app_nil_r. exact Hinv.
  - cbn [fold_left].
    replace (seen ++ periodName :: rest)%list
      with ((seen ++ [periodName]) ++ rest)%list
      by (rewrite <- app_assoc; reflexivity).
    apply IH. apply timeMultiplierStep_invariant. exact Hinv.
Qed.

(** C6: [getTimeMultiplier] is 1 when the active-time list contains "any".
    Otherwise, when some listed period contains the current minute, it is
    the greatest ramp value [1 + (peakMultiplier - 1) * progress^2] over
    those periods; when none does, it is the inactive-time penalty, a
    constant strictly between 0 and 1.  For Night (1260, 1350, 1439, 2.2)
    it is 1 at minutes 1260 and 1439 and 2.2 at minute 1350. *)
Theorem time_multiplier_is_highest_ramp :
  (forall env times,
      "any" ∈ times -> (time.getTimeMultiplier env times == 1)%Q)
  /\ (forall env times,
        "any" ∉ times ->
        let now := time.timeToMins (time.getCurrentTime env) in
        ((exists p, activeAt times now p) ->
         (exists p, activeAt times now p
                    /\ (time.getTimeMultiplier env times == specRamp p now)%Q)
         /\ (forall p, activeAt times now p ->
                       (specRamp p now <= time.getTimeMultiplier env times)%Q))
        /\ ((forall p, ~ activeAt times now p) ->
            time.getTimeMultiplier env times = time.INACTIVE_TIME_PENALTY))
  /\ (0 < time.INACTIVE_TIME_PENALTY < 1)%Q
  /\ period_of TIME_PERIODS "Night"
     = Some {| start := 1260; peak := 1350; end_ := 1439; multiplier := 2.2 |}
  /\ (forall env,
        time.timeToMins (time.getCurrentTime env) = 1260 ->
        (time.getTimeMultiplier env ["Night"] == 1)%Q)
  /\ (forall env,
        time.timeToMins (time.getCurrentTime env) = 1439 ->
        (time.getTimeMultiplier env ["Night"] == 1)%Q)
  /\ (forall env,
        time.timeToMins (time.getCurrentTime env) = 1350 ->
        (time.getTimeMultiplier env ["Night"] == 2.2)%Q).
Proof.
  split; [| split; [| split; [| split; [| split; [| split]]]]].
  - intros env times Hany. unfold time.getTimeMultiplier.
    rewrite bool_decide_eq_true_2 by exact Hany. reflexivity.
  - intros env times Hany now. unfold time.getTimeMultiplier.
    rewrite bool_decide_eq_false_2 by exact Hany. fold now.
    assert (Hloop : highestSoFar times now
              (fold_left (time.timeMultiplierStep now) times 0%Q)).
    { apply (timeMultiplier_loop times [] now 0%Q).
      left. split; [reflexivity |].
      intros p [n [Hin _]]. apply elem_of_nil in Hin. exact Hin. }
    destruct Hloop as [[-> Hnone] | [p [Hp [Hv Hmax]]]].
    + split.
      * intros [p Hp]. exfalso. exact (Hnone p Hp).
      * intros _. reflexivity.
    + assert (Hpos : Num.eqb (fold_left (time.timeMultiplierStep now) times 0%Q) 0
                     = false).
      { apply eqb_neq. intros H0.
        destruct Hp as [n [_ [Hn _]]].
        pose proof (specRamp_ge_1 p now (proj2 (period_shape _ _ Hn))) as Hge.
        rewrite <- Hv, H0 in Hge. apply (Qlt_not_le 0 1); [reflexivity | exact Hge]. }
      rewrite Hpos. split.
      * intros _. split; [exists p; split; assumption | exact Hmax].
      * intros Hnone. exfalso. exact (Hnone p Hp).
  - split; reflexivity.
  - reflexivity.
  - intros env H. unfold time.getTimeMultiplier. rewrite H. reflexivity.
  - intros env H. unfold time.getTimeMultiplier. rewrite H. reflexivity.
  - intros env H. unfold time.getTimeMultiplier. rewrite H. reflexivity.
Qed.

End TimeMultiplier.

(** ** The moon phase *)

Section MoonPhase.



(** C7, at a date before the reference new moon: on 1999-12-22 the index
    that [getMoonPhaseIcon] computes is -4, outside the eight icons, and
    the function returns [undefined]. *)
Theorem moon_phase_icon_undefined_before_reference :
  sample.december1999 < time.knownNewMoon
  /\ time.moonPhaseIndex sample.december1999 = -4
  /\ time.getMoonPhaseIcon sample.december1999 = None.
Proof. repeat split; vm_compute; reflexivity. Qed.

End MoonPhase.

(** ** Modifier magnitudes *)

Section Modifiers.
Import state monster.

Lemma defined_modifier_has_magnitude (type : config.ModifierType)
    (modifierName : string) (d : modifiers.ModifierDefinition) :
  modifiers.MODIFIER_DEFINITIONS type !! modifierName = Some d ->
  is_Some (config.GLOBAL_MODIFIERS type !! modifierName).
Proof.
  intros H. destruct type;
    unfold modifiers.MODIFIER_DEFINITIONS in H; cbv beta iota in H;
    apply elem_of_list_to_map_2 in H;
    repeat (apply elem_of_cons in H as [[= -> _] | H]; [eexists; reflexivity |]);
    apply elem_of_nil in H; contradiction.
Qed.

(** The magnitude of an active modifier: the entity's own when it has one
    other than 0, the global one otherwise. *)
Lemma evaluateModifier_active (env : Env) (m : Monster)
    (modifierName : string) (type : config.ModifierType)
    (d : modifiers.ModifierDefinition) :
  modifiers.MODIFIER_DEFINITIONS type !! modifierName = Some d ->
  modifiers.condition d env = true ->
  exists g,
    config.GLOBAL_MODIFIERS type !! modifierName = Some g
    /\ _evaluateModifier env m modifierName type
       = Some {| infoValue :=
                   Some (match overrideOf m type modifierName with
                         | Some v => if Num.eqb v 0 then g else v
                         | None => g
                         end);
                 infoLabel := modifiers.label d |}.
Proof.
  intros Hd Hc.
  destruct (defined_modifier_has_magnitude _ _ _ Hd) as [g Hg].
  exists g. split; [exact Hg |].
  unfold _evaluateModifier. rewrite Hd, Hc, Hg. unfold orElse.
  destruct (overrideOf m type modifierName) as [v |]; [| reflexivity].
  destruct (Num.eqb v 0); reflexivity.
Qed.

(** C2, at an entity whose own magnitude is 0: on Midsummer the fairy's
    midsummer bonus is active, its own magnitude for it is 0, and
    [_evaluateModifier] gives the global 0.25; the rules engine adds 0.25
    to the base 0.05. *)
Theorem zero_override_is_replaced_by_default :
  let env := sample.envOn sample.midsummer2024 sample.noon in
  time.isMidsummer env = true
  /\ overrideOf sample.fairy config.bonuses "midsummer" = Some 0%Q
  /\ config.GLOBAL_MODIFIERS config.bonuses !! "midsummer" = Some 0.25%Q
  /\ _evaluateModifier env sample.fairy "midsummer" config.bonuses
     = Some {| infoValue := Some 0.25%Q; infoLabel := "Midsummer" |}
  /\ calculateSpottingData env sample.fairy
     = {| chance := Qred 0.3; event := None;
          breakdown := [final "Final Chance" (Qred 0.3);
                        base "Base Chance" 0.05;
                        bonus "Midsummer" 0.25] |}.
Proof. repeat split; vm_compute; reflexivity. Qed.

End Modifiers.

(** ** What a recomputation reads of its surroundings *)

Lemma fold_left_pointwise {A B : Type} (f g : A -> B -> A) (l : list B) (a : A) :
  (forall x y, f x y = g x y) -> fold_left f l a = fold_left g l a.
Proof.
  intros H. revert a. induction l as [| y l IH]; intros a; cbn.
  - reflexivity.
  - rewrite H. apply IH.
Qed.

Lemma hours_minutes_of_ms (t : JSDate.TimeOfDay) :
  JSDate.getHours t = JSDate.msOfDay t / 60000 / 60
  /\ JSDate.getMinutes t = (JSDate.msOfDay t / 60000) mod 60.
Proof.
  unfold JSDate.getHours, JSDate.getMinutes. split; [| reflexivity].
  rewrite Z.div_div by lia. reflexivity.
Qed.

Lemma minute_of_day (x r : Z) :
  0 <= r < 60000 ->
  ((x * 60000 + r) mod JSDate.msPerDay) / 60000 = x mod 1440.
Proof.
  intros Hr. unfold JSDate.msPerDay.
  replace 86400000 with (60000 * 1440) by reflexivity.
  rewrite Z.rem_mul_r by lia.
  replace (x * 60000 + r) with (r + x * 60000) by lia.
  rewrite Z.mod_add, Z.div_add by lia.
  rewrite (Z.mod_small r), (Z.div_small r) by lia.
  rewrite Z.add_0_l.
  replace (r + 60000 * (x mod 1440)) with (r + (x mod 1440) * 60000) by lia.
  rewrite Z.div_add, (Z.div_small r) by lia. lia.
Qed.

(** In a zone of whole minutes, the minute of the day that [setHours]
    leaves does not depend on the seconds and the milliseconds. *)
Lemma setHours_minute (zone : JSDate.TimeZone) (t h m : Z) :
  minuteZone zone ->
  exists x,
    forall s ms,
      0 <= s * 1000 + ms < 60000 ->
      JSDate.msOfDay (JSDate.timeOfDay zone (JSDate.setHours zone t h m s ms)) / 60000
      = x.
Proof.
  intros Hzone.
  set (B := JSDate.Day (JSDate.LocalTime zone t) * 1440 + (h * 60 + m)).
  set (o := JSDate.offsetAtLocal zone (60000 * B)).
  set (o' := JSDate.offsetAtUTC zone (60000 * (B - o / 60000))).
  exists ((B - o / 60000 + o' / 60000) mod 1440).
  intros s ms Hr.
  assert (Hlocal : JSDate.Day (JSDate.LocalTime zone t) * JSDate.msPerDay
                   + JSDate.MakeTime h m s ms
                   = 60000 * B + (s * 1000 + ms)).
  { unfold JSDate.MakeTime, JSDate.msPerDay. subst B. lia. }
  assert (Hdiv : forall q r, 0 <= r < 60000 -> (60000 * q + r) / 60000 = q).
  { intros q r Hq. symmetry. apply Z.div_unique with (r := r); lia. }
  destruct (Hzone (60000 * B + (s * 1000 + ms))) as (_ & Ho & _ & Hoi).
  rewrite (Hdiv B _ Hr) in Hoi. fold o in Hoi. rewrite Hoi in Ho.
  assert (Hoq : o = 60000 * (o / 60000))
    by (pose proof (Z.div_mod o 60000); lia).
  unfold JSDate.timeOfDay, JSDate.setHours, JSDate.UTCOfLocal. cbn [JSDate.msOfDay].
  rewrite Hlocal, Hoi.
  set (u := 60000 * B + (s * 1000 + ms) - o).
  assert (Hu : u = 60000 * (B - o / 60000) + (s * 1000 + ms)) by (subst u; lia).
  destruct (Hzone u) as (Ho' & _ & Ho'i & _).
  rewrite Hu in Ho'i at 2. rewrite (Hdiv _ _ Hr) in Ho'i. fold o' in Ho'i.
  rewrite Ho'i in Ho'.
  assert (Ho'q : o' = 60000 * (o' / 60000))
    by (pose proof (Z.div_mod o' 60000); lia).
  unfold JSDate.LocalTime. rewrite Ho'i, Hu.
  replace (60000 * (B - o / 60000) + (s * 1000 + ms) + o')
    with ((B - o / 60000 + o' / 60000) * 60000 + (s * 1000 + ms)) by lia.
  apply minute_of_day. exact Hr.
Qed.

(** Two surroundings with the same application state, the same overrides
    and the same hour and minute of the simulated time. *)
Section SameView.
Import state monster.

Variables env1 env2 : Env.
Hypothesis same_app : appState env1 = appState env2.
Hypothesis same_debug : debugState env1 = debugState env2.
Hypothesis same_hours :
  JSDate.getHours (time.getCurrentTime env1)
  = JSDate.getHours (time.getCurrentTime env2).
Hypothesis same_minutes :
  JSDate.getMinutes (time.getCurrentTime env1)
  = JSDate.getMinutes (time.getCurrentTime env2).

Lemma getDateSeed_same : time.getDateSeed env1 = time.getDateSeed env2.
Proof. unfold time.getDateSeed. rewrite same_app. reflexivity. Qed.

Lemma timeToMins_same :
  time.timeToMins (time.getCurrentTime env1)
  = time.timeToMins (time.getCurrentTime env2).
Proof. unfold time.timeToMins. rewrite same_hours, same_minutes. reflexivity. Qed.

Lemma getCurrentPeriodName_same :
  time.getCurrentPeriodName env1 = time.getCurrentPeriodName env2.
Proof. unfold time.getCurrentPeriodName. rewrite timeToMins_same. reflexivity. Qed.

Lemma isPeriod_same (periodName : string) :
  time.isPeriod env1 periodName = time.isPeriod env2 periodName.
Proof. unfold time.isPeriod. rewrite getCurrentPeriodName_same. reflexivity. Qed.

Lemma isNight_same : time.isNight env1 = time.isNight env2.
Proof. unfold time.isNight. rewrite same_hours. reflexivity. Qed.

Lemma isDark_same : time.isDark env1 = time.isDark env2.
Proof. unfold time.isDark. rewrite isPeriod_same, isNight_same. reflexivity. Qed.

Lemma isWitchingHour_same : time.isWitchingHour env1 = time.isWitchingHour env2.
Proof. unfold time.isWitchingHour. rewrite same_hours. reflexivity. Qed.

Lemma isFullMoon_same : time.isFullMoon env1 = time.isFullMoon env2.
Proof. unfold time.isFullMoon. rewrite same_app, same_debug. reflexivity. Qed.

Lemma isHalloween_same : time.isHalloween env1 = time.isHalloween env2.
Proof. unfold time.isHalloween. rewrite same_app, same_debug. reflexivity. Qed.

Lemma isMidsummer_same : time.isMidsummer env1 = time.isMidsummer env2.
Proof. unfold time.isMidsummer. rewrite same_app. reflexivity. Qed.

Lemma isYule_same : time.isYule env1 = time.isYule env2.
Proof. unfold time.isYule. rewrite same_app. reflexivity. Qed.

Lemma getCurrentSeason_same :
  time.getCurrentSeason env1 = time.getCurrentSeason env2.
Proof. unfold time.getCurrentSeason. rewrite same_app, same_debug. reflexivity. Qed.

Lemma getTimeMultiplier_same (times : list string) :
  time.getTimeMultiplier env1 times = time.getTimeMultiplier env2 times.
Proof. unfold time.getTimeMultiplier. rewrite timeToMins_same. reflexivity. Qed.

Lemma condition_same (type : config.ModifierType) (modifierName : string)
    (d : modifiers.ModifierDefinition) :
  modifiers.MODIFIER_DEFINITIONS type !! modifierName = Some d ->
  modifiers.condition d env1 = modifiers.condition d env2.
Proof.
  intros H. destruct type;
    unfold modifiers.MODIFIER_DEFINITIONS in H; cbv beta iota in H;
    apply elem_of_list_to_map_2 in H;
    repeat (apply elem_of_cons in H as [[= _ ->] | H];
            [cbn [modifiers.condition];
             first [ apply isWitchingHour_same | apply isPeriod_same
                   | apply isFullMoon_same | apply isYule_same
                   | apply isMidsummer_same ] |]);
    apply elem_of_nil in H; contradiction.
Qed.

Lemma checkRestrictions_same (m : Monster) :
  _checkRestrictions env1 m = _checkRestrictions env2 m.
Proof.
  unfold _checkRestrictions, failedRestrictions.
  rewrite isFullMoon_same, isDark_same, isNight_same. reflexivity.
Qed.

Lemma evaluateModifier_same (m : Monster) (modifierName : string)
    (type : config.ModifierType) :
  _evaluateModifier env1 m modifierName type
  = _evaluateModifier env2 m modifierName type.
Proof.
  unfold _evaluateModifier.
  destruct (modifiers.MODIFIER_DEFINITIONS type !! modifierName) as [d |] eqn:Hd;
    [| reflexivity].
  rewrite (condition_same _ _ _ Hd). reflexivity.
Qed.

Lemma bonusStep_same (m : Monster) (acc : number * list Step) (n : string) :
  bonusStep env1 m acc n = bonusStep env2 m acc n.
Proof. unfold bonusStep. rewrite evaluateModifier_same. reflexivity. Qed.

Lemma penaltyStep_same (m : Monster) (acc : number * list Step) (n : string) :
  penaltyStep env1 m acc n = penaltyStep env2 m acc n.
Proof. unfold penaltyStep. rewrite evaluateModifier_same. reflexivity. Qed.

Lemma ordinaryDay_same (m : Monster) : ordinaryDay env1 m = ordinaryDay env2 m.
Proof.
  unfold ordinaryDay.
  rewrite getCurrentSeason_same, getTimeMultiplier_same, getCurrentPeriodName_same.
  destruct (negb (bool_decide (time.getCurrentSeason env2 ∈ activeSeasons m)));
    destruct (negb (Num.eqb (time.getTimeMultiplier env2 (activeTime m)) 1.0));
    destruct (bonuses m) as [bs |]; destruct (penalties m) as [ps |];
    rewrite ?(fold_left_pointwise (bonusStep env1 m) (bonusStep env2 m))
      by apply bonusStep_same;
    try match goal with
        | |- context [fold_left (bonusStep env2 m) ?l ?a] =>
            destruct (fold_left (bonusStep env2 m) l a)
        end;
    rewrite ?(fold_left_pointwise (penaltyStep env1 m) (penaltyStep env2 m))
      by apply penaltyStep_same;
    reflexivity.
Qed.

Lemma calculateSpottingData_same (m : Monster) :
  calculateSpottingData env1 m = calculateSpottingData env2 m.
Proof.
  unfold calculateSpottingData, finish.
  rewrite isHalloween_same, checkRestrictions_same, ordinaryDay_same, same_debug.
  reflexivity.
Qed.

Lemma spotMonster_same (seedrandom : string -> nat -> number)
    (dateSeed : string) (m : Monster) :
  spottingCalculator.spotMonster seedrandom env1 dateSeed m
  = spottingCalculator.spotMonster seedrandom env2 dateSeed m.
Proof.
  unfold spottingCalculator.spotMonster.
  rewrite calculateSpottingData_same, same_app. reflexivity.
Qed.

Lemma throwsTypeError_same (m : Monster) :
  throwsTypeError env1 m = throwsTypeError env2 m.
Proof.
  unfold throwsTypeError. rewrite isHalloween_same, checkRestrictions_same.
  reflexivity.
Qed.

Lemma spotTurn_same (seedrandom : string -> nat -> number)
    (dateSeed : string) (m : Monster) :
  spottingCalculator.spotTurn seedrandom env1 dateSeed m
  = spottingCalculator.spotTurn seedrandom env2 dateSeed m.
Proof.
  unfold spottingCalculator.spotTurn.
  rewrite throwsTypeError_same, spotMonster_same. reflexivity.
Qed.

Lemma spotAll_same (seedrandom : string -> nat -> number) (dateSeed : string)
    (monsters : list Monster)
    (calculatedData : gmap string spottingCalculator.SpottedMonster)
    (objects : store.Store) :
  spottingCalculator.spotAll seedrandom env1 dateSeed monsters calculatedData objects
  = spottingCalculator.spotAll seedrandom env2 dateSeed monsters calculatedData objects.
Proof.
  revert calculatedData objects.
  induction monsters as [| m rest IH]; intros calculatedData objects; cbn.
  - reflexivity.
  - rewrite spotTurn_same.
    destruct (spottingCalculator.spotTurn seedrandom env2 dateSeed m _)
      as [[data st] |]; [apply IH | reflexivity].
Qed.

End SameView.

(** ** Reproducibility *)

Section Reproducibility.
Import state.

Lemma minuteZone_utc : minuteZone sample.utc.
Proof. intros t. repeat split. Qed.

Lemma getCurrentTime_same_minute (env1 env2 : Env) :
  appState env1 = appState env2 ->
  debugState env1 = debugState env2 ->
  zone env1 = zone env2 ->
  (forceTime (debugState env1) <> None
   \/ (minuteZone (zone env1)
       /\ validClock (now env1) /\ validClock (now env2)
       /\ nowHours (now env1) = nowHours (now env2)
       /\ nowMinutes (now env1) = nowMinutes (now env2))) ->
  JSDate.getHours (time.getCurrentTime env1)
  = JSDate.getHours (time.getCurrentTime env2)
  /\ JSDate.getMinutes (time.getCurrentTime env1)
     = JSDate.getMinutes (time.getCurrentTime env2).
Proof.
  intros Happ Hdbg Hzone Hcase. unfold time.getCurrentTime.
  rewrite <- Hdbg, <- Happ, <- Hzone.
  destruct (forceTime (debugState env1)) as [[h m] |].
  - split; reflexivity.
  - destruct Hcase as [Hforced | (Hminute & Hv1 & Hv2 & Hh & Hm)]; [congruence |].
    destruct Hv1 as (_ & _ & ? & ?), Hv2 as (_ & _ & ? & ?).
    cbv zeta. rewrite <- Hh, <- Hm.
    destruct (setHours_minute (zone env1) (currentDate (appState env1))
                (nowHours (now env1)) (nowMinutes (now env1)) Hminute)
      as [x Hx].
    rewrite !(proj1 (hours_minutes_of_ms _)), !(proj2 (hours_minutes_of_ms _)).
    rewrite !Hx by lia. split; reflexivity.
Qed.

(** C1, amended: for a fixed application state (the date, as a point in
    time, and the location indexes), entity list, override set, store and
    time zone, two recomputations give the same records and the same
    placements whenever the time of day is forced, or the two wall clocks
    show the same hour and minute and the offsets of the zone are whole
    minutes that change at whole minutes; the seconds and milliseconds of
    the wall clock, and the seed, play no part. *)
Theorem recomputation_depends_on_the_minute_only
    (seedrandom : string -> nat -> number) (env1 env2 : Env)
    (monsters : list monster.Monster) (objects : store.Store) :
  appState env1 = appState env2 ->
  debugState env1 = debugState env2 ->
  zone env1 = zone env2 ->
  (forceTime (debugState env1) <> None
   \/ (minuteZone (zone env1)
       /\ validClock (now env1) /\ validClock (now env2)
       /\ nowHours (now env1) = nowHours (now env2)
       /\ nowMinutes (now env1) = nowMinutes (now env2))) ->
  spottingCalculator.calculateSpottedMonsters seedrandom env1 monsters objects
  = spottingCalculator.calculateSpottedMonsters seedrandom env2 monsters objects.
Proof.
  intros Happ Hdbg Hzone Hcase.
  destruct (getCurrentTime_same_minute env1 env2 Happ Hdbg Hzone Hcase) as [Hh Hm].
  unfold spottingCalculator.calculateSpottedMonsters.
  rewrite (getDateSeed_same env1 env2 Happ).
  apply spotAll_same; assumption.
Qed.

Lemma recomputation_depends_on_the_minute_only_witness :
  spottingCalculator.calculateSpottedMonsters (sample.constantStream 0.5)
    (sample.envOn sample.march2024 sample.lateEvening)
    [sample.troll; sample.ghost] sample.objects
  = spottingCalculator.calculateSpottedMonsters (sample.constantStream 0.5)
      (sample.envOn sample.march2024 sample.lateEveningLater)
      [sample.troll; sample.ghost] sample.objects.
Proof.
  apply recomputation_depends_on_the_minute_only.
  - reflexivity.
  - reflexivity.
  - reflexivity.
  - right. split; [exact minuteZone_utc |]. unfold validClock. cbn. lia.
Defined.

(** C1 as stated fails: on the same date, with the same entities, in the
    same time zone and with no override, the troll that walks at night is
    impossible to spot for a caller whose clock shows noon, and is spotted
    by a caller whose clock shows 22:30. *)
Lemma wall_clock_changes_the_records :
  let env1 := sample.envOn sample.march2024 sample.noon in
  let env2 := sample.envOn sample.march2024 sample.lateEvening in
  appState env1 = appState env2
  /\ debugState env1 = debugState env2
  /\ zone env1 = zone env2
  /\ forceTime (debugState env1) = None
  /\ spottingCalculator.calculateSpottedMonsters (sample.constantStream 0.5)
       env1 [sample.troll] sample.objects
     <> spottingCalculator.calculateSpottedMonsters (sample.constantStream 0.5)
          env2 [sample.troll] sample.objects.
Proof.
  repeat split.
  intros H.
  apply (f_equal (fun r : option (gmap string spottingCalculator.SpottedMonster
                                  * store.Store) =>
                    match r with
                    | Some (data, _) =>
                        spottingCalculator.count <$> data !! "troll"
                    | None => None
                    end)) in H.
  vm_compute in H. discriminate H.
Qed.

(** The time zone is part of what a recomputation reads: with the time of
    day forced to 02:30 on 31 March 2024, a caller in Stockholm, where
    that hour of that day is skipped, simulates 03:30, and a caller on UTC
    02:30. *)
Example forced_time_in_a_skipped_hour :
  let forced := {| multiplier := 1; forceTime := Some (2, 30);
                   forceFullMoon := None; forceSeason := "auto";
                   forceHalloween := None |} in
  let env (zone : JSDate.TimeZone) :=
    {| appState := sample.appStateOn (JSDate.UTC 2024 2 31 10 0);
       debugState := forced; now := sample.noon; zone := zone |} in
  time.timeToMins (time.getCurrentTime (env sample.stockholm2024)) = 3 * 60 + 30
  /\ time.timeToMins (time.getCurrentTime (env sample.utc)) = 2 * 60 + 30.
Proof. split; vm_compute; reflexivity. Qed.

End Reproducibility.

(** ** Habitats and the location pool *)

Section Habitats.
Import state store.

Lemma elem_of_push {A : Type} (l : list A) (x y : A) :
  x ∈ push l y <-> x ∈ l \/ x = y.
Proof.
  unfold push. rewrite elem_of_app, list_elem_of_singleton. reflexivity.
Qed.

Lemma elem_of_setAdd (set : list string) (x y : string) :
  x ∈ spottingCalculator.setAdd set y <-> x ∈ set \/ x = y.
Proof.
  unfold spottingCalculator.setAdd. case_bool_decide as Hin.
  - split; [tauto |]. intros [H | ->]; assumption.
  - apply elem_of_push.
Qed.

Lemma elem_of_setAdd_all (group set : list string) (x : string) :
  x ∈ fold_left spottingCalculator.setAdd group set <-> x ∈ set \/ x ∈ group.
Proof.
  revert set. induction group as [| y group IH]; intros set; cbn [fold_left].
  - rewrite elem_of_nil. tauto.
  - rewrite IH, elem_of_setAdd, elem_of_cons. tauto.
Qed.

Lemma elem_of_resolveStep (set : list string) (locIdentifier code : string) :
  code ∈ spottingCalculator.resolveStep set locIdentifier
  <-> code ∈ set \/ expandsTo locIdentifier code.
Proof.
  unfold spottingCalculator.resolveStep, expandsTo.
  destruct (config.LOCATION_GROUPS !! locIdentifier) as [group |].
  - apply elem_of_setAdd_all.
  - apply elem_of_setAdd.
Qed.

Lemma elem_of_resolve_loop (ids set : list string) (code : string) :
  code ∈ fold_left spottingCalculator.resolveStep ids set
  <-> code ∈ set \/ exists locIdentifier,
                      locIdentifier ∈ ids /\ expandsTo locIdentifier code.
Proof.
  revert set. induction ids as [| y ids IH]; intros set; cbn [fold_left].
  - split; [tauto |]. intros [H | [i [Hin _]]]; [exact H |].
    apply elem_of_nil in Hin. contradiction.
  - rewrite IH, elem_of_resolveStep. split.
    + intros [[H | H] | [i [Hin He]]].
      * left. exact H.
      * right. exists y. split; [apply elem_of_cons; left; reflexivity | exact H].
      * right. exists i. split; [apply elem_of_cons; right; exact Hin | exact He].
    + intros [H | [i [Hin He]]].
      * left. left. exact H.
      * apply elem_of_cons in Hin as [-> | Hin].
        -- left. right. exact He.
        -- right. exists i. split; assumption.
Qed.

Lemma elem_of_resolveFeatureCodes (m : monster.Monster) (code : string) :
  code ∈ spottingCalculator.resolveFeatureCodes m
  <-> exists locIdentifier,
        locIdentifier ∈ monster.locations m /\ expandsTo locIdentifier code.
Proof.
  unfold spottingCalculator.resolveFeatureCodes.
  rewrite elem_of_resolve_loop, elem_of_nil. tauto.
Qed.

Lemma groups_are_own_names (locIdentifier : string) :
  locIdentifier ∈ config.objectPrototypeNames ->
  config.LOCATION_GROUPS !! locIdentifier = None.
Proof.
  intros H. unfold config.objectPrototypeNames in H.
  repeat (apply elem_of_cons in H as [-> | H]; [vm_compute; reflexivity |]).
  inversion H.
Qed.

Lemma resolveTurn_plain (set : list string) (locIdentifier : string) :
  locIdentifier ∉ config.objectPrototypeNames ->
  spottingCalculator.resolveTurn set locIdentifier
  = Some (spottingCalculator.resolveStep set locIdentifier).
Proof.
  intros H. unfold spottingCalculator.resolveTurn, spottingCalculator.resolveStep,
    config.getProperty.
  destruct (config.LOCATION_GROUPS !! locIdentifier); [reflexivity |].
  rewrite bool_decide_eq_false_2 by exact H. reflexivity.
Qed.

Lemma resolveTurn_inherited (set : list string) (locIdentifier : string) :
  locIdentifier ∈ config.objectPrototypeNames ->
  spottingCalculator.resolveTurn set locIdentifier = None.
Proof.
  intros H. unfold spottingCalculator.resolveTurn, config.getProperty.
  rewrite (groups_are_own_names _ H).
  rewrite bool_decide_eq_true_2 by exact H. reflexivity.
Qed.

(** The first loop of [generateMonsterLocations] returns the set of the
    resolved codes when no identifier is an inherited name, and throws
    when one is. *)
Lemma resolveLoop_plain (m : monster.Monster) :
  plainHabitats m ->
  spottingCalculator.resolveLoop (monster.locations m) []
  = Some (spottingCalculator.resolveFeatureCodes m).
Proof.
  unfold plainHabitats, spottingCalculator.resolveFeatureCodes.
  generalize (@nil string) as set.
  induction (monster.locations m) as [| locIdentifier rest IH]; intros set Hplain.
  - reflexivity.
  - cbn [spottingCalculator.resolveLoop fold_left].
    rewrite resolveTurn_plain by (apply Hplain; left).
    apply IH. intros x Hx. apply Hplain. right. exact Hx.
Qed.

Lemma resolveLoop_inherited (m : monster.Monster) :
  ~ plainHabitats m ->
  spottingCalculator.resolveLoop (monster.locations m) [] = None.
Proof.
  unfold plainHabitats.
  generalize (@nil string) as set.
  induction (monster.locations m) as [| locIdentifier rest IH]; intros set Hnot.
  - exfalso. apply Hnot. intros x Hx. inversion Hx.
  - cbn [spottingCalculator.resolveLoop].
    destruct (decide (locIdentifier ∈ config.objectPrototypeNames)) as [Hin | Hout].
    + rewrite resolveTurn_inherited by exact Hin. reflexivity.
    + rewrite resolveTurn_plain by exact Hout. apply IH.
      intros Hrest. apply Hnot. intros x Hx.
      apply elem_of_cons in Hx as [-> | Hx]; [exact Hout | apply Hrest; exact Hx].
Qed.

Lemma poolStep_matching (app : AppState) (pool : list nat) (code : string) :
  spottingCalculator.poolStep app pool code
  = (pool ++ matchingLocations app code)%list.
Proof.
  unfold spottingCalculator.poolStep, matchingLocations.
  destruct (spottingCalculator.includesDot code); reflexivity.
Qed.

Lemma elem_of_pool_loop (app : AppState) (codes : list string)
    (pool : list nat) (ref : nat) :
  ref ∈ fold_left (spottingCalculator.poolStep app) codes pool
  <-> ref ∈ pool \/ exists code, code ∈ codes /\ ref ∈ matchingLocations app code.
Proof.
  revert pool. induction codes as [| c codes IH]; intros pool; cbn [fold_left].
  - split; [tauto |]. intros [H | [i [Hin _]]]; [exact H |].
    apply elem_of_nil in Hin. contradiction.
  - rewrite IH, poolStep_matching, elem_of_app. split.
    + intros [[H | H] | [i [Hin He]]].
      * left. exact H.
      * right. exists c. split; [apply elem_of_cons; left; reflexivity | exact H].
      * right. exists i. split; [apply elem_of_cons; right; exact Hin | exact He].
    + intros [H | [i [Hin He]]].
      * left. left. exact H.
      * apply elem_of_cons in Hin as [-> | Hin].
        -- left. right. exact He.
        -- right. exists i. split; assumption.
Qed.

Lemma elem_of_buildLocationPool (app : AppState) (m : monster.Monster) (ref : nat) :
  ref ∈ spottingCalculator.buildLocationPool app m
  <-> exists code,
        code ∈ spottingCalculator.resolveFeatureCodes m
        /\ ref ∈ matchingLocations app code.
Proof.
  unfold spottingCalculator.buildLocationPool.
  rewrite elem_of_pool_loop, elem_of_nil. tauto.
Qed.

Lemma matchingLocations_indexed (app : AppState) (objects : Store)
    (code : string) (ref : nat) :
  indexedLocations app objects ->
  ref ∈ matchingLocations app code ->
  exists l, objects !! ref = Some (ObjLocation l).
Proof.
  intros Hwf. unfold matchingLocations.
  destruct (spottingCalculator.includesDot code).
  - destruct (locationsByFeatureCode app !! code) as [refs |] eqn:E; cbn.
    + intros Hin. apply (Hwf code refs ref); [left; exact E | exact Hin].
    + intros Hin. apply elem_of_nil in Hin. contradiction.
  - destruct (locationsByFeatureClass app !! code) as [refs |] eqn:E; cbn.
    + intros Hin. apply (Hwf code refs ref); [right; exact E | exact Hin].
    + intros Hin. apply elem_of_nil in Hin. contradiction.
Qed.

Lemma buildLocationPool_of_locations (app : AppState) (objects : Store)
    (m : monster.Monster) :
  indexedLocations app objects ->
  poolOfLocations objects (spottingCalculator.buildLocationPool app m).
Proof.
  intros Hwf ref Hin.
  apply elem_of_buildLocationPool in Hin as [code [_ Hm]].
  exact (matchingLocations_indexed app objects code ref Hwf Hm).
Qed.

Lemma indexedLocations_grows (app : AppState) (objects new : Store) :
  indexedLocations app objects -> indexedLocations app (objects ++ new)%list.
Proof.
  intros Hwf code refs ref Hc Hin.
  destruct (Hwf code refs ref Hc Hin) as [l Hl].
  exists l. apply lookup_app_l_Some. exact Hl.
Qed.

Lemma poolOfLocations_grows (objects new : Store) (pool : list nat) :
  poolOfLocations objects pool -> poolOfLocations (objects ++ new)%list pool.
Proof.
  intros Hp ref Hin. destruct (Hp ref Hin) as [l Hl].
  exists l. apply lookup_app_l_Some. exact Hl.
Qed.

End Habitats.

(** ** The simulation *)

Section Simulation.
Import state store.

Lemma pick_in_pool (pool : list nat) (r : number) :
  (0 <= r < 1)%Q -> pool <> [] ->
  exists ref, spottingCalculator.pick pool r = Some ref /\ ref ∈ pool.
Proof.
  intros [Hr0 Hr1] Hne. unfold spottingCalculator.pick, Num.floor.
  set (len := Z.of_nat (length pool)).
  assert (Hlen : 0 < len) by (destruct pool; [congruence | cbn in len; lia]).
  assert (Hq : (Num.mul r (Num.ofZ len) == r * inject_Z len)%Q)
    by apply mul_correct.
  assert (HlenQ : (0 < inject_Z len)%Q)
    by (change 0%Q with (inject_Z 0); rewrite <- Zlt_Qlt; exact Hlen).
  assert (Hlo : 0 <= Qfloor (Num.mul r (Num.ofZ len))).
  { change 0 with (Qfloor (inject_Z 0)) at 1. apply Qfloor_resp_le.
    rewrite Hq. change (inject_Z 0) with 0%Q. nra. }
  assert (Hhi : Qfloor (Num.mul r (Num.ofZ len)) < len).
  { rewrite Zlt_Qlt.
    apply Qle_lt_trans with (Num.mul r (Num.ofZ len)); [apply Qfloor_le |].
    rewrite Hq. nra. }
  destruct (Z.ltb_spec (Qfloor (Num.mul r (Num.ofZ len))) 0); [lia |].
  destruct (lookup_lt_is_Some_2 pool (Z.to_nat (Qfloor (Num.mul r (Num.ofZ len)))))
    as [ref Href]; [subst len; lia |].
  exists ref. split; [exact Href |].
  apply list_elem_of_lookup. eexists. exact Href.
Qed.

(** The jitter moves a geographic coordinate by at most 0.005 and the
    rounding of its three operations. *)
Lemma jitter_near (coordinate r : number) :
  (0 <= r < 1)%Q -> (Qabs coordinate <= 180)%Q ->
  (Qabs (spottingCalculator.jitter coordinate r - coordinate) <= jitterReach)%Q.
Proof.
  intros [H0 H1] Hc. unfold spottingCalculator.jitter, Num.fadd, Num.fmul, Num.fsub.
  set (u := (1 # 9007199254740992)%Q).
  set (K := (0.01 + (1 # 100000000000000000))%Q).
  assert (Ht1 : (Qabs (Num.double (r - 0.5)) <= (1 # 2) * (1 + u))%Q).
  { apply double_within. apply Qabs_Qle_condition. split; lra. }
  assert (Hk : (Qabs (Num.double 0.01) <= K)%Q) by (vm_compute; discriminate).
  set (t1 := Num.double (r - 0.5)) in *. set (k := Num.double 0.01) in *.
  assert (Hprod : (Qabs (t1 * k) <= (1 # 2) * (1 + u) * K)%Q).
  { rewrite Qabs_Qmult.
    pose proof (Qabs_nonneg t1). pose proof (Qabs_nonneg k).
    set (a := Qabs t1) in *. set (b := Qabs k) in *.
    assert (Hu : (0 <= (1 # 2) * (1 + u))%Q) by (vm_compute; discriminate).
    clearbody a b. nra. }
  pose proof (double_within _ _ Hprod) as Ht2. fold u in Ht2.
  set (t2 := Num.double (t1 * k)) in *.
  set (T := ((1 # 2) * (1 + u) * K * (1 + u))%Q) in *.
  assert (Hsum : (Qabs (coordinate + t2) <= 180 + T)%Q).
  { apply Qle_trans with (Qabs coordinate + Qabs t2)%Q; [apply Qabs_triangle | lra]. }
  pose proof (double_near (coordinate + t2)) as Hs. fold u in Hs.
  set (s := Num.double (coordinate + t2)) in *.
  assert (HT : ((180 + T) * u + T <= jitterReach)%Q) by (vm_compute; discriminate).
  assert (Hu0 : (0 <= u)%Q) by (vm_compute; discriminate).
  apply Qabs_Qle_condition in Hs. apply Qabs_Qle_condition in Ht2.
  pose proof (Qabs_nonneg (coordinate + t2)) as Hn.
  set (n := Qabs (coordinate + t2)) in *.
  apply Qabs_Qle_condition.
  clearbody s t2 n T u. clear Hprod Hk Ht1. split; nra.
Qed.

Lemma lookup_push_new {A : Type} (l : list A) (x : A) :
  push l x !! length l = Some x.
Proof. unfold push. apply list_lookup_middle. reflexivity. Qed.

(** The loop of [generateMonsterLocations]: every turn draws three numbers
    and allocates one placement; nothing else of the store changes. *)
Lemma placeSightings_spec (rng : nat -> number) (pool : list nat) (n : nat) :
  unitStream rng -> pool <> [] ->
  forall (acc : list nat) (st : SimState),
    poolOfLocations (objects st) pool ->
    exists new,
      spottingCalculator.placeSightings rng pool n acc st
      = Some ((acc ++ seq (length (objects st)) n)%list,
              {| drawn := drawn st + 3 * n;
                 objects := (objects st ++ new)%list |})
      /\ length new = n
      /\ Forall (placementOf (objects st) pool) new.
Proof.
  intros Hrng Hne. induction n as [| n IH]; intros acc st Hpool.
  - exists []. cbn. unfold ret. rewrite !app_nil_r, Nat.add_0_r.
    destruct st; split; [reflexivity | split; [reflexivity | constructor]].
  - destruct (pick_in_pool pool (rng (drawn st)) (Hrng _) Hne) as [ref [Hpick Hin]].
    destruct (Hpool ref Hin) as [baseLocation Hbase].
    set (spotted := {| spread := baseLocation;
                       lat := spottingCalculator.jitter (latitude baseLocation)
                                (rng (S (drawn st)));
                       lng := spottingCalculator.jitter (longitude baseLocation)
                                (rng (S (S (drawn st)))) |}).
    set (st' := {| drawn := S (S (S (drawn st)));
                   objects := push (objects st) (ObjSpotted spotted) |}).
    assert (Hpool' : poolOfLocations (objects st') pool)
      by (apply poolOfLocations_grows; exact Hpool).
    destruct (IH (push acc (length (objects st))) st' Hpool')
      as [new [Hrun [Hlen Hall]]].
    exists (ObjSpotted spotted :: new).
    split; [| split].
    + cbn [spottingCalculator.placeSightings]. unfold bind, next, readLocation, alloc.
      cbn [drawn objects]. rewrite Hpick, Hbase. unfold ret.
      cbn [drawn objects]. fold spotted. fold st'.
      rewrite Hrun. f_equal. f_equal.
      * unfold push. cbn [objects st']. unfold push.
        rewrite length_app, <- app_assoc. cbn [length seq app].
        rewrite Nat.add_1_r. reflexivity.
      * cbn [drawn objects st']. unfold push. rewrite <- app_assoc.
        f_equal. lia.
    + cbn. rewrite Hlen. reflexivity.
    + constructor.
      * exists ref, baseLocation, spotted, (rng (S (drawn st))),
          (rng (S (S (drawn st)))).
        split; [exact Hin |]. split; [exact Hbase |].
        split; [reflexivity |]. split; [reflexivity |].
        split; [apply Hrng |]. split; [apply Hrng |]. split; reflexivity.
      * eapply Forall_impl; [exact Hall |].
        intros o (ref' & base' & s' & r1 & r2 & Hin' & Hl' & Hb).
        exists ref', base', s', r1, r2. split; [exact Hin' |].
        split; [| exact Hb].
        destruct (Hpool ref' Hin') as [l Hl].
        cbn [objects st'] in Hl'. unfold push in Hl'.
        rewrite (lookup_app_l_Some _ _ _ _ Hl) in Hl'.
        rewrite Hl. exact Hl'.
Qed.

Lemma rollSightings_spec (rng : nat -> number) (chance : number) (n : nat) :
  forall (spottedCount : nat) (st : SimState),
    exists total,
      spottingCalculator.rollSightings rng chance n spottedCount st
      = Some (total, {| drawn := drawn st + n; objects := objects st |})
      /\ (spottedCount <= total <= spottedCount + n)%nat.
Proof.
  induction n as [| n IH]; intros spottedCount st.
  - exists spottedCount. cbn. unfold ret. rewrite Nat.add_0_r.
    destruct st. split; [reflexivity | lia].
  - cbn [spottingCalculator.rollSightings]. unfold bind, next.
    destruct (IH (if Num.ltb (rng (drawn st)) chance
                  then S spottedCount else spottedCount)
                 {| drawn := S (drawn st); objects := objects st |})
      as [total [Hrun Hbound]].
    exists total. rewrite Hrun. cbn [drawn objects].
    split; [do 3 f_equal; lia |].
    destruct (Num.ltb (rng (drawn st)) chance); lia.
Qed.

Lemma rollSightings_all_hits (rng : nat -> number) (chance : number) (n : nat) :
  (forall i, (rng i < chance)%Q) ->
  forall (spottedCount : nat) (st : SimState),
    spottingCalculator.rollSightings rng chance n spottedCount st
    = Some ((spottedCount + n)%nat,
            {| drawn := drawn st + n; objects := objects st |}).
Proof.
  intros Hhit. induction n as [| n IH]; intros spottedCount st.
  - cbn. unfold ret. rewrite !Nat.add_0_r. destruct st; reflexivity.
  - cbn [spottingCalculator.rollSightings]. unfold bind, next.
    rewrite (proj2 (ltb_lt _ _) (Hhit _)). rewrite IH. cbn [drawn objects].
    f_equal. f_equal; [lia | f_equal; lia].
Qed.

End Simulation.

(** ** Location generation *)

Section LocationGeneration.
Import state store.

Lemma generateMonsterLocations_spec (rng : nat -> number) (app : AppState)
    (m : monster.Monster) (count : nat) (st : SimState) :
  unitStream rng ->
  indexedLocations app (objects st) ->
  plainHabitats m ->
  exists placed new,
    spottingCalculator.generateMonsterLocations app m count rng st
    = Some (placed, {| drawn := drawn st + 3 * length new;
                       objects := (objects st ++ new)%list |})
    /\ placed = seq (length (objects st)) (length new)
    /\ (spottingCalculator.buildLocationPool app m = [] -> new = [])
    /\ (count = 0%nat -> new = [])
    /\ (spottingCalculator.buildLocationPool app m <> [] -> length new = count)
    /\ Forall (placementOf (objects st) (spottingCalculator.buildLocationPool app m)) new.
Proof.
  intros Hrng Hwf Hplain. unfold spottingCalculator.generateMonsterLocations.
  rewrite (resolveLoop_plain m Hplain).
  change (spottingCalculator.poolOf app (spottingCalculator.resolveFeatureCodes m))
    with (spottingCalculator.buildLocationPool app m).
  assert (Hnone : ret (A := list nat) [] st
                  = Some ([], {| drawn := drawn st + 3 * length (@nil Obj);
                                 objects := (objects st ++ [])%list |})).
  { unfold ret. cbn. rewrite app_nil_r, Nat.add_0_r. destruct st; reflexivity. }
  destruct (Nat.eqb_spec count 0) as [-> | Hcount].
  - exists [], []. split; [exact Hnone |].
    split; [reflexivity |]. split; [reflexivity |]. split; [reflexivity |].
    split; [reflexivity | constructor].
  - destruct (Nat.eqb_spec (length (spottingCalculator.buildLocationPool app m)) 0)
      as [Hempty | Hfull].
    + exists [], []. split; [exact Hnone |].
      split; [reflexivity |]. split; [reflexivity |]. split; [reflexivity |].
      split; [| constructor].
      intros Hne. destruct (spottingCalculator.buildLocationPool app m);
        [contradiction | discriminate].
    + assert (Hne : spottingCalculator.buildLocationPool app m <> [])
        by (intros E; rewrite E in Hfull; apply Hfull; reflexivity).
      destruct (placeSightings_spec rng _ count Hrng Hne [] st
                  (buildLocationPool_of_locations app (objects st) m Hwf))
        as [new [Hrun [Hlen Hall]]].
      exists (seq (length (objects st)) count), new.
      rewrite Hrun, Hlen. rewrite app_nil_l.
      split; [reflexivity |]. split; [reflexivity |].
      split; [intros E; contradiction |]. split; [intros E; contradiction |].
      split; [reflexivity | exact Hall].
Qed.

(** With a count that is not 0, a habitat identifier that is an inherited
    name makes [generateMonsterLocations] throw. *)
Lemma generateMonsterLocations_throws (rng : nat -> number) (app : AppState)
    (m : monster.Monster) (count : nat) (st : SimState) :
  count <> 0%nat -> ~ plainHabitats m ->
  spottingCalculator.generateMonsterLocations app m count rng st = None.
Proof.
  intros Hcount Hnot. unfold spottingCalculator.generateMonsterLocations.
  destruct (Nat.eqb_spec count 0); [contradiction |].
  rewrite (resolveLoop_inherited m Hnot). reflexivity.
Qed.

Lemma spotMonster_total (seedrandom : string -> nat -> number) (env : Env)
    (dateSeed : string) (m : monster.Monster) (st : SimState) :
  (forall seed, unitStream (seedrandom seed)) ->
  indexedLocations (appState env) (objects st) ->
  plainHabitats m ->
  exists data new drawn',
    spottingCalculator.spotMonster seedrandom env dateSeed m st
    = Some (data, {| drawn := drawn'; objects := (objects st ++ new)%list |}).
Proof.
  intros Hrng Hwf Hplain. unfold spottingCalculator.spotMonster.
  destruct (Num.leb (monster.chance (monster.calculateSpottingData env m)) 0).
  - eexists _, [], (drawn st). unfold ret. rewrite app_nil_r.
    destruct st; reflexivity.
  - unfold bind.
    destruct (rollSightings_spec (seedrandom (String.append dateSeed (monster.id m)))
                (monster.chance (monster.calculateSpottingData env m))
                spottingCalculator.maxSpotted 0 st) as [total [-> _]].
    destruct (generateMonsterLocations_spec
                (seedrandom (String.append dateSeed (monster.id m)))
                (appState env) m total
                {| drawn := drawn st + spottingCalculator.maxSpotted;
                   objects := objects st |} (Hrng _) Hwf Hplain)
      as [placed [new [-> _]]].
    eexists _, new, _. unfold ret. reflexivity.
Qed.

Lemma spotAll_total (seedrandom : string -> nat -> number) (env : Env)
    (dateSeed : string) (monsters : list monster.Monster) :
  (forall seed, unitStream (seedrandom seed)) ->
  Forall (fun m => plainHabitats m /\ monster.throwsTypeError env m = false)
    monsters ->
  forall (calculatedData : gmap string spottingCalculator.SpottedMonster)
         (objects : Store),
    indexedLocations (appState env) objects ->
    is_Some (spottingCalculator.spotAll seedrandom env dateSeed monsters
               calculatedData objects).
Proof.
  intros Hrng Hplain.
  induction Hplain as [| m rest [Hm Hthrow] _ IH]; intros calculatedData objects Hwf.
  - cbn. eexists. reflexivity.
  - cbn [spottingCalculator.spotAll]. unfold spottingCalculator.spotTurn.
    rewrite Hthrow.
    destruct (spotMonster_total seedrandom env dateSeed m
                {| drawn := 0; objects := objects |} Hrng Hwf Hm)
      as [data [new [drawn' ->]]].
    apply IH. cbn [store.objects]. apply indexedLocations_grows. exact Hwf.
Qed.

(** A turn that throws ends the whole recomputation. *)
Lemma spotAll_throws (seedrandom : string -> nat -> number) (env : Env)
    (dateSeed : string) (monsters : list monster.Monster) (m : monster.Monster) :
  m ∈ monsters ->
  (forall st, spottingCalculator.spotTurn seedrandom env dateSeed m st = None) ->
  forall (calculatedData : gmap string spottingCalculator.SpottedMonster)
         (objects : Store),
    spottingCalculator.spotAll seedrandom env dateSeed monsters
      calculatedData objects = None.
Proof.
  intros Hin Hthrow.
  induction monsters as [| m' rest IH]; intros calculatedData objects;
    [inversion Hin |].
  cbn [spottingCalculator.spotAll].
  apply elem_of_cons in Hin as [<- | Hin].
  - rewrite Hthrow. reflexivity.
  - destruct (spottingCalculator.spotTurn seedrandom env dateSeed m' _)
      as [[data st] |]; [apply IH; exact Hin | reflexivity].
Qed.

End LocationGeneration.

(** ** The indexes that processLoadedData builds *)

Section DataLoader.
Import state store.

Lemma lookup_pushAt (key : string) (ref : nat) (index : gmap string (list nat))
    (code : string) (refs : list nat) :
  dataLoader.pushAt key ref index !! code = Some refs ->
  (code = key /\ refs = push (default [] (index !! key)) ref)
  \/ (code <> key /\ index !! code = Some refs).
Proof.
  unfold dataLoader.pushAt. intros H.
  destruct (decide (key = code)) as [-> | Hne].
  - rewrite lookup_insert_eq in H. injection H as <-. left. split; reflexivity.
  - rewrite lookup_insert_ne in H by exact Hne. right. split; [congruence | exact H].
Qed.

Lemma indexLocations_indexed (locations : list dataLoader.RawLocation) :
  forall (objects : Store) (byCode byClass : gmap string (list nat)) date,
    indexedLocations
      {| currentDate := date; locationsByFeatureCode := byCode;
         locationsByFeatureClass := byClass |} objects ->
    let '(objects', byCode', byClass') :=
      dataLoader.indexLocations locations objects byCode byClass in
    indexedLocations
      {| currentDate := date; locationsByFeatureCode := byCode';
         locationsByFeatureClass := byClass' |} objects'.
Proof.
  induction locations as [| loc rest IH]; intros objects byCode byClass date Hwf.
  - exact Hwf.
  - cbn [dataLoader.indexLocations]. apply IH.
    intros code refs ref Hc Hin. cbn in Hc.
    assert (Hold : forall refs', (byCode !! code = Some refs' \/ byClass !! code = Some refs') ->
                    ref ∈ refs' ->
                    exists l, push objects (ObjLocation (dataLoader.withFullFeatureCode loc)) !! ref
                              = Some (ObjLocation l)).
    { intros refs' Hc' Hin'. destruct (Hwf code refs' ref Hc' Hin') as [l Hl].
      exists l. unfold push. apply lookup_app_l_Some. exact Hl. }
    assert (Hnew : forall key (index : gmap string (list nat)),
              (forall refs', index !! key = Some refs' ->
                 byCode !! key = Some refs' \/ byClass !! key = Some refs') ->
              code = key ->
              ref ∈ push (default [] (index !! key)) (length objects) ->
              exists l, push objects (ObjLocation (dataLoader.withFullFeatureCode loc)) !! ref
                        = Some (ObjLocation l)).
    { intros key index Hsub -> Hin'. apply elem_of_push in Hin' as [Hin' | ->].
      - destruct (index !! key) as [refs' |] eqn:E; cbn in Hin'.
        + exact (Hold refs' (Hsub refs' eq_refl) Hin').
        + apply elem_of_nil in Hin'. contradiction.
      - eexists. apply lookup_push_new. }
    destruct Hc as [Hc | Hc]; apply lookup_pushAt in Hc as [[Hk ->] | [_ Hc]].
    + refine (Hnew _ byCode _ Hk Hin). intros; left; assumption.
    + apply (Hold refs); [left; exact Hc | exact Hin].
    + refine (Hnew _ byClass _ Hk Hin). intros; right; assumption.
    + apply (Hold refs); [right; exact Hc | exact Hin].
Qed.

(** The store and the indexes that [processLoadedData] builds agree. *)
Lemma processLoadedData_indexed (date : Z) (locations : list dataLoader.RawLocation) :
  indexedLocations (snd (dataLoader.processLoadedData date locations))
                   (fst (dataLoader.processLoadedData date locations)).
Proof.
  unfold dataLoader.processLoadedData.
  pose proof (indexLocations_indexed locations [] ∅ ∅ date) as H.
  destruct (dataLoader.indexLocations locations [] ∅ ∅) as [[objects byCode] byClass].
  cbn [fst snd]. apply H.
  intros code refs ref [Hc | Hc]; cbn in Hc; rewrite lookup_empty in Hc; discriminate.
Qed.

End DataLoader.

(** ** Configuration inconsistencies *)

(** [plainHabitats] of a concrete monster, by comparing the names. *)
Ltac plain_habitats :=
  intros locIdentifier Hin; cbn in Hin;
  repeat (apply elem_of_cons in Hin as [-> | Hin];
          [intros H; vm_compute in H;
           repeat (apply elem_of_cons in H as [H | H]; [discriminate |]);
           inversion H |]);
  inversion Hin.

Section FailClosed.
Import state store.

Lemma unitStream_constant (r : number) (seed : string) :
  (0 <= r < 1)%Q -> unitStream (sample.constantStream r seed).
Proof. intros H n. exact H. Qed.

(** C9: habitat identifiers fail closed, except the names that an object
    literal inherits.  For identifiers that are no such name: one that
    names a known group stands for the feature codes of the group, any
    other for itself; the pool is made of the locations that the indexes
    hold for the resolved codes, and a code the indexes do not know adds
    nothing; [generateMonsterLocations] returns one placement from the
    pool for each sighting, or none when the pool is empty, in which case
    the record keeps the count of the sighting rolls, has no locations and
    the store is as it was; and the recomputation returns.  For an
    identifier such as "constructor", [generateMonsterLocations] throws as
    soon as there is a sighting to place, and with it the whole
    recomputation. *)
Theorem habitats_fail_closed_except_inherited_names
    (seedrandom : string -> nat -> number) (env : Env)
    (monsters : list monster.Monster) (objects : Store) :
  (forall seed, unitStream (seedrandom seed)) ->
  indexedLocations (appState env) objects ->
  (forall m, plainHabitats m ->
      spottingCalculator.resolveLoop (monster.locations m) []
      = Some (spottingCalculator.resolveFeatureCodes m)
      /\ forall code,
           code ∈ spottingCalculator.resolveFeatureCodes m
           <-> exists locIdentifier,
                 locIdentifier ∈ monster.locations m
                 /\ expandsTo locIdentifier code)
  /\ (forall locIdentifier group code,
        config.LOCATION_GROUPS !! locIdentifier = Some group ->
        (expandsTo locIdentifier code <-> code ∈ group))
  /\ (forall locIdentifier code,
        config.LOCATION_GROUPS !! locIdentifier = None ->
        (expandsTo locIdentifier code <-> code = locIdentifier))
  /\ (forall m ref,
        ref ∈ spottingCalculator.buildLocationPool (appState env) m
        <-> exists code,
              code ∈ spottingCalculator.resolveFeatureCodes m
              /\ ref ∈ matchingLocations (appState env) code)
  /\ (forall code,
        (if spottingCalculator.includesDot code
         then locationsByFeatureCode (appState env) !! code
         else locationsByFeatureClass (appState env) !! code) = None ->
        matchingLocations (appState env) code = [])
  /\ (forall m count rng d,
        plainHabitats m -> unitStream rng ->
        exists new,
          spottingCalculator.generateMonsterLocations (appState env) m count rng
            {| drawn := d; objects := objects |}
          = Some (seq (length objects) (length new),
                  {| drawn := d + 3 * length new;
                     objects := (objects ++ new)%list |})
          /\ Forall (placementOf objects
                       (spottingCalculator.buildLocationPool (appState env) m)) new
          /\ (spottingCalculator.buildLocationPool (appState env) m <> [] ->
              length new = count)
          /\ (spottingCalculator.buildLocationPool (appState env) m = [] ->
              new = []))
  /\ (forall m dateSeed st,
        plainHabitats m ->
        spottingCalculator.buildLocationPool (appState env) m = [] ->
        (0 < monster.chance (monster.calculateSpottingData env m))%Q ->
        exists total,
          spottingCalculator.rollSightings
            (seedrandom (String.append dateSeed (monster.id m)))
            (monster.chance (monster.calculateSpottingData env m))
            spottingCalculator.maxSpotted 0 st
          = Some (total, {| drawn := drawn st + spottingCalculator.maxSpotted;
                            objects := store.objects st |})
          /\ spottingCalculator.spotMonster seedrandom env dateSeed m st
             = Some ({| spottingCalculator.count := total;
                        spottingCalculator.locations := [];
                        spottingCalculator.likelihood :=
                          spottingCalculator.getLikelihood (Z.of_nat total);
                        spottingCalculator.currentChance :=
                          monster.chance (monster.calculateSpottingData env m);
                        spottingCalculator.breakdown :=
                          monster.breakdown (monster.calculateSpottingData env m);
                        spottingCalculator.event :=
                          monster.event (monster.calculateSpottingData env m) |},
                     {| drawn := drawn st + spottingCalculator.maxSpotted;
                        objects := store.objects st |}))
  /\ (Forall (fun m => plainHabitats m /\ monster.throwsTypeError env m = false)
        monsters ->
      is_Some (spottingCalculator.calculateSpottedMonsters seedrandom env
                 monsters objects))
  /\ (forall m count rng st,
        count <> 0%nat -> ~ plainHabitats m ->
        spottingCalculator.generateMonsterLocations (appState env) m count rng st
        = None)
  /\ (forall m,
        m ∈ monsters -> ~ plainHabitats m ->
        (monster.chance (monster.calculateSpottingData env m) == 1)%Q ->
        spottingCalculator.calculateSpottedMonsters seedrandom env monsters objects
        = None).
Proof.
  intros Hrng Hwf.
  split; [| split; [| split; [| split; [| split; [| split; [| split;
    [| split; [| split]]]]]]]].
  - intros m Hplain. split; [apply resolveLoop_plain; exact Hplain |].
    apply elem_of_resolveFeatureCodes.
  - intros locIdentifier group code H. unfold expandsTo. rewrite H. reflexivity.
  - intros locIdentifier code H. unfold expandsTo. rewrite H. reflexivity.
  - apply elem_of_buildLocationPool.
  - intros code H. unfold matchingLocations.
    destruct (spottingCalculator.includesDot code); rewrite H; reflexivity.
  - intros m count rng d Hplain Hunit.
    destruct (generateMonsterLocations_spec rng (appState env) m count
                {| drawn := d; objects := objects |} Hunit Hwf Hplain)
      as [placed [new [Hrun [Hplaced [Hempty [_ [Hfull Hall]]]]]]].
    exists new. subst placed. split; [exact Hrun |].
    split; [exact Hall |]. split; [exact Hfull | exact Hempty].
  - intros m dateSeed st Hplain Hempty Hpos.
    destruct (rollSightings_spec (seedrandom (String.append dateSeed (monster.id m)))
                (monster.chance (monster.calculateSpottingData env m))
                spottingCalculator.maxSpotted 0 st) as [total [Hroll _]].
    exists total. split; [exact Hroll |].
    unfold spottingCalculator.spotMonster.
    rewrite (proj2 (leb_gt _ _) Hpos). unfold bind. rewrite Hroll.
    unfold spottingCalculator.generateMonsterLocations.
    rewrite (resolveLoop_plain m Hplain).
    change (spottingCalculator.poolOf (appState env)
              (spottingCalculator.resolveFeatureCodes m))
      with (spottingCalculator.buildLocationPool (appState env) m).
    rewrite Hempty.
    destruct (total =? 0)%nat; reflexivity.
  - intros Hplain. unfold spottingCalculator.calculateSpottedMonsters.
    apply spotAll_total; assumption.
  - intros m count rng st Hcount Hnot.
    apply generateMonsterLocations_throws; assumption.
  - intros m Hin Hnot Hone.
    unfold spottingCalculator.calculateSpottedMonsters.
    apply (spotAll_throws seedrandom env _ monsters m Hin).
    intros st. unfold spottingCalculator.spotTurn.
    destruct (monster.throwsTypeError env m); [reflexivity |].
    unfold spottingCalculator.spotMonster.
    assert (Hpos : Num.leb (monster.chance (monster.calculateSpottingData env m)) 0
                   = false).
    { apply leb_gt. rewrite Hone. reflexivity. }
    rewrite Hpos. unfold bind.
    rewrite rollSightings_all_hits by (intros i; rewrite Hone; apply Hrng).
    rewrite generateMonsterLocations_throws; [reflexivity | discriminate | exact Hnot].
Qed.

Lemma habitats_fail_closed_except_inherited_names_witness :
  is_Some (spottingCalculator.calculateSpottedMonsters (sample.constantStream 0)
             (sample.envOn sample.halloween2024 sample.lateEvening)
             [sample.ghost; sample.troll] sample.objects)
  /\ spottingCalculator.calculateSpottedMonsters (sample.constantStream 0)
       (sample.envOn sample.halloween2024 sample.lateEvening)
       [sample.ghost; sample.changeling; sample.troll] sample.objects
     = None.
Proof.
  assert (Hunit : forall seed, unitStream (sample.constantStream 0 seed)).
  { intros seed. apply unitStream_constant. split; [discriminate | reflexivity]. }
  split.
  - apply (habitats_fail_closed_except_inherited_names (sample.constantStream 0)
             (sample.envOn sample.halloween2024 sample.lateEvening)
             [sample.ghost; sample.troll] sample.objects Hunit
             (processLoadedData_indexed _ _)).
    repeat constructor; plain_habitats.
  - destruct (habitats_fail_closed_except_inherited_names (sample.constantStream 0)
                (sample.envOn sample.halloween2024 sample.lateEvening)
                [sample.ghost; sample.changeling; sample.troll] sample.objects Hunit
                (processLoadedData_indexed _ _))
      as (_ & _ & _ & _ & _ & _ & _ & _ & _ & Hthrows).
    apply (Hthrows sample.changeling).
    + right. left.
    + intros H. apply (H "constructor"); left.
    + vm_compute. reflexivity.
Defined.

End FailClosed.

(** ** Placements *)

Section Placements.
Import state store.

(** C10, amended: for habitat identifiers that are no inherited names,
    [generateMonsterLocations] returns, and leaves every object of the
    store as it was; every placement it returns is a new object, at an
    address the store did not have, with the properties of a location of
    the pool, [latitude] and [longitude] unchanged among them, and with
    [lat] and [lng] that are the jitter of those coordinates; for
    geographic coordinates the jitter is at most 0.005 and the rounding of
    its three operations away, less than 10^-13. *)
Theorem placements_are_new_and_near
    (rng : nat -> number) (app : AppState) (m : monster.Monster)
    (count : nat) (st : SimState) :
  unitStream rng ->
  indexedLocations app (objects st) ->
  plainHabitats m ->
  exists placed new,
    spottingCalculator.generateMonsterLocations app m count rng st
    = Some (placed, {| drawn := drawn st + 3 * length new;
                       objects := (objects st ++ new)%list |})
    /\ (forall a o, objects st !! a = Some o ->
                   (objects st ++ new)%list !! a = Some o)
    /\ (forall ref, ref ∈ placed ->
          (length (objects st) <= ref)%nat
          /\ exists o,
               (objects st ++ new)%list !! ref = Some o
               /\ placementOf (objects st)
                    (spottingCalculator.buildLocationPool app m) o)
    /\ (forall spotted,
          ObjSpotted spotted ∈ new ->
          geographic (spread spotted) ->
          (Qabs (lat spotted - latitude (spread spotted)) <= jitterReach)%Q
          /\ (Qabs (lng spotted - longitude (spread spotted)) <= jitterReach)%Q).
Proof.
  intros Hrng Hwf Hplain.
  destruct (generateMonsterLocations_spec rng app m count st Hrng Hwf Hplain)
    as [placed [new [Hrun [Hplaced [_ [_ [_ Hall]]]]]]].
  exists placed, new. split; [exact Hrun |]. split; [| split].
  - intros a o Ha. apply lookup_app_l_Some. exact Ha.
  - intros ref Hin. subst placed. apply elem_of_seq in Hin as [Hlo Hhi].
    split; [exact Hlo |].
    destruct (lookup_lt_is_Some_2 new (ref - length (objects st))) as [o Ho];
      [lia |].
    exists o. split.
    + rewrite lookup_app_r by exact Hlo. exact Ho.
    + rewrite Forall_forall in Hall. apply Hall.
      apply list_elem_of_lookup. eexists. exact Ho.
  - intros spotted Hin [Hlat Hlng].
    rewrite Forall_forall in Hall.
    destruct (Hall _ Hin)
      as (ref & base & spotted' & r1 & r2 & _ & _ & Ho & Hs & Hr1 & Hr2 & Ha & Hb).
    injection Ho as <-. subst base. rewrite Ha, Hb.
    split; apply jitter_near; assumption.
Qed.

Lemma placements_are_new_and_near_witness :
  exists placed new,
    spottingCalculator.generateMonsterLocations
      (sample.appStateOn sample.march2024) sample.troll 2
      (sample.constantStream 0.5 "2024-03-12troll")
      {| drawn := 40; objects := sample.objects |}
    = Some (placed, {| drawn := 40 + 3 * length new;
                       objects := (sample.objects ++ new)%list |})
    /\ (forall a o, sample.objects !! a = Some o ->
                   (sample.objects ++ new)%list !! a = Some o)
    /\ (forall ref, ref ∈ placed ->
          (length sample.objects <= ref)%nat
          /\ exists o,
               (sample.objects ++ new)%list !! ref = Some o
               /\ placementOf sample.objects
                    (spottingCalculator.buildLocationPool
                       (sample.appStateOn sample.march2024) sample.troll) o)
    /\ (forall spotted,
          ObjSpotted spotted ∈ new ->
          geographic (spread spotted) ->
          (Qabs (lat spotted - latitude (spread spotted)) <= jitterReach)%Q
          /\ (Qabs (lng spotted - longitude (spread spotted)) <= jitterReach)%Q).
Proof.
  apply (placements_are_new_and_near
           (sample.constantStream 0.5 "2024-03-12troll")
           (sample.appStateOn sample.march2024) sample.troll 2
           {| drawn := 40; objects := sample.objects |}).
  - apply unitStream_constant. split; [discriminate | reflexivity].
  - apply processLoadedData_indexed.
  - plain_habitats.
Defined.

(** C10 as stated fails at the edge of the generator's range: when the
    generator gives 0, the placement of the tomte in Stockholm, whose
    latitude is the double nearest to 59.33, has the double
    59.324999999999996 as its [lat], which is more than 0.005 below its
    base. *)
Lemma jitter_exceeds_0_005 :
  let objects := fst (dataLoader.processLoadedData sample.march2024
                        [sample.stockholmAsParsed]) in
  let app := snd (dataLoader.processLoadedData sample.march2024
                    [sample.stockholmAsParsed]) in
  unitStream (sample.constantStream 0 "2024-03-12tomte")
  /\ exists placement,
       spottingCalculator.generateMonsterLocations app sample.tomte 1
         (sample.constantStream 0 "2024-03-12tomte")
         {| drawn := 40; objects := objects |}
       = Some ([1%nat], {| drawn := 43;
                           objects := (objects ++ [ObjSpotted placement])%list |})
       /\ geographic (spread placement)
       /\ latitude (spread placement) = Num.double 59.33
       /\ lat placement = (8349251496679833 # 140737488355328)%Q
       /\ (0.005 < Qabs (lat placement - latitude (spread placement)))%Q
       /\ ~ (Qabs (lat placement - latitude (spread placement)) < 0.005)%Q.
Proof.
  split.
  - apply unitStream_constant. split; [discriminate | reflexivity].
  - eexists. split; [vm_compute; reflexivity |].
    split; [split; vm_compute; discriminate |].
    split; [reflexivity |]. split; [reflexivity |].
    split; [vm_compute; reflexivity | vm_compute; discriminate].
Qed.

End Placements.

(** * Further properties of the code *)

(** ** The periods of the day *)

(** Case analysis on the comparisons of the goal, one at a time, leaving
    the cases that the hypotheses allow. *)
Ltac split_comparisons :=
  repeat match goal with
         | |- context [Z.leb ?a ?b] =>
             destruct (Z.leb_spec a b); try (exfalso; lia); cbn [andb orb negb]
         | |- context [Z.ltb ?a ?b] =>
             destruct (Z.ltb_spec a b); try (exfalso; lia); cbn [andb orb negb]
         | |- context [Z.eqb ?a ?b] =>
             destruct (Z.eqb_spec a b); try (exfalso; lia); cbn [andb orb negb]
         end.

Section Periods.
Import state config.

Lemma msOfDay_getCurrentTime (env : Env) :
  0 <= JSDate.msOfDay (time.getCurrentTime env) < JSDate.msPerDay.
Proof.
  unfold time.getCurrentTime.
  destruct (forceTime (debugState env)) as [[h m] |];
    unfold JSDate.setHours; cbn [JSDate.msOfDay];
    apply Z.mod_pos_bound; reflexivity.
Qed.

Lemma getHours_range (env : Env) :
  0 <= JSDate.getHours (time.getCurrentTime env) <= 23.
Proof.
  pose proof (msOfDay_getCurrentTime env) as H.
  unfold JSDate.getHours, JSDate.msPerDay in *.
  split.
  - apply Z.div_pos; lia.
  - assert (JSDate.msOfDay (time.getCurrentTime env) / 3600000 < 24); [| lia].
    apply Z.div_lt_upper_bound; lia.
Qed.

Lemma getMinutes_range (env : Env) :
  0 <= JSDate.getMinutes (time.getCurrentTime env) <= 59.
Proof.
  unfold JSDate.getMinutes.
  pose proof (Z.mod_pos_bound (JSDate.msOfDay (time.getCurrentTime env) / 60000) 60).
  lia.
Qed.

(** The name that [getCurrentPeriodName] returns, by the hour. *)
Lemma getCurrentPeriodName_by_hour (env : Env) :
  time.getCurrentPeriodName env
  = let h := JSDate.getHours (time.getCurrentTime env) in
    if h <? 1 then "Midnight"
    else if h <? 4 then "Late Night"
    else if h <? 6 then "Early Morning"
    else if h <? 9 then "Morning"
    else if h <? 18 then "Day"
    else if h <? 21 then "Evening"
    else "Night".
Proof.
  pose proof (getHours_range env) as Hh.
  pose proof (getMinutes_range env) as Hm.
  unfold time.getCurrentPeriodName, time.timeToMins, TIME_PERIODS.
  cbn [time.firstPeriodAt start end_]. cbv zeta.
  set (h := JSDate.getHours (time.getCurrentTime env)) in *.
  set (m := JSDate.getMinutes (time.getCurrentTime env)) in *.
  split_comparisons; reflexivity.
Qed.

(** X1: the periods of [TIME_PERIODS] split the day: the simulated minute
    is between 0 and 1439, the name that [getCurrentPeriodName] returns is
    the name of a period whose interval contains it, and no period of
    another name does. *)
Theorem current_period_is_the_one_containing_the_minute (env : Env) :
  let now := time.timeToMins (time.getCurrentTime env) in
  0 <= now <= 1439
  /\ (exists p,
        period_of TIME_PERIODS (time.getCurrentPeriodName env) = Some p
        /\ start p <= now <= end_ p)
  /\ (forall periodName p,
        period_of TIME_PERIODS periodName = Some p ->
        start p <= now <= end_ p ->
        periodName = time.getCurrentPeriodName env).
Proof.
  intros now. subst now.
  pose proof (getHours_range env) as Hh.
  pose proof (getMinutes_range env) as Hm.
  rewrite getCurrentPeriodName_by_hour. cbv zeta.
  unfold time.timeToMins.
  set (h := JSDate.getHours (time.getCurrentTime env)) in *.
  set (m := JSDate.getMinutes (time.getCurrentTime env)) in *.
  split; [lia |]. split.
  - split_comparisons; (eexists; split; [reflexivity | cbn; lia]).
  - intros periodName p. unfold TIME_PERIODS. cbn [period_of].
    repeat match goal with
           | |- context [String.eqb ?a periodName] =>
               destruct (String.eqb_spec a periodName) as [<- | _];
               [intros [= <-]; cbn [start end_]; intros Hin;
                split_comparisons; reflexivity |]
           end.
    discriminate.
Qed.

End Periods.

(** ** Night, darkness and the witching hour *)

Section NightAndDark.
Import state config.

(** X2: the witching hour is the Midnight period: [isWitchingHour] and
    [isPeriod('Midnight')] agree at every time, so the bonuses
    [witchingHour] and [midnight] of an entity are active together or not
    at all. *)
Theorem witching_hour_is_the_midnight_period (env : Env) :
  time.isWitchingHour env = time.isPeriod env "Midnight"
  /\ forall m,
       is_Some (monster._evaluateModifier env m "witchingHour" bonuses)
       <-> is_Some (monster._evaluateModifier env m "midnight" bonuses).
Proof.
  assert (H : time.isWitchingHour env = time.isPeriod env "Midnight").
  { pose proof (getHours_range env) as Hh.
    unfold time.isWitchingHour, time.isPeriod.
    rewrite getCurrentPeriodName_by_hour. cbv zeta.
    set (h := JSDate.getHours (time.getCurrentTime env)) in *.
    split_comparisons; reflexivity. }
  split; [exact H |].
  intros m. unfold monster._evaluateModifier.
  change (modifiers.MODIFIER_DEFINITIONS bonuses !! "witchingHour")
    with (Some {| modifiers.condition := time.isWitchingHour;
                  modifiers.label := "Witching Hour" |}).
  change (modifiers.MODIFIER_DEFINITIONS bonuses !! "midnight")
    with (Some {| modifiers.condition := fun env => time.isPeriod env "Midnight";
                  modifiers.label := "Midnight" |}).
  cbn [modifiers.condition]. rewrite H.
  destruct (time.isPeriod env "Midnight").
  - split; intros _; eexists; reflexivity.
  - split; intros [x Hx]; discriminate.
Qed.

(** X3: [isNight] holds exactly in the periods Midnight, Late Night, Early
    Morning and Night, that is before 06:00 and from 21:00 on; [isDark]
    holds exactly in those and in Evening, that is before 06:00 and from
    18:00 on. *)
Theorem night_and_dark_by_period (env : Env) :
  let now := time.timeToMins (time.getCurrentTime env) in
  time.isNight env
  = bool_decide (time.getCurrentPeriodName env
                 ∈ ["Midnight"; "Late Night"; "Early Morning"; "Night"])
  /\ time.isDark env
     = bool_decide (time.getCurrentPeriodName env
                    ∈ ["Midnight"; "Late Night"; "Early Morning"; "Night"; "Evening"])
  /\ (time.isNight env = true <-> now < 360 \/ 1260 <= now)
  /\ (time.isDark env = true <-> now < 360 \/ 1080 <= now).
Proof.
  intros now. subst now.
  pose proof (getHours_range env) as Hh.
  pose proof (getMinutes_range env) as Hm.
  unfold time.isDark, time.isPeriod, time.isNight, time.timeToMins.
  rewrite getCurrentPeriodName_by_hour. cbv zeta.
  set (h := JSDate.getHours (time.getCurrentTime env)) in *.
  set (m := JSDate.getMinutes (time.getCurrentTime env)) in *.
  split; [| split; [| split]].
  - split_comparisons; reflexivity.
  - split_comparisons; reflexivity.
  - split_comparisons; split; intros; first [lia | reflexivity | discriminate].
  - split_comparisons; cbn; split; intros; first [lia | reflexivity | discriminate].
Qed.

End NightAndDark.

(** ** The range of the time multiplier *)

Section TimeMultiplierRange.
Import state config.

Lemma ratio_in_unit_interval (a b : Z) :
  0 <= a <= b -> 0 < b -> (0 <= inject_Z a / inject_Z b <= 1)%Q.
Proof.
  intros Ha Hb.
  assert (HbQ : (0 < inject_Z b)%Q)
    by (change 0%Q with (inject_Z 0); rewrite <- Zlt_Qlt; exact Hb).
  assert (Ha0 : (0 <= inject_Z a)%Q)
    by (change 0%Q with (inject_Z 0); rewrite <- Zle_Qle; lia).
  assert (Hab : (inject_Z a <= inject_Z b)%Q) by (rewrite <- Zle_Qle; lia).
  split.
  - apply Qle_shift_div_l; [exact HbQ | lra].
  - apply Qle_shift_div_r; [exact HbQ | lra].
Qed.

Lemma specRamp_at_most_peak (p : Period) (now : Z) :
  start p < peak p < end_ p -> start p <= now <= end_ p ->
  (1 <= multiplier p)%Q ->
  (specRamp p now <= multiplier p)%Q.
Proof.
  intros Hshape Hin Hm. unfold specRamp.
  assert (Hp : (0 <= specProgress p now <= 1)%Q).
  { unfold specProgress. destruct (Z.leb_spec now (peak p));
      apply ratio_in_unit_interval; lia. }
  set (x := specProgress p now) in *.
  assert (0 <= x * x <= 1)%Q by nra.
  nra.
Qed.

Lemma period_peak_at_most (periodName : string) (p : Period) :
  period_of TIME_PERIODS periodName = Some p -> (multiplier p <= 2.5)%Q.
Proof.
  unfold TIME_PERIODS. cbn [period_of].
  repeat (destruct (String.eqb _ periodName);
          [intros [= <-]; cbn; discriminate |]).
  discriminate.
Qed.

(** X4: the time multiplier is the inactive-time penalty 0.05 or a number
    from 1 to 2.5, never 0 and never negative; it is the penalty exactly
    when the entity is not active at "any" time and none of its periods
    contains the current minute. *)
Theorem time_multiplier_range (env : Env) (times : list string) :
  let now := time.timeToMins (time.getCurrentTime env) in
  let tm := time.getTimeMultiplier env times in
  (tm = time.INACTIVE_TIME_PENALTY \/ (1 <= tm <= 2.5)%Q)
  /\ (tm = time.INACTIVE_TIME_PENALTY
      <-> ("any" ∉ times) /\ forall p, ~ activeAt times now p).
Proof.
  intros now tm. subst tm. unfold time.getTimeMultiplier. fold now.
  case_bool_decide as Hany.
  - split; [right; split; discriminate |].
    split; [discriminate | intros [H _]; contradiction].
  - assert (Hloop : highestSoFar times now
              (fold_left (time.timeMultiplierStep now) times 0%Q)).
    { apply (timeMultiplier_loop times [] now 0%Q).
      left. split; [reflexivity |].
      intros p [n [Hin _]]. apply elem_of_nil in Hin. exact Hin. }
    destruct Hloop as [[-> Hnone] | [p [Hp [Hv Hmax]]]].
    + cbn. split; [left; reflexivity |]. split; [intros _ | reflexivity].
      split; assumption.
    + destruct Hp as [n [Hn [Hper Hin]]].
      destruct (period_shape _ _ Hper) as [Hshape Hmult].
      pose proof (specRamp_ge_1 p now Hmult) as Hge.
      pose proof (specRamp_at_most_peak p now Hshape Hin Hmult) as Hle.
      pose proof (period_peak_at_most _ _ Hper) as Hpeak.
      set (h := fold_left (time.timeMultiplierStep now) times 0%Q) in *.
      assert (Hpos : Num.eqb h 0 = false).
      { apply eqb_neq. intros H0. rewrite H0 in Hv. rewrite <- Hv in Hge.
        apply (Qlt_not_le 0 1); [reflexivity | exact Hge]. }
      rewrite Hpos. split.
      * right. rewrite Hv. split; [exact Hge |].
        apply Qle_trans with (multiplier p); assumption.
      * split.
        -- intros E. exfalso. rewrite E in Hv. rewrite <- Hv in Hge.
           revert Hge. vm_compute. intros Hge. apply Hge. reflexivity.
        -- intros [_ Hnone]. exfalso. apply (Hnone p).
           exists n. split; [exact Hn | split; assumption].
Qed.

End TimeMultiplierRange.

(** ** Holidays and seasons *)

Section Holidays.
Import state.

(** X5: without a forced season, Yule falls in Winter, Midsummer in Summer
    and the Halloween of the calendar in Fall. *)
Theorem holidays_have_their_season (env : Env) :
  forceSeason (debugState env) = "auto" ->
  (time.isYule env = true -> time.getCurrentSeason env = "Winter")
  /\ (time.isMidsummer env = true -> time.getCurrentSeason env = "Summer")
  /\ (forceHalloween (debugState env) = None ->
      time.isHalloween env = true -> time.getCurrentSeason env = "Fall").
Proof.
  intros Hauto.
  unfold time.isYule, time.isMidsummer, time.isHalloween, time.getCurrentSeason.
  rewrite Hauto. cbn [String.eqb Ascii.eqb Bool.eqb negb].
  set (month := JSDate.getUTCMonth (currentDate (appState env))).
  split; [| split].
  - intros H. apply Z.eqb_eq in H. split_comparisons. reflexivity.
  - intros H. apply andb_true_iff in H as [H _]. apply Z.eqb_eq in H.
    split_comparisons. reflexivity.
  - intros -> H. apply andb_true_iff in H as [H _]. apply Z.eqb_eq in H.
    split_comparisons. reflexivity.
Qed.

Lemma holidays_have_their_season_witness :
  time.isHalloween (sample.envOn sample.halloween2024 sample.noon) = true
  /\ time.getCurrentSeason (sample.envOn sample.halloween2024 sample.noon) = "Fall".
Proof.
  split; [reflexivity |].
  apply (holidays_have_their_season
           (sample.envOn sample.halloween2024 sample.noon)); reflexivity.
Defined.

End Holidays.

(** ** The header *)

Section Header.
Import state.

Lemma getMoonPhaseIcon_is_a_moon (date : Z) (icon : string) :
  time.getMoonPhaseIcon date = Some icon -> icon ∈ time.moonIcons.
Proof.
  unfold time.getMoonPhaseIcon.
  destruct (time.moonPhaseIndex date <? 0); [discriminate |].
  intros H. apply list_elem_of_lookup. eexists. exact H.
Qed.

(** X6: the header shows the sun exactly when [isDark] is false, that is
    from 06:00 to 17:59; otherwise it shows what [getMoonPhaseIcon] gives
    for the application date. *)
Theorem header_shows_the_sun_unless_dark (env : Env) :
  (header.dayNightIcon env = Some "☀️" <-> time.isDark env = false)
  /\ (time.isDark env = true ->
      header.dayNightIcon env
      = time.getMoonPhaseIcon (currentDate (appState env))).
Proof.
  pose proof (getHours_range env) as Hh.
  assert (Hdark : time.isDark env
                  = negb ((6 <=? JSDate.getHours (time.getCurrentTime env))
                          && (JSDate.getHours (time.getCurrentTime env) <? 18))).
  { unfold time.isDark, time.isPeriod, time.isNight.
    rewrite getCurrentPeriodName_by_hour. cbv zeta.
    set (h := JSDate.getHours (time.getCurrentTime env)) in *.
    split_comparisons; reflexivity. }
  rewrite Hdark. unfold header.dayNightIcon.
  destruct ((6 <=? JSDate.getHours (time.getCurrentTime env))
            && (JSDate.getHours (time.getCurrentTime env) <? 18)); cbn [negb].
  - split; [tauto | discriminate].
  - split; [| reflexivity]. split; [| discriminate].
    intros H. apply getMoonPhaseIcon_is_a_moon in H.
    repeat (apply elem_of_cons in H as [H | H]; [discriminate |]).
    apply elem_of_nil in H. contradiction.
Qed.

End Header.

(** ** Stepping the forced time *)

Section AdjustTime.
Import state.

Lemma timeToMins_of_ms (t : JSDate.TimeOfDay) :
  0 <= JSDate.msOfDay t ->
  time.timeToMins t = JSDate.msOfDay t / 60000.
Proof.
  intros H. unfold time.timeToMins, JSDate.getHours, JSDate.getMinutes.
  replace 3600000 with (60000 * 60) by reflexivity.
  rewrite <- Z.div_div by lia.
  pose proof (Z.div_mod (JSDate.msOfDay t / 60000) 60). lia.
Qed.

Lemma timeToMins_plainTime (h m s ms : Z) :
  0 <= s * 1000 + ms < 60000 ->
  time.timeToMins (plainTime h m s ms) = (h * 60 + m) mod 1440.
Proof.
  intros Hr. rewrite timeToMins_of_ms.
  - unfold plainTime, JSDate.MakeTime. cbn [JSDate.msOfDay].
    replace (((h * 60 + m) * 60 + s) * 1000 + ms)
      with ((h * 60 + m) * 60000 + (s * 1000 + ms)) by lia.
    apply minute_of_day. exact Hr.
  - unfold plainTime. cbn [JSDate.msOfDay].
    apply Z.mod_pos_bound. reflexivity.
Qed.

Lemma timeToMins_plainAddMinutes (t : JSDate.TimeOfDay) (minutes : Z) :
  0 <= JSDate.msOfDay t ->
  time.timeToMins (plainAddMinutes t minutes)
  = (time.timeToMins t + minutes) mod 1440.
Proof.
  intros Ht. rewrite timeToMins_of_ms.
  2: { unfold plainAddMinutes. cbn [JSDate.msOfDay].
       apply Z.mod_pos_bound. reflexivity. }
  rewrite (timeToMins_of_ms t Ht).
  unfold plainAddMinutes. cbn [JSDate.msOfDay].
  pose proof (Z.div_mod (JSDate.msOfDay t) 60000).
  pose proof (Z.mod_pos_bound (JSDate.msOfDay t) 60000).
  replace (JSDate.msOfDay t - JSDate.getMinutes t * 60000
           + (JSDate.getMinutes t + minutes) * 60000)
    with ((JSDate.msOfDay t / 60000 + minutes) * 60000
          + JSDate.msOfDay t mod 60000) by lia.
  apply minute_of_day. lia.
Qed.

Lemma msOfDay_timeOfDay (zone : JSDate.TimeZone) (t : Z) :
  0 <= JSDate.msOfDay (JSDate.timeOfDay zone t) < JSDate.msPerDay.
Proof. unfold JSDate.timeOfDay. cbn. apply Z.mod_pos_bound. reflexivity. Qed.

(** A time of day is the one that its four components make. *)
Lemma time_of_components (l : JSDate.TimeOfDay) :
  0 <= JSDate.msOfDay l < JSDate.msPerDay ->
  JSDate.MakeTime (JSDate.getHours l) (JSDate.getMinutes l)
    (JSDate.getSeconds l) (JSDate.getMilliseconds l)
  = JSDate.msOfDay l
  /\ 0 <= JSDate.getSeconds l * 1000 + JSDate.getMilliseconds l < 60000.
Proof.
  unfold JSDate.MakeTime, JSDate.getHours, JSDate.getMinutes, JSDate.getSeconds,
    JSDate.getMilliseconds, JSDate.msPerDay.
  intros H. split; Z.to_euclidean_division_equations; lia.
Qed.

(** In a zone without changes of the clock, [setHours] and [setMinutes]
    act on the time of day alone. *)
Lemma timeOfDay_setHours_fixed (zone : JSDate.TimeZone) (t h m s ms : Z) :
  fixedOffset zone ->
  JSDate.timeOfDay zone (JSDate.setHours zone t h m s ms) = plainTime h m s ms.
Proof.
  intros [offset Hzone].
  unfold JSDate.timeOfDay, JSDate.setHours, JSDate.UTCOfLocal, JSDate.LocalTime,
    plainTime.
  f_equal. rewrite !(proj1 (Hzone _)), !(proj2 (Hzone _)).
  replace (JSDate.Day (t + offset) * JSDate.msPerDay + JSDate.MakeTime h m s ms
           - offset + offset)
    with (JSDate.MakeTime h m s ms + JSDate.Day (t + offset) * JSDate.msPerDay)
    by lia.
  apply Z.mod_add. discriminate.
Qed.

Lemma timeOfDay_setMinutes_fixed (zone : JSDate.TimeZone) (t minutes : Z) :
  fixedOffset zone ->
  JSDate.timeOfDay zone
    (JSDate.setMinutes zone t
       (JSDate.getMinutes (JSDate.timeOfDay zone t) + minutes))
  = plainAddMinutes (JSDate.timeOfDay zone t) minutes.
Proof.
  intros [offset Hzone].
  pose proof (msOfDay_timeOfDay zone t) as Hrange.
  destruct (time_of_components _ Hrange) as [Hparts _].
  unfold JSDate.setMinutes, JSDate.UTCOfLocal, plainAddMinutes.
  cbv zeta. set (l := JSDate.timeOfDay zone t) in *.
  unfold JSDate.timeOfDay at 1. unfold JSDate.LocalTime at 1.
  f_equal. rewrite !(proj1 (Hzone _)), !(proj2 (Hzone _)).
  unfold JSDate.MakeTime in *.
  replace (JSDate.Day (JSDate.LocalTime zone t) * JSDate.msPerDay
           + (((JSDate.getHours l * 60 + (JSDate.getMinutes l + minutes)) * 60
               + JSDate.getSeconds l) * 1000 + JSDate.getMilliseconds l)
           - offset + offset)
    with (JSDate.msOfDay l - JSDate.getMinutes l * 60000
          + (JSDate.getMinutes l + minutes) * 60000
          + JSDate.Day (JSDate.LocalTime zone t) * JSDate.msPerDay)
    by lia.
  apply Z.mod_add. discriminate.
Qed.

Lemma getCurrentTime_fixed (env : Env) :
  fixedOffset (zone env) ->
  time.getCurrentTime env
  = match forceTime (debugState env) with
    | Some (hours, minutes) => plainTime hours minutes 0 0
    | None =>
        plainTime (nowHours (now env)) (nowMinutes (now env))
                  (nowSeconds (now env)) (nowMilliseconds (now env))
    end.
Proof.
  intros Hzone. unfold time.getCurrentTime.
  destruct (forceTime (debugState env)) as [[h m] |];
    apply timeOfDay_setHours_fixed; exact Hzone.
Qed.

Lemma adjustTime_fixed (zone : JSDate.TimeZone) (today : Z)
    (currentTime : option (Z * Z)) (minutes : Z) :
  fixedOffset zone ->
  debugPanel.adjustTime zone today currentTime minutes
  = let d :=
      plainAddMinutes
        match currentTime with
        | None => JSDate.timeOfDay zone today
        | Some (hours, mins) =>
            plainTime hours mins
              (JSDate.getSeconds (JSDate.timeOfDay zone today))
              (JSDate.getMilliseconds (JSDate.timeOfDay zone today))
        end minutes in
    (JSDate.getHours d, JSDate.getMinutes d).
Proof.
  intros Hzone. unfold debugPanel.adjustTime. cbv zeta.
  rewrite timeOfDay_setMinutes_fixed by exact Hzone.
  destruct currentTime as [[h m] |]; [| reflexivity].
  rewrite timeOfDay_setHours_fixed by exact Hzone. reflexivity.
Qed.

(** One step of the forced time in a zone without changes of the clock. *)
Lemma adjustForcedTime_step (env : Env) (today minutes : Z) :
  fixedOffset (zone env) ->
  (forceTime (debugState env) = None -> now env = clockAt (zone env) today) ->
  time.timeToMins (time.getCurrentTime (debugPanel.adjustForcedTime env today minutes))
  = (time.timeToMins (time.getCurrentTime env) + minutes) mod 1440.
Proof.
  intros Hzone Hclock.
  pose proof (msOfDay_timeOfDay (zone env) today) as Hrange.
  destruct (time_of_components _ Hrange) as [Hparts Hsec].
  rewrite (getCurrentTime_fixed (debugPanel.adjustForcedTime env today minutes))
    by exact Hzone.
  unfold debugPanel.adjustForcedTime. cbn [debugState forceTime].
  rewrite adjustTime_fixed by exact Hzone. cbv beta iota zeta.
  rewrite timeToMins_plainTime by lia.
  set (start := match forceTime (debugState env) with
                | None => JSDate.timeOfDay (zone env) today
                | Some (hours, mins) =>
                    plainTime hours mins
                      (JSDate.getSeconds (JSDate.timeOfDay (zone env) today))
                      (JSDate.getMilliseconds (JSDate.timeOfDay (zone env) today))
                end).
  assert (Hstart0 : 0 <= JSDate.msOfDay start).
  { subst start. destruct (forceTime (debugState env)) as [[? ?] |];
      [| apply Hrange].
    unfold plainTime. cbn [JSDate.msOfDay]. apply Z.mod_pos_bound. reflexivity. }
  assert (Hstart : time.timeToMins start = time.timeToMins (time.getCurrentTime env)).
  { subst start. rewrite (getCurrentTime_fixed env Hzone).
    destruct (forceTime (debugState env)) as [[hh mm] |].
    - rewrite !timeToMins_plainTime by lia. reflexivity.
    - rewrite (Hclock eq_refl). cbn [clockAt nowHours nowMinutes nowSeconds
                                      nowMilliseconds].
      unfold plainTime. rewrite Hparts. rewrite Z.mod_small by exact Hrange.
      destruct (JSDate.timeOfDay (zone env) today). reflexivity. }
  change (JSDate.getHours (plainAddMinutes start minutes) * 60
          + JSDate.getMinutes (plainAddMinutes start minutes))
    with (time.timeToMins (plainAddMinutes start minutes)).
  rewrite timeToMins_plainAddMinutes by exact Hstart0.
  rewrite Hstart. apply Z.mod_mod. lia.
Qed.

(** X7: in a time zone without changes of the clock, [adjustTime] writes
    hours from 0 to 23 and minutes from 0 to 59, and once its value is the
    forced time, the simulated minute of the day is the one before, moved
    by the given number of minutes and wrapped around midnight; so a step
    forward followed, at any later time, by the same step back restores
    the simulated minute. *)
Theorem adjustTime_moves_the_minute_of_day (env : Env) (today later minutes : Z) :
  fixedOffset (zone env) ->
  now env = clockAt (zone env) today ->
  let '(hours', minutes') :=
    debugPanel.adjustTime (zone env) today (forceTime (debugState env)) minutes in
  0 <= hours' <= 23 /\ 0 <= minutes' <= 59
  /\ time.timeToMins
       (time.getCurrentTime (debugPanel.adjustForcedTime env today minutes))
     = (time.timeToMins (time.getCurrentTime env) + minutes) mod 1440
  /\ time.timeToMins
       (time.getCurrentTime
          (debugPanel.adjustForcedTime
             (debugPanel.adjustForcedTime env today minutes) later (- minutes)))
     = time.timeToMins (time.getCurrentTime env).
Proof.
  intros Hzone Hclock.
  rewrite adjustTime_fixed by exact Hzone. cbv beta iota zeta.
  set (d := plainAddMinutes _ minutes).
  assert (Hd : 0 <= JSDate.msOfDay d < JSDate.msPerDay).
  { subst d. unfold plainAddMinutes. cbn [JSDate.msOfDay].
    apply Z.mod_pos_bound. reflexivity. }
  split; [| split; [| split]].
  - unfold JSDate.getHours, JSDate.msPerDay in *. split.
    + apply Z.div_pos; lia.
    + assert (JSDate.msOfDay d / 3600000 < 24); [| lia].
      apply Z.div_lt_upper_bound; lia.
  - unfold JSDate.getMinutes.
    pose proof (Z.mod_pos_bound (JSDate.msOfDay d / 60000) 60). lia.
  - apply adjustForcedTime_step; [exact Hzone | intros _; exact Hclock].
  - rewrite adjustForcedTime_step; [| exact Hzone | discriminate].
    rewrite adjustForcedTime_step; [| exact Hzone | intros _; exact Hclock].
    pose proof (getHours_range env). pose proof (getMinutes_range env).
    unfold time.timeToMins at 1 2.
    rewrite Zplus_mod_idemp_l.
    replace (JSDate.getHours (time.getCurrentTime env) * 60
             + JSDate.getMinutes (time.getCurrentTime env) + minutes + - minutes)
      with (JSDate.getHours (time.getCurrentTime env) * 60
            + JSDate.getMinutes (time.getCurrentTime env)) by lia.
    apply Z.mod_small. lia.
Qed.

(** Where the clock changes the step is not the given number of minutes:
    in Stockholm at 01:59 on 31 March 2024, one minute forward is 03:00. *)
Example a_step_into_a_skipped_hour :
  debugPanel.adjustTime sample.stockholm2024 (JSDate.UTC 2024 2 31 0 59) None 1
  = (3, 0).
Proof. vm_compute. reflexivity. Qed.

Lemma adjustTime_moves_the_minute_of_day_witness :
  let env := sample.envOn sample.march2024 sample.lateEvening in
  let today := JSDate.UTC 2024 2 12 22 30 + 15250 in
  time.timeToMins
    (time.getCurrentTime (debugPanel.adjustForcedTime env today 45))
  = (time.timeToMins (time.getCurrentTime env) + 45) mod 1440
  /\ time.timeToMins
       (time.getCurrentTime
          (debugPanel.adjustForcedTime
             (debugPanel.adjustForcedTime env today 45) (today + 60000) (- 45)))
     = time.timeToMins (time.getCurrentTime env).
Proof.
  intros env today.
  pose proof (adjustTime_moves_the_minute_of_day env today (today + 60000) 45) as H.
  destruct (debugPanel.adjustTime (zone env) today (forceTime (debugState env)) 45)
    as [hours' minutes'].
  destruct H as (_ & _ & Hstep & Hback).
  - exists 0. intros t. split; reflexivity.
  - reflexivity.
  - split; [exact Hstep | exact Hback].
Defined.

End AdjustTime.

(** ** The shape of a breakdown *)

Section Breakdown.
Import state monster.

Lemma replay_push (baseChance : Q) (b : list Step) (s : Step) :
  replay baseChance (push b s) = applyStep (replay baseChance b) s.
Proof. unfold replay, push. rewrite fold_left_app. reflexivity. Qed.

Lemma applyStep_compat (r r' : Q) (s : Step) :
  (r == r')%Q -> (applyStep r s == applyStep r' s)%Q.
Proof. intros H. destruct s; cbn; rewrite ?H; reflexivity. Qed.

Lemma replay_compat (r r' : Q) (b : list Step) :
  (r == r')%Q -> (replay r b == replay r' b)%Q.
Proof.
  unfold replay. revert r r'. induction b as [| s b IH]; intros r r' H; cbn.
  - exact H.
  - apply IH. apply applyStep_compat. exact H.
Qed.

Lemma tracked_push (m : Monster) (c c' : number) (b : list Step) (s : Step) :
  tracked m (c, b) -> isModifierStep s ->
  (applyStep c s == c')%Q ->
  tracked m (c', push b s).
Proof.
  intros [[tail [-> Htail]] Hr] Hs Hc. split.
  - exists (tail ++ [s])%list. split; [reflexivity |].
    apply Forall_app. split; [exact Htail |]. constructor; [exact Hs | constructor].
  - rewrite replay_push. rewrite <- Hc. apply applyStep_compat. exact Hr.
Qed.

Lemma bonusStep_tracked (env : Env) (m : Monster) (acc : number * list Step)
    (n : string) :
  tracked m acc -> tracked m (bonusStep env m acc n).
Proof.
  destruct acc as [c b]. intros H. unfold bonusStep.
  destruct (_evaluateModifier env m n config.bonuses) as [info |]; [| exact H].
  apply (tracked_push m c _ b _ H); [exact I |].
  cbn. rewrite add_correct. reflexivity.
Qed.

Lemma penaltyStep_tracked (env : Env) (m : Monster) (acc : number * list Step)
    (n : string) :
  tracked m acc -> tracked m (penaltyStep env m acc n).
Proof.
  destruct acc as [c b]. intros H. unfold penaltyStep.
  destruct (_evaluateModifier env m n config.penalties) as [info |]; [| exact H].
  apply (tracked_push m c _ b _ H); [exact I |].
  cbn. rewrite mul_correct. reflexivity.
Qed.

Lemma fold_tracked (m : Monster)
    (step : number * list Step -> string -> number * list Step)
    (names : list string) (acc : number * list Step) :
  (forall a n, tracked m a -> tracked m (step a n)) ->
  tracked m acc -> tracked m (fold_left step names acc).
Proof.
  intros Hstep. revert acc. induction names as [| n names IH]; intros acc H; cbn.
  - exact H.
  - apply IH. apply Hstep. exact H.
Qed.

Lemma ordinaryDay_tracked (env : Env) (m : Monster) :
  tracked m (ordinaryDay env m).
Proof.
  unfold ordinaryDay.
  assert (H0 : tracked m (spottingChance m, [base "Base Chance" (spottingChance m)])).
  { split; [exists []; split; [reflexivity | constructor] | reflexivity]. }
  assert (H1 : tracked m
            (if negb (bool_decide (time.getCurrentSeason env ∈ activeSeasons m))
             then (Num.div (spottingChance m) 2,
                   push [base "Base Chance" (spottingChance m)]
                     (multiplier "Season" (Some (time.getCurrentSeason env)) 0.5))
             else (spottingChance m, [base "Base Chance" (spottingChance m)]))).
  { destruct (negb _); [| exact H0].
    apply (tracked_push m _ _ _ _ H0); [exact I |].
    cbn. rewrite div_correct. field. }
  destruct (if negb (bool_decide (time.getCurrentSeason env ∈ activeSeasons m))
            then _ else _) as [c1 b1].
  assert (H2 : tracked m
            (if negb (Num.eqb (time.getTimeMultiplier env (activeTime m)) 1.0)
             then (Num.mul c1 (time.getTimeMultiplier env (activeTime m)),
                   push b1 (multiplier "Time" (Some (time.getCurrentPeriodName env))
                              (time.getTimeMultiplier env (activeTime m))))
             else (c1, b1))).
  { destruct (negb _); [| exact H1].
    apply (tracked_push m _ _ _ _ H1); [exact I |].
    cbn. rewrite mul_correct. reflexivity. }
  destruct (if negb (Num.eqb (time.getTimeMultiplier env (activeTime m)) 1.0)
            then _ else _) as [c2 b2].
  assert (H3 : tracked m
            (match bonuses m with
             | Some names => fold_left (bonusStep env m) names (c2, b2)
             | None => (c2, b2)
             end)).
  { destruct (bonuses m); [| exact H2].
    apply fold_tracked; [apply bonusStep_tracked | exact H2]. }
  destruct (match bonuses m with Some _ => _ | None => _ end) as [c3 b3].
  destruct (penalties m); [| exact H3].
  apply fold_tracked; [apply penaltyStep_tracked | exact H3].
Qed.

Lemma finish_replay (env : Env) (baseChance c : number) (ev : option string)
    (b : list Step) :
  (replay baseChance b == c)%Q ->
  (chance (finish env c ev b)
   == clamp01 (replay baseChance (breakdown (finish env c ev b))))%Q.
Proof.
  intros Hr. unfold finish.
  destruct (Num.eqb (state.multiplier (debugState env)) 1); cbn [negb].
  - cbn [chance breakdown].
    unfold replay at 1. cbn [fold_left applyStep]. fold (replay baseChance b).
    rewrite clamp_correct. unfold clamp01. rewrite Hr. reflexivity.
  - cbn [chance breakdown].
    unfold replay at 1. cbn [fold_left applyStep].
    fold (replay baseChance (push b (multiplier "Debug Multiplier" None
                                       (state.multiplier (debugState env))))).
    rewrite replay_push. cbn [applyStep].
    rewrite clamp_correct. unfold clamp01. rewrite Hr, mul_correct. reflexivity.
Qed.

Lemma breakdown_shape_lemma (env : Env) (m : Monster) :
  let d := calculateSpottingData env m in
  (exists reason,
      d = {| chance := 0; event := None; breakdown := [impossible reason] |})
  \/ (exists step rest,
        breakdown d = final "Final Chance" (chance d) :: step :: rest
        /\ Forall isModifierStep (step :: rest)
        /\ (time.isHalloween env = false ->
            step = base "Base Chance" (spottingChance m))
        /\ (time.isHalloween env = true ->
            step = multiplier "Global Multiplier" None 2.5)).
Proof.
  intros d. subst d. unfold calculateSpottingData.
  destruct (time.isHalloween env).
  - right. rewrite finish_breakdown.
    destruct (Num.eqb (state.multiplier (debugState env)) 1).
    + eexists _, []. split; [reflexivity |].
      split; [repeat constructor |]. split; [discriminate | reflexivity].
    + eexists _, [_]. split; [reflexivity |].
      split; [repeat constructor |]. split; [discriminate | reflexivity].
  - destruct (_checkRestrictions env m) as [reason |].
    + left. exists reason. reflexivity.
    + right. pose proof (ordinaryDay_tracked env m) as H.
      destruct (ordinaryDay env m) as [c b].
      destruct H as [[tail [-> Htail]] _].
      rewrite finish_breakdown.
      destruct (Num.eqb (state.multiplier (debugState env)) 1).
      * eexists _, tail. split; [reflexivity |].
        split; [constructor; [exact I | exact Htail] |].
        split; [reflexivity | discriminate].
      * eexists _, (tail ++ [_])%list. split; [reflexivity |].
        split; [| split; [reflexivity | discriminate]].
        constructor; [exact I |]. apply Forall_app.
        split; [exact Htail | repeat constructor].
Qed.

(** X8: a breakdown is never empty and has one of two shapes: the single
    step [impossible], with probability 0 and no event, or the [final] step
    carrying the returned probability followed by at least one step, each
    of them a [base], [multiplier], [bonus] or [penalty] step; off
    Halloween the step after [final] is the base step of the entity. *)
Theorem breakdown_has_one_of_two_shapes (env : Env) (m : Monster) :
  let d := calculateSpottingData env m in
  (exists reason,
      d = {| chance := 0; event := None; breakdown := [impossible reason] |})
  \/ (exists step rest,
        breakdown d = final "Final Chance" (chance d) :: step :: rest
        /\ Forall isModifierStep (step :: rest)
        /\ (time.isHalloween env = false ->
            step = base "Base Chance" (spottingChance m))
        /\ (time.isHalloween env = true ->
            step = multiplier "Global Multiplier" None 2.5)).
Proof. apply breakdown_shape_lemma. Qed.

(** X9: the breakdown is a faithful account of the probability: reading
    its steps back in order from the base probability of the entity, and
    clamping to [0, 1], gives the probability that was returned. *)
Theorem breakdown_replays_to_the_probability (env : Env) (m : Monster) :
  (chance (calculateSpottingData env m)
   == clamp01 (replay (spottingChance m)
                 (breakdown (calculateSpottingData env m))))%Q.
Proof.
  unfold calculateSpottingData.
  destruct (time.isHalloween env).
  - apply finish_replay. unfold replay. cbn. rewrite mul_correct. reflexivity.
  - destruct (_checkRestrictions env m) as [reason |].
    + cbn. reflexivity.
    + pose proof (ordinaryDay_tracked env m) as H.
      destruct (ordinaryDay env m) as [c b]. destruct H as [_ Hr].
      apply finish_replay. exact Hr.
Qed.

End Breakdown.

(** ** Where "Impossible" comes from *)

Section Impossible.
Import state monster.

Lemma failedRestrictions_nonempty (env : Env) (r : Restriction) :
  failedRestrictions env r <> [] <-> unmetRestriction env r.
Proof.
  unfold failedRestrictions, unmetRestriction.
  destruct (requiresFullMoon r), (time.isFullMoon env),
    (requiresDark r), (time.isDark env),
    (requiresNight r), (time.isNight env); cbn;
    (split;
     [ intros H; first [ exfalso; apply H; reflexivity | tauto ]
     | intros H; first [ discriminate
                       | exfalso; destruct H as [[? ?] | [[? ?] | [? ?]]];
                         discriminate ] ]).
Qed.

Lemma checkRestrictions_unmet (env : Env) (m : Monster) :
  is_Some (_checkRestrictions env m)
  <-> exists r, restriction m = Some r /\ unmetRestriction env r.
Proof.
  unfold _checkRestrictions.
  destruct (restriction m) as [r |].
  - pose proof (failedRestrictions_nonempty env r) as Hne.
    destruct (failedRestrictions env r) as [| x l].
    + split; [intros [? ?]; discriminate |].
      intros [r' [[= <-] H]]. exfalso. apply Hne in H. apply H. reflexivity.
    + split; [| intros _; eexists; reflexivity].
      intros _. exists r. split; [reflexivity |]. apply Hne. discriminate.
  - split; [intros [? ?]; discriminate | intros [r [? _]]; discriminate].
Qed.

(** X10: a record is "Impossible" exactly when it is not Halloween and the
    entity has a restriction that is required and does not hold; an entity
    without restrictions, and every entity on Halloween, is never
    "Impossible", whatever its probability. *)
Theorem impossible_exactly_when_a_restriction_is_unmet
    (seedrandom : string -> nat -> number) (env : Env) (dateSeed : string)
    (m : Monster) (st : store.SimState)
    (data : spottingCalculator.SpottedMonster) (st' : store.SimState) :
  spottingCalculator.spotMonster seedrandom env dateSeed m st = Some (data, st') ->
  (spottingCalculator.likelihood data = "Impossible"
   <-> time.isHalloween env = false
       /\ exists r, restriction m = Some r /\ unmetRestriction env r)
  /\ ((exists reason, impossible reason ∈ spottingCalculator.breakdown data)
      <-> spottingCalculator.likelihood data = "Impossible").
Proof.
  assert (Hcalc : (exists reason,
                      calculateSpottingData env m
                      = {| chance := 0; event := None;
                           breakdown := [impossible reason] |})
                  <-> time.isHalloween env = false
                      /\ exists r, restriction m = Some r /\ unmetRestriction env r).
  { rewrite <- checkRestrictions_unmet. unfold calculateSpottingData.
    destruct (time.isHalloween env).
    - split; [| intros [? _]; discriminate].
      intros [reason H]. apply (f_equal breakdown) in H.
      rewrite finish_breakdown in H. discriminate.
    - destruct (_checkRestrictions env m) as [reason |].
      + split; [intros _; split; [reflexivity | eexists; reflexivity] |].
        intros _. exists reason. reflexivity.
      + split; [| intros [_ [? ?]]; discriminate].
        intros [reason H]. apply (f_equal breakdown) in H.
        destruct (ordinaryDay env m) as [c b].
        rewrite finish_breakdown in H. discriminate. }
  intros Hrun. rewrite <- Hcalc. clear Hcalc.
  pose proof (breakdown_shape_lemma env m) as Hshape.
  revert Hrun. unfold spottingCalculator.spotMonster.
  destruct Hshape as [[reason Hd] | [step [rest [Hb [Hall _]]]]].
  - rewrite Hd. cbn [chance breakdown event].
    change (Num.leb 0 0) with true. cbv iota.
    cbn [existsb spottingCalculator.isImpossibleStep orb]. unfold store.ret.
    intros [= <- <-].
    cbn [spottingCalculator.likelihood spottingCalculator.breakdown]. split.
    + split; [intros _; exists reason; reflexivity | reflexivity].
    + split; [reflexivity |]. intros _. exists reason.
      apply elem_of_cons. left. reflexivity.
  - assert (Hno : forall reason,
               ~ impossible reason ∈ breakdown (calculateSpottingData env m)).
    { intros reason Hin. rewrite Hb in Hin.
      apply elem_of_cons in Hin as [Hin | Hin]; [discriminate |].
      rewrite Forall_forall in Hall. exact (Hall _ Hin). }
    assert (Hex : existsb spottingCalculator.isImpossibleStep
                    (breakdown (calculateSpottingData env m)) = false).
    { apply not_true_is_false. intros H. apply has_impossible_step in H.
      destruct H as [reason H]. exact (Hno reason H). }
    assert (Hnot : ~ exists reason,
                     calculateSpottingData env m
                     = {| chance := 0; event := None;
                          breakdown := [impossible reason] |}).
    { intros [reason H]. apply (Hno reason). rewrite H.
      apply elem_of_cons. left. reflexivity. }
    destruct (Num.leb (chance (calculateSpottingData env m)) 0).
    + rewrite Hex. intros [= <- <-]. cbn. split.
      * split; [discriminate | intros H; contradiction].
      * split; [intros [reason H]; exfalso; exact (Hno reason H) | discriminate].
    + unfold store.bind.
      destruct (spottingCalculator.rollSightings _ _ _ _ st)
        as [[spottedCount st1] |]; [| discriminate].
      destruct (spottingCalculator.generateMonsterLocations _ _ _ _ st1)
        as [[placed st2] |]; [| discriminate].
      intros [= <- <-]. cbn. split.
      * split; [| intros H; contradiction].
        intros H. exfalso. exact (getLikelihood_not_impossible _ H).
      * split; [intros [reason H]; exfalso; exact (Hno reason H) |].
        intros H. exfalso. exact (getLikelihood_not_impossible _ H).
Qed.

Lemma impossible_exactly_when_a_restriction_is_unmet_witness :
  time.isHalloween (sample.envOn sample.march2024 sample.noon) = false
  /\ exists r, restriction sample.troll = Some r
               /\ unmetRestriction (sample.envOn sample.march2024 sample.noon) r.
Proof.
  apply (proj1 (proj1 (impossible_exactly_when_a_restriction_is_unmet
           (sample.constantStream 0.5)
           (sample.envOn sample.march2024 sample.noon) "2024-03-12" sample.troll
           {| store.drawn := 0; store.objects := sample.objects |}
           {| spottingCalculator.count := 0;
              spottingCalculator.locations := [];
              spottingCalculator.likelihood := "Impossible";
              spottingCalculator.currentChance := 0;
              spottingCalculator.breakdown := [impossible "Requires: Night"];
              spottingCalculator.event := None |}
           {| store.drawn := 0; store.objects := sample.objects |}
           eq_refl))).
  reflexivity.
Defined.

(** X11: with a debug multiplier of 0 every entity has probability 0; the
    simulation then gives count 0 and no locations and draws no number, and
    the band is "Very Low", or "Impossible" for an unmet restriction. *)
Theorem debug_multiplier_zero_silences_every_entity
    (seedrandom : string -> nat -> number) (env : Env) (dateSeed : string)
    (m : Monster) (st : store.SimState) :
  (state.multiplier (debugState env) == 0)%Q ->
  chance (calculateSpottingData env m) = 0%Q
  /\ exists band,
       (band = "Very Low" \/ band = "Impossible")
       /\ spottingCalculator.spotMonster seedrandom env dateSeed m st
          = Some ({| spottingCalculator.count := 0;
                     spottingCalculator.locations := [];
                     spottingCalculator.likelihood := band;
                     spottingCalculator.currentChance := 0;
                     spottingCalculator.breakdown :=
                       breakdown (calculateSpottingData env m);
                     spottingCalculator.event :=
                       event (calculateSpottingData env m) |}, st).
Proof.
  intros Hzero.
  assert (Hfinish : forall c ev b, chance (finish env c ev b) = 0%Q).
  { intros c ev b. unfold finish.
    assert (Hne : Num.eqb (state.multiplier (debugState env)) 1 = false).
    { apply eqb_neq. rewrite Hzero. discriminate. }
    rewrite Hne. cbn [negb chance].
    assert (Hmul : Num.mul c (state.multiplier (debugState env)) = 0%Q).
    { unfold Num.mul. rewrite (Qred_complete _ 0%Q); [reflexivity |].
      rewrite Hzero. ring. }
    rewrite Hmul. reflexivity. }
  assert (Hchance : chance (calculateSpottingData env m) = 0%Q).
  { unfold calculateSpottingData.
    destruct (time.isHalloween env); [apply Hfinish |].
    destruct (_checkRestrictions env m); [reflexivity |].
    destruct (ordinaryDay env m). apply Hfinish. }
  split; [exact Hchance |].
  unfold spottingCalculator.spotMonster. rewrite Hchance.
  change (Num.leb 0 0) with true. cbv iota.
  destruct (existsb spottingCalculator.isImpossibleStep
              (breakdown (calculateSpottingData env m))).
  - exists "Impossible". split; [right; reflexivity | reflexivity].
  - exists "Very Low". split; [left; reflexivity | reflexivity].
Qed.

Lemma debug_multiplier_zero_silences_every_entity_witness :
  chance (calculateSpottingData
            {| appState := sample.appStateOn sample.halloween2024;
               debugState := {| state.multiplier := 0;
                                forceTime := None; forceFullMoon := None;
                                forceSeason := "auto"; forceHalloween := None |};
               now := sample.lateEvening;
               zone := sample.utc |} sample.troll) = 0%Q.
Proof.
  apply (debug_multiplier_zero_silences_every_entity
           (sample.constantStream 0.5)
           {| appState := sample.appStateOn sample.halloween2024;
              debugState := {| state.multiplier := 0;
                               forceTime := None; forceFullMoon := None;
                               forceSeason := "auto"; forceHalloween := None |};
              now := sample.lateEvening;
               zone := sample.utc |} "2024-10-31" sample.troll
           {| store.drawn := 0; store.objects := sample.objects |}).
  reflexivity.
Defined.

End Impossible.

(** ** Counting sightings and draws *)

Section Accounting.
Import state store.

(** [generateMonsterLocations] on two stores that extend the same store of
    locations: the same new objects, at the addresses that follow each
    store. *)
Lemma placeSightings_two_stores (rng : nat -> number) (pool : list nat)
    (o : Store) (n : nat) :
  unitStream rng -> pool <> [] -> poolOfLocations o pool ->
  forall (acc1 acc2 : list nat) (d : nat) (e1 e2 : Store),
    exists new,
      length new = n
      /\ Forall (placementOf o pool) new
      /\ spottingCalculator.placeSightings rng pool n acc1
           {| drawn := d; objects := (o ++ e1)%list |}
         = Some ((acc1 ++ seq (length (o ++ e1)%list) n)%list,
                 {| drawn := d + 3 * n; objects := ((o ++ e1) ++ new)%list |})
      /\ spottingCalculator.placeSightings rng pool n acc2
           {| drawn := d; objects := (o ++ e2)%list |}
         = Some ((acc2 ++ seq (length (o ++ e2)%list) n)%list,
                 {| drawn := d + 3 * n; objects := ((o ++ e2) ++ new)%list |}).
Proof.
  intros Hrng Hne Hpool. induction n as [| n IH]; intros acc1 acc2 d e1 e2.
  - exists []. cbn. unfold ret. rewrite !app_nil_r, Nat.add_0_r.
    split; [reflexivity |]. split; [constructor |]. split; reflexivity.
  - destruct (pick_in_pool pool (rng d) (Hrng _) Hne) as [ref [Hpick Hin]].
    destruct (Hpool ref Hin) as [baseLocation Hbase].
    set (spotted := {| spread := baseLocation;
                       lat := spottingCalculator.jitter (latitude baseLocation)
                                (rng (S d));
                       lng := spottingCalculator.jitter (longitude baseLocation)
                                (rng (S (S d))) |}).
    destruct (IH (push acc1 (length (o ++ e1)%list))
                 (push acc2 (length (o ++ e2)%list)) (S (S (S d)))
                 (e1 ++ [ObjSpotted spotted])%list
                 (e2 ++ [ObjSpotted spotted])%list)
      as [new [Hlen [Hall [Hrun1 Hrun2]]]].
    exists (ObjSpotted spotted :: new).
    split; [cbn; rewrite Hlen; reflexivity |].
    split.
    { constructor; [| exact Hall].
      exists ref, baseLocation, spotted, (rng (S d)), (rng (S (S d))).
      split; [exact Hin |]. split; [exact Hbase |].
      split; [reflexivity |]. split; [reflexivity |].
      split; [apply Hrng |]. split; [apply Hrng |]. split; reflexivity. }
    assert (Hone : forall acc e new',
              spottingCalculator.placeSightings rng pool n
                (push acc (length (o ++ e)%list)) {| drawn := S (S (S d));
                   objects := (o ++ e ++ [ObjSpotted spotted])%list |}
              = Some ((push acc (length (o ++ e)%list)
                       ++ seq (length (o ++ e ++ [ObjSpotted spotted])%list) n)%list,
                      {| drawn := S (S (S d)) + 3 * n;
                         objects := ((o ++ e ++ [ObjSpotted spotted]) ++ new')%list |}) ->
              spottingCalculator.placeSightings rng pool (S n) acc
                {| drawn := d; objects := (o ++ e)%list |}
              = Some ((acc ++ seq (length (o ++ e)%list) (S n))%list,
                      {| drawn := d + 3 * S n;
                         objects := ((o ++ e) ++ ObjSpotted spotted :: new')%list |})).
    { intros acc e new' Hrun.
      cbn [spottingCalculator.placeSightings]. unfold bind, next, readLocation, alloc.
      cbn [drawn objects]. rewrite Hpick.
      match goal with
      | |- context [@lookup ?K ?A ?M ?I ref ?l] =>
          replace (@lookup K A M I ref l) with (Some (ObjLocation baseLocation))
            by (symmetry; apply lookup_app_l_Some; exact Hbase)
      end.
      unfold ret. cbn [drawn objects]. fold spotted.
      change (push (o ++ e)%list (ObjSpotted spotted))
        with ((o ++ e) ++ [ObjSpotted spotted])%list.
      rewrite <- (app_assoc o e [ObjSpotted spotted]).
      rewrite Hrun. f_equal. f_equal.
      - unfold push. rewrite <- !app_assoc. cbn [seq Datatypes.app].
        do 3 f_equal. rewrite !length_app. cbn [length]. lia.
      - f_equal; [lia |]. rewrite <- !app_assoc. reflexivity. }
    split; apply Hone; assumption.
Qed.

Lemma generateMonsterLocations_two_stores (rng : nat -> number) (app : AppState)
    (m : monster.Monster) (count : nat) (o : Store) :
  unitStream rng -> indexedLocations app o -> plainHabitats m ->
  forall (d : nat) (e1 e2 : Store),
    exists new,
      (length new = count \/ new = [])
      /\ (spottingCalculator.buildLocationPool app m <> [] -> length new = count)
      /\ Forall (placementOf o (spottingCalculator.buildLocationPool app m)) new
      /\ spottingCalculator.generateMonsterLocations app m count rng
           {| drawn := d; objects := (o ++ e1)%list |}
         = Some (seq (length (o ++ e1)%list) (length new),
                 {| drawn := d + 3 * length new;
                    objects := ((o ++ e1) ++ new)%list |})
      /\ spottingCalculator.generateMonsterLocations app m count rng
           {| drawn := d; objects := (o ++ e2)%list |}
         = Some (seq (length (o ++ e2)%list) (length new),
                 {| drawn := d + 3 * length new;
                    objects := ((o ++ e2) ++ new)%list |}).
Proof.
  intros Hrng Hwf Hplain d e1 e2.
  unfold spottingCalculator.generateMonsterLocations.
  rewrite (resolveLoop_plain m Hplain).
  change (spottingCalculator.poolOf app (spottingCalculator.resolveFeatureCodes m))
    with (spottingCalculator.buildLocationPool app m).
  destruct (Nat.eqb_spec count 0) as [-> | Hcount].
  - exists []. unfold ret. cbn. rewrite !app_nil_r, Nat.add_0_r.
    split; [left; reflexivity |]. split; [reflexivity |].
    split; [constructor |]. split; reflexivity.
  - destruct (Nat.eqb_spec (length (spottingCalculator.buildLocationPool app m)) 0)
      as [Hempty | Hfull].
    + exists []. unfold ret. cbn. rewrite !app_nil_r, Nat.add_0_r.
      split; [right; reflexivity |].
      split; [intros H; destruct (spottingCalculator.buildLocationPool app m);
              [contradiction | discriminate] |].
      split; [constructor |]. split; reflexivity.
    + assert (Hne : spottingCalculator.buildLocationPool app m <> [])
        by (intros E; rewrite E in Hfull; apply Hfull; reflexivity).
      destruct (placeSightings_two_stores rng _ o count Hrng Hne
                  (buildLocationPool_of_locations app o m Hwf) [] [] d e1 e2)
        as [new [Hlen [Hall [Hrun1 Hrun2]]]].
      exists new. rewrite Hrun1, Hrun2, Hlen. rewrite !app_nil_l.
      split; [left; reflexivity |]. split; [reflexivity |].
      split; [exact Hall |]. split; reflexivity.
Qed.

Lemma rollSightings_any_store (rng : nat -> number) (chance : number) (n : nat) :
  forall (spottedCount d : nat),
    exists total,
      (spottedCount <= total <= spottedCount + n)%nat
      /\ forall o : Store,
           spottingCalculator.rollSightings rng chance n spottedCount
             {| drawn := d; objects := o |}
           = Some (total, {| drawn := d + n; objects := o |}).
Proof.
  induction n as [| n IH]; intros spottedCount d.
  - exists spottedCount. split; [lia |]. intros o. cbn. unfold ret.
    rewrite Nat.add_0_r. reflexivity.
  - destruct (IH (if Num.ltb (rng d) chance then S spottedCount else spottedCount)
                 (S d)) as [total [Hbound Hrun]].
    exists total. split; [destruct (Num.ltb (rng d) chance); lia |].
    intros o. cbn [spottingCalculator.rollSightings]. unfold bind, next.
    cbn [drawn objects]. rewrite Hrun. do 3 f_equal. lia.
Qed.

Lemma generateMonsterLocations_any_store (rng : nat -> number) (app : AppState)
    (m : monster.Monster) (count : nat) (o : Store) (d : nat) :
  unitStream rng -> indexedLocations app o -> plainHabitats m ->
  exists new,
    (spottingCalculator.buildLocationPool app m <> [] -> length new = count)
    /\ (spottingCalculator.buildLocationPool app m = [] -> new = [])
    /\ (count = 0%nat -> new = [])
    /\ Forall (placementOf o (spottingCalculator.buildLocationPool app m)) new
    /\ forall e : Store,
         spottingCalculator.generateMonsterLocations app m count rng
           {| drawn := d; objects := (o ++ e)%list |}
         = Some (seq (length (o ++ e)%list) (length new),
                 {| drawn := d + 3 * length new;
                    objects := ((o ++ e) ++ new)%list |}).
Proof.
  intros Hrng Hwf Hplain.
  destruct (generateMonsterLocations_two_stores rng app m count o Hrng Hwf Hplain
              d [] [])
    as [new [Hlen [Hfull [Hall [Hrun _]]]]].
  exists new. split; [exact Hfull |].
  split.
  { intros Hempty. revert Hrun.
    unfold spottingCalculator.generateMonsterLocations.
    rewrite (resolveLoop_plain m Hplain).
    change (spottingCalculator.poolOf app (spottingCalculator.resolveFeatureCodes m))
      with (spottingCalculator.buildLocationPool app m).
    rewrite Hempty.
    destruct (count =? 0)%nat; cbn; unfold ret; intros Hrun;
      injection Hrun as Hseq _ _; destruct new; [reflexivity | discriminate
                                                | reflexivity | discriminate]. }
  split.
  { intros ->. destruct Hlen as [Hlen | Hlen]; [| exact Hlen].
    destruct new; [reflexivity | discriminate]. }
  split; [exact Hall |].
  intros e.
  destruct (generateMonsterLocations_two_stores rng app m count o Hrng Hwf Hplain
              d [] e)
    as [new' [_ [_ [_ [Hrun1 Hrun2]]]]].
  rewrite Hrun in Hrun1. injection Hrun1 as _ _ Hobjects.
  apply app_inv_head in Hobjects. subst new'. exact Hrun2.
Qed.

(** One turn of the [forEach] on any store that extends the store of
    locations: the record is the same up to the addresses of its
    placements, which follow the store. *)
Lemma spotMonster_any_store (seedrandom : string -> nat -> number) (env : Env)
    (dateSeed : string) (m : monster.Monster) (o : Store) (d : nat) :
  (forall seed, unitStream (seedrandom seed)) ->
  indexedLocations (appState env) o ->
  plainHabitats m ->
  exists spottedCount likelihood new,
    (spottedCount <= spottingCalculator.maxSpotted)%nat
    /\ (spottingCalculator.buildLocationPool (appState env) m <> [] ->
        length new = spottedCount)
    /\ (spottingCalculator.buildLocationPool (appState env) m = [] -> new = [])
    /\ (Num.leb (monster.chance (monster.calculateSpottingData env m)) 0 = true ->
        spottedCount = 0%nat /\ new = [])
    /\ Forall (placementOf o (spottingCalculator.buildLocationPool (appState env) m))
         new
    /\ forall e : Store,
         spottingCalculator.spotMonster seedrandom env dateSeed m
           {| drawn := d; objects := (o ++ e)%list |}
         = Some ({| spottingCalculator.count := spottedCount;
                    spottingCalculator.locations :=
                      seq (length (o ++ e)%list) (length new);
                    spottingCalculator.likelihood := likelihood;
                    spottingCalculator.currentChance :=
                      if Num.leb (monster.chance
                                    (monster.calculateSpottingData env m)) 0
                      then 0%Q
                      else monster.chance (monster.calculateSpottingData env m);
                    spottingCalculator.breakdown :=
                      monster.breakdown (monster.calculateSpottingData env m);
                    spottingCalculator.event :=
                      monster.event (monster.calculateSpottingData env m) |},
                 {| drawn :=
                      d + (if Num.leb (monster.chance
                                         (monster.calculateSpottingData env m)) 0
                           then 0
                           else spottingCalculator.maxSpotted + 3 * length new);
                    objects := ((o ++ e) ++ new)%list |}).
Proof.
  intros Hrng Hwf Hplain. unfold spottingCalculator.spotMonster.
  destruct (Num.leb (monster.chance (monster.calculateSpottingData env m)) 0).
  - eexists 0%nat, _, []. unfold spottingCalculator.maxSpotted.
    split; [lia |]. split; [reflexivity |]. split; [reflexivity |].
    split; [intros _; split; reflexivity |]. split; [constructor |].
    intros e. unfold ret. rewrite app_nil_r, Nat.add_0_r. reflexivity.
  - destruct (rollSightings_any_store
                (seedrandom (String.append dateSeed (monster.id m)))
                (monster.chance (monster.calculateSpottingData env m))
                spottingCalculator.maxSpotted 0 d) as [total [Hbound Hroll]].
    destruct (generateMonsterLocations_any_store
                (seedrandom (String.append dateSeed (monster.id m)))
                (appState env) m total o (d + spottingCalculator.maxSpotted)
                (Hrng _) Hwf Hplain) as [new [Hfull [Hempty [_ [Hall Hrun]]]]].
    exists total, (spottingCalculator.getLikelihood (Z.of_nat total)), new.
    split; [lia |]. split; [exact Hfull |]. split; [exact Hempty |].
    split; [discriminate |]. split; [exact Hall |].
    intros e. unfold bind. rewrite Hroll, Hrun. unfold ret.
    do 3 f_equal. lia.
Qed.

(** The [forEach] of [calculateSpottedMonsters]: the store only grows, the
    records of other ids are kept, every monster of the list has a record,
    and with distinct ids the record of a monster is the one of its own
    turn. *)
Lemma spotAll_records (seedrandom : string -> nat -> number) (env : Env)
    (dateSeed : string) (o : Store) :
  (forall seed, unitStream (seedrandom seed)) ->
  indexedLocations (appState env) o ->
  forall monsters : list monster.Monster,
  Forall (fun m => plainHabitats m /\ monster.throwsTypeError env m = false)
    monsters ->
  forall (calculatedData : gmap string spottingCalculator.SpottedMonster)
         (e : Store),
    exists data e',
      spottingCalculator.spotAll seedrandom env dateSeed monsters calculatedData
        (o ++ e)%list
      = Some (data, ((o ++ e) ++ e')%list)
      /\ (forall id, id ∉ List.map monster.id monsters ->
                     data !! id = calculatedData !! id)
      /\ (forall id, id ∈ List.map monster.id monsters -> is_Some (data !! id))
      /\ (NoDup (List.map monster.id monsters) ->
          forall m, m ∈ monsters ->
            exists r before k new rest,
              data !! monster.id m = Some r
              /\ spottingCalculator.spotMonster seedrandom env dateSeed m
                   {| drawn := 0; objects := (o ++ before)%list |}
                 = Some (r, {| drawn := k;
                               objects := ((o ++ before) ++ new)%list |})
              /\ ((o ++ e) ++ e')%list = (((o ++ before) ++ new) ++ rest)%list).
Proof.
  intros Hrng Hwf monsters Hplain.
  induction Hplain as [| m rest [Hm Hthrow] _ IH]; intros calculatedData e.
  - exists calculatedData, []. cbn. rewrite app_nil_r.
    split; [reflexivity |]. split; [reflexivity |].
    split; [intros id Hin; inversion Hin |].
    intros _ m Hin. inversion Hin.
  - cbn [spottingCalculator.spotAll List.map].
    unfold spottingCalculator.spotTurn. rewrite Hthrow.
    destruct (spotMonster_any_store seedrandom env dateSeed m o 0 Hrng Hwf Hm)
      as [c [lk [new [_ [_ [_ [_ [_ Hrun]]]]]]]].
    pose proof (Hrun e) as Hturn. rewrite Hturn. cbn [objects].
    match type of Hturn with _ = Some (?r, _) => set (record := r) in * end.
    rewrite <- app_assoc.
    destruct (IH (<[monster.id m := record]> calculatedData) (e ++ new)%list)
      as [data [e' [Hall [Hother [Hsome Hown]]]]].
    exists data, (new ++ e')%list. split.
    { rewrite Hall. do 2 f_equal. rewrite <- !app_assoc. reflexivity. }
    split.
    { intros id Hid. rewrite not_elem_of_cons in Hid. destruct Hid as [Hne Hid].
      rewrite (Hother id Hid). apply lookup_insert_ne. congruence. }
    split.
    { intros id Hid. rewrite elem_of_cons in Hid.
      destruct (decide (id ∈ List.map monster.id rest)) as [Hin | Hout].
      - apply Hsome. exact Hin.
      - destruct Hid as [-> | Hid]; [| contradiction].
        rewrite (Hother _ Hout). rewrite lookup_insert_eq. eexists. reflexivity. }
    intros Hnodup m' Hin. apply NoDup_cons in Hnodup. destruct Hnodup as [Hfresh Hnodup].
    rewrite elem_of_cons in Hin. destruct Hin as [-> | Hin].
    + eexists record, e, _, new, e'.
      split; [rewrite (Hother _ Hfresh); apply lookup_insert_eq |].
      split; [exact Hturn |].
      rewrite <- !app_assoc. reflexivity.
    + destruct (Hown Hnodup m' Hin) as [r [before [k [new' [rest' [Hr [Hrun' Hstore]]]]]]].
      exists r, before, k, new', rest'.
      split; [exact Hr |]. split; [exact Hrun' |].
      rewrite <- Hstore. rewrite <- !app_assoc. reflexivity.
Qed.

Lemma lookup_placements (a new rest : Store) :
  List.map (fun ref => ((a ++ new) ++ rest)%list !! ref)
    (seq (length a) (length new))
  = List.map Some new.
Proof.
  rewrite <- app_assoc.
  assert (H : forall (new rest a : Store),
             List.map (fun ref => (a ++ new ++ rest)%list !! ref)
               (seq (length a) (length new)) = List.map Some new).
  { clear. induction new as [| x new IH]; intros rest a; [reflexivity |].
    cbn [length seq List.map]. f_equal.
    - rewrite lookup_app_r by lia. rewrite Nat.sub_diag. reflexivity.
    - specialize (IH rest (a ++ [x])%list).
      rewrite length_app in IH. cbn [length] in IH.
      rewrite Nat.add_1_r in IH. rewrite <- app_assoc in IH. exact IH. }
  apply H.
Qed.

(** X12: for a monster whose habitats, bonuses and penalties are no names
    inherited from [Object.prototype] where the code looks them up, one turn
    of the simulation rolls exactly 40 times and then draws three numbers
    for each placement; it reports at most 40 sightings, holds one new
    object for each of them unless the habitats match no location, and when
    the probability is not positive it draws nothing and places nothing. *)
Theorem one_turn_of_the_simulation (seedrandom : string -> nat -> number)
    (env : Env) (dateSeed : string) (m : monster.Monster) (st : SimState) :
  (forall seed, unitStream (seedrandom seed)) ->
  indexedLocations (appState env) (objects st) ->
  plainHabitats m ->
  monster.throwsTypeError env m = false ->
  exists data new,
    spottingCalculator.spotTurn seedrandom env dateSeed m st
    = Some (data,
            {| drawn :=
                 drawn st
                 + (if Num.leb (monster.chance
                                  (monster.calculateSpottingData env m)) 0
                    then 0 else 40 + 3 * length new);
               objects := (objects st ++ new)%list |})
    /\ (spottingCalculator.count data <= 40)%nat
    /\ spottingCalculator.locations data
       = seq (length (objects st)) (length new)
    /\ (spottingCalculator.buildLocationPool (appState env) m <> [] ->
        length new = spottingCalculator.count data)
    /\ (spottingCalculator.buildLocationPool (appState env) m = [] -> new = [])
    /\ (Num.leb (monster.chance (monster.calculateSpottingData env m)) 0 = true ->
        spottingCalculator.count data = 0%nat /\ new = []).
Proof.
  intros Hrng Hwf Hplain Hthrow. destruct st as [d o]. cbn [drawn objects] in *.
  unfold spottingCalculator.spotTurn. rewrite Hthrow.
  destruct (spotMonster_any_store seedrandom env dateSeed m o d Hrng Hwf Hplain)
    as [c [lk [new [Hmax [Hfull [Hempty [Hzero [_ Hrun]]]]]]]].
  specialize (Hrun []). rewrite app_nil_r in Hrun.
  eexists _, new. split; [exact Hrun |].
  cbn [spottingCalculator.count spottingCalculator.locations].
  split; [exact Hmax |]. split; [reflexivity |].
  split; [exact Hfull |]. split; [exact Hempty | exact Hzero].
Qed.

End Accounting.

Section AccountingWitness.
Import state store.

Lemma one_turn_of_the_simulation_witness :
  exists data new,
    spottingCalculator.spotTurn (sample.constantStream 0.5)
      (sample.envOn sample.march2024 sample.noon) "2024-03-15" sample.tomte
      {| drawn := 0; objects := sample.objects |}
    = Some (data,
            {| drawn :=
                 0 + (if Num.leb (monster.chance
                                    (monster.calculateSpottingData
                                       (sample.envOn sample.march2024 sample.noon)
                                       sample.tomte)) 0
                      then 0 else 40 + 3 * length new);
               objects := (sample.objects ++ new)%list |})
    /\ (spottingCalculator.count data <= 40)%nat.
Proof.
  destruct (one_turn_of_the_simulation (sample.constantStream 0.5)
              (sample.envOn sample.march2024 sample.noon) "2024-03-15" sample.tomte
              {| drawn := 0; objects := sample.objects |})
    as [data [new [Hrun [Hmax _]]]].
  - intros seed. apply unitStream_constant. split; [discriminate | reflexivity].
  - apply processLoadedData_indexed.
  - plain_habitats.
  - reflexivity.
  - exists data, new. split; [exact Hrun | exact Hmax].
Defined.

(** A bonus named like a member of [Object.prototype] makes the turn throw
    on an ordinary day; on Halloween the bonuses are not evaluated. *)
Example a_turn_with_an_inherited_bonus_throws :
  spottingCalculator.spotTurn (sample.constantStream 0.5)
    (sample.envOn sample.march2024 sample.noon) "2024-03-12" sample.imp
    {| drawn := 0; objects := sample.objects |}
  = None
  /\ is_Some (spottingCalculator.spotTurn (sample.constantStream 0.5)
               (sample.envOn sample.halloween2024 sample.noon) "2024-10-31"
               sample.imp {| drawn := 0; objects := sample.objects |}).
Proof.
  split; [reflexivity |]. vm_compute. eexists. reflexivity.
Qed.

End AccountingWitness.

(** ** Certain sightings, and the records of a batch *)

Section Records.
Import state store.

(** X13: for a monster whose habitats, bonuses and penalties are no names
    inherited from [Object.prototype] where the code looks them up, with a
    probability of 1 every one of the 40 rolls is a sighting: the count is
    40 and the band "High", and there are 40 placements unless the habitats
    match no location. *)
Theorem probability_one_gives_forty_sightings
    (seedrandom : string -> nat -> number) (env : Env) (dateSeed : string)
    (m : monster.Monster) (st : SimState) :
  (forall seed, unitStream (seedrandom seed)) ->
  indexedLocations (appState env) (objects st) ->
  plainHabitats m ->
  monster.throwsTypeError env m = false ->
  (monster.chance (monster.calculateSpottingData env m) == 1)%Q ->
  exists data st',
    spottingCalculator.spotTurn seedrandom env dateSeed m st = Some (data, st')
    /\ spottingCalculator.count data = 40%nat
    /\ spottingCalculator.likelihood data = "High"
    /\ (spottingCalculator.buildLocationPool (appState env) m <> [] ->
        length (spottingCalculator.locations data) = 40%nat)
    /\ (spottingCalculator.buildLocationPool (appState env) m = [] ->
        spottingCalculator.locations data = []).
Proof.
  intros Hrng Hwf Hplain Hthrow Hone.
  unfold spottingCalculator.spotTurn. rewrite Hthrow.
  unfold spottingCalculator.spotMonster.
  assert (Hpos : Num.leb (monster.chance (monster.calculateSpottingData env m)) 0
                 = false).
  { apply leb_gt. rewrite Hone. reflexivity. }
  rewrite Hpos. unfold bind.
  rewrite rollSightings_all_hits.
  2: { intros i. rewrite Hone. apply Hrng. }
  destruct st as [d o]. cbn [drawn objects] in *.
  destruct (generateMonsterLocations_any_store
              (seedrandom (String.append dateSeed (monster.id m)))
              (appState env) m (0 + spottingCalculator.maxSpotted) o
              (d + spottingCalculator.maxSpotted) (Hrng _) Hwf Hplain)
    as [new [Hfull [Hempty [_ [_ Hrun]]]]].
  specialize (Hrun []). rewrite app_nil_r in Hrun. rewrite Hrun.
  unfold ret. eexists _, _. split; [reflexivity |].
  cbn [spottingCalculator.count spottingCalculator.likelihood
       spottingCalculator.locations].
  split; [reflexivity |]. split; [reflexivity |].
  split.
  - intros Hne. rewrite length_seq. apply Hfull. exact Hne.
  - intros He. rewrite (Hempty He). reflexivity.
Qed.

(** X14: in a batch of monsters none of which makes the recomputation
    throw (no habitat, bonus or penalty of theirs is a name inherited from
    [Object.prototype] where the code looks it up) and with distinct ids,
    the record of a monster is the record it gets when the simulation runs
    for it alone: same count, band, probability, breakdown and event, and
    the same placements, at other addresses of a larger store. *)
Theorem record_is_independent_of_the_other_monsters
    (seedrandom : string -> nat -> number) (env : Env)
    (monsters : list monster.Monster) (m : monster.Monster) (objects : Store) :
  (forall seed, unitStream (seedrandom seed)) ->
  indexedLocations (appState env) objects ->
  Forall (fun m => plainHabitats m /\ monster.throwsTypeError env m = false)
    monsters ->
  NoDup (List.map monster.id monsters) ->
  m ∈ monsters ->
  exists data objects' data1 objects1 r r1,
    spottingCalculator.calculateSpottedMonsters seedrandom env monsters objects
    = Some (data, objects')
    /\ spottingCalculator.calculateSpottedMonsters seedrandom env [m] objects
       = Some (data1, objects1)
    /\ data !! monster.id m = Some r
    /\ data1 !! monster.id m = Some r1
    /\ sameButLocations r r1
    /\ placements objects' r = placements objects1 r1.
Proof.
  intros Hrng Hwf Hplain Hnodup Hin.
  unfold spottingCalculator.calculateSpottedMonsters.
  destruct (spotAll_records seedrandom env (time.getDateSeed env) objects Hrng Hwf
              monsters Hplain ∅ [])
    as [data [e' [Hall [_ [_ Hown]]]]].
  destruct (Hown Hnodup m Hin)
    as [r [before [k [new [rest [Hr [Hturn Hstore]]]]]]].
  destruct (proj1 (Forall_forall _ _) Hplain m Hin) as [Hm Hthrow].
  destruct (spotMonster_any_store seedrandom env (time.getDateSeed env) m objects 0
              Hrng Hwf Hm)
    as [c [lk [new1 [_ [_ [_ [_ [_ Hrun]]]]]]]].
  pose proof (Hrun before) as Hbatch. rewrite Hturn in Hbatch.
  injection Hbatch as Hrecord _ Hobjects.
  apply app_inv_head in Hobjects. subst new1.
  pose proof (Hrun []) as Halone. rewrite app_nil_r in Halone.
  rewrite app_nil_r in Hall. rewrite Hall.
  cbn [spottingCalculator.spotAll]. unfold spottingCalculator.spotTurn.
  rewrite Hthrow, Halone.
  eexists data, _, _, _, r, _.
  split; [reflexivity |]. split; [reflexivity |].
  split; [exact Hr |]. split; [apply lookup_insert_eq |].
  subst r. split.
  - repeat split.
  - unfold placements. cbn [store.objects spottingCalculator.locations].
    rewrite app_nil_r in Hstore. rewrite Hstore.
    rewrite lookup_placements.
    rewrite <- (app_nil_r (objects ++ new)%list).
    rewrite lookup_placements. reflexivity.
Qed.


End Records.

Section RecordsWitness.
Import state store.

Lemma probability_one_gives_forty_sightings_witness :
  exists data st',
    spottingCalculator.spotTurn (sample.constantStream 0.5)
      (sample.envOn sample.halloween2024 sample.noon) "2024-10-31" sample.troll
      {| drawn := 0; objects := sample.objects |}
    = Some (data, st')
    /\ spottingCalculator.count data = 40%nat
    /\ spottingCalculator.likelihood data = "High".
Proof.
  destruct (probability_one_gives_forty_sightings (sample.constantStream 0.5)
              (sample.envOn sample.halloween2024 sample.noon) "2024-10-31"
              sample.troll {| drawn := 0; objects := sample.objects |})
    as [data [st' [Hrun [Hcount [Hband _]]]]].
  - intros seed. apply unitStream_constant. split; [discriminate | reflexivity].
  - apply processLoadedData_indexed.
  - plain_habitats.
  - reflexivity.
  - vm_compute. reflexivity.
  - exists data, st'. split; [exact Hrun |]. split; [exact Hcount | exact Hband].
Defined.

Lemma record_is_independent_of_the_other_monsters_witness :
  exists data objects' data1 objects1 r r1,
    spottingCalculator.calculateSpottedMonsters (sample.constantStream 0.5)
      (sample.envOn sample.halloween2024 sample.noon)
      [sample.tomte; sample.troll] sample.objects
    = Some (data, objects')
    /\ spottingCalculator.calculateSpottedMonsters (sample.constantStream 0.5)
         (sample.envOn sample.halloween2024 sample.noon)
         [sample.troll] sample.objects
       = Some (data1, objects1)
    /\ data !! monster.id sample.troll = Some r
    /\ data1 !! monster.id sample.troll = Some r1
    /\ sameButLocations r r1
    /\ placements objects' r = placements objects1 r1.
Proof.
  apply (record_is_independent_of_the_other_monsters (sample.constantStream 0.5)
           (sample.envOn sample.halloween2024 sample.noon)
           [sample.tomte; sample.troll] sample.troll sample.objects).
  - intros seed. apply unitStream_constant. split; [discriminate | reflexivity].
  - apply processLoadedData_indexed.
  - repeat constructor; plain_habitats.
  - cbn. apply NoDup_cons. split; [| apply NoDup_singleton].
    rewrite list_elem_of_singleton. discriminate.
  - set_solver.
Defined.


End RecordsWitness.

(** ** What the indexes hold, and the weight of a location in a pool *)

Section Indexes.
Import state store.

Lemma refsWith_push (key : Location -> string) (code : string) (objects : Store)
    (l : Location) :
  refsWith key code (push objects (ObjLocation l))
  = (refsWith key code objects
     ++ (if String.eqb (key l) code then [length objects] else []))%list.
Proof.
  unfold refsWith, push, keyedAt, Store. rewrite length_app. cbn [length].
  rewrite Nat.add_1_r, seq_S, List.filter_app. cbn [List.filter Nat.add].
  f_equal.
  - apply List.filter_ext_in. intros ref Hin. apply in_seq in Hin.
    rewrite lookup_app_l by lia. reflexivity.
  - rewrite lookup_app_r by lia. rewrite Nat.sub_diag.
    cbn [lookup list_lookup]. destruct (String.eqb (key l) code); reflexivity.
Qed.

(** One [push] into an index keeps it the index of the store. *)
Lemma pushAt_refs (key : Location -> string) (objects : Store)
    (index : gmap string (list nat)) (l : Location) :
  (forall code, default [] (index !! code) = refsWith key code objects
                /\ index !! code <> Some []) ->
  forall code,
    default [] (dataLoader.pushAt (key l) (length objects) index !! code)
    = refsWith key code (push objects (ObjLocation l))
    /\ dataLoader.pushAt (key l) (length objects) index !! code <> Some [].
Proof.
  intros Hinv code. rewrite refsWith_push. unfold dataLoader.pushAt.
  destruct (String.eqb_spec (key l) code) as [<- | Hne].
  - rewrite lookup_insert_eq. cbn [default].
    rewrite (proj1 (Hinv (key l))). split; [reflexivity |].
    unfold push. intros H. injection H as H. apply app_eq_nil in H.
    destruct H as [_ H]. discriminate.
  - rewrite lookup_insert_ne by exact Hne. rewrite app_nil_r. apply Hinv.
Qed.

Lemma indexLocations_refs (locations : list dataLoader.RawLocation) :
  forall (objects : Store) (byCode byClass : gmap string (list nat)),
    (forall code, default [] (byCode !! code) = refsWith fullFeatureCode code objects
                  /\ byCode !! code <> Some []) ->
    (forall code, default [] (byClass !! code) = refsWith featureClass code objects
                  /\ byClass !! code <> Some []) ->
    let '(objects', byCode', byClass') :=
      dataLoader.indexLocations locations objects byCode byClass in
    objects'
    = (objects ++ List.map (fun loc => ObjLocation (dataLoader.withFullFeatureCode loc))
                           locations)%list
    /\ (forall code, default [] (byCode' !! code)
                     = refsWith fullFeatureCode code objects'
                     /\ byCode' !! code <> Some [])
    /\ (forall code, default [] (byClass' !! code)
                     = refsWith featureClass code objects'
                     /\ byClass' !! code <> Some []).
Proof.
  induction locations as [| loc rest IH]; intros objects byCode byClass Hcode Hclass.
  - cbn. rewrite app_nil_r. split; [reflexivity |]. split; assumption.
  - cbn [dataLoader.indexLocations List.map].
    specialize (IH (push objects (ObjLocation (dataLoader.withFullFeatureCode loc)))
                   (dataLoader.pushAt
                      (fullFeatureCode (dataLoader.withFullFeatureCode loc))
                      (length objects) byCode)
                   (dataLoader.pushAt
                      (featureClass (dataLoader.withFullFeatureCode loc))
                      (length objects) byClass)
                   (pushAt_refs fullFeatureCode objects byCode _ Hcode)
                   (pushAt_refs featureClass objects byClass _ Hclass)).
    destruct (dataLoader.indexLocations rest _ _ _) as [[objects' byCode'] byClass'].
    destruct IH as [Hobjects Hrest]. split; [| exact Hrest].
    rewrite Hobjects. unfold push. rewrite <- app_assoc. reflexivity.
Qed.

Lemma processLoadedData_refs (date : Z) (locations : list dataLoader.RawLocation) :
  let '(objects, app) := dataLoader.processLoadedData date locations in
  objects = List.map (fun loc => ObjLocation (dataLoader.withFullFeatureCode loc))
                     locations
  /\ currentDate app = date
  /\ (forall code, default [] (locationsByFeatureCode app !! code)
                   = refsWith fullFeatureCode code objects
                   /\ locationsByFeatureCode app !! code <> Some [])
  /\ (forall code, default [] (locationsByFeatureClass app !! code)
                   = refsWith featureClass code objects
                   /\ locationsByFeatureClass app !! code <> Some []).
Proof.
  unfold dataLoader.processLoadedData.
  pose proof (indexLocations_refs locations [] ∅ ∅) as H.
  destruct (dataLoader.indexLocations locations [] ∅ ∅) as [[objects byCode] byClass].
  cbn [currentDate locationsByFeatureCode locationsByFeatureClass].
  destruct H as [Hobjects [Hcode Hclass]].
  - intros code. rewrite lookup_empty. split; [reflexivity | discriminate].
  - intros code. rewrite lookup_empty. split; [reflexivity | discriminate].
  - split; [exact Hobjects |]. split; [reflexivity |]. split; assumption.
Qed.

(** X16: [processLoadedData] makes one location object for each location
    of the file, in the order of the file, and each index holds under a
    key the addresses of exactly the locations that have the key as their
    full feature code, or as their feature class, in that order; no key
    holds an empty list. *)
Theorem indexes_hold_the_locations_by_key (date : Z)
    (locations : list dataLoader.RawLocation) (code : string) :
  let objects := fst (dataLoader.processLoadedData date locations) in
  let app := snd (dataLoader.processLoadedData date locations) in
  objects = List.map (fun loc => ObjLocation (dataLoader.withFullFeatureCode loc))
                     locations
  /\ currentDate app = date
  /\ default [] (locationsByFeatureCode app !! code)
     = refsWith fullFeatureCode code objects
  /\ default [] (locationsByFeatureClass app !! code)
     = refsWith featureClass code objects
  /\ locationsByFeatureCode app !! code <> Some []
  /\ locationsByFeatureClass app !! code <> Some [].
Proof.
  pose proof (processLoadedData_refs date locations) as H.
  destruct (dataLoader.processLoadedData date locations) as [objects app].
  cbn [fst snd]. destruct H as [Hobjects [Hdate [Hcode Hclass]]].
  split; [exact Hobjects |]. split; [exact Hdate |].
  split; [apply Hcode |]. split; [apply Hclass |].
  split; [apply Hcode | apply Hclass].
Qed.

Lemma NoDup_setAdd (set : list string) (x : string) :
  NoDup set -> NoDup (spottingCalculator.setAdd set x).
Proof.
  intros Hset. unfold spottingCalculator.setAdd. case_bool_decide as Hin.
  - exact Hset.
  - unfold push. apply NoDup_app. split; [exact Hset |].
    split; [| apply NoDup_singleton].
    intros y Hy Hy'. apply list_elem_of_singleton in Hy'. subst y. contradiction.
Qed.

Lemma NoDup_setAdd_all (group set : list string) :
  NoDup set -> NoDup (fold_left spottingCalculator.setAdd group set).
Proof.
  revert set. induction group as [| x group IH]; intros set Hset; [exact Hset |].
  cbn [fold_left]. apply IH, NoDup_setAdd, Hset.
Qed.

(** The [Set] of resolved codes holds no code twice. *)
Lemma NoDup_resolveFeatureCodes (m : monster.Monster) :
  NoDup (spottingCalculator.resolveFeatureCodes m).
Proof.
  unfold spottingCalculator.resolveFeatureCodes.
  assert (H : forall ids set, NoDup set ->
                NoDup (fold_left spottingCalculator.resolveStep ids set)).
  { induction ids as [| x ids IH]; intros set Hset; [exact Hset |].
    cbn [fold_left]. apply IH. unfold spottingCalculator.resolveStep.
    destruct (config.LOCATION_GROUPS !! x);
      [apply NoDup_setAdd_all | apply NoDup_setAdd]; exact Hset. }
  apply H. constructor.
Qed.

Lemma weight_app (ref : nat) (l1 l2 : list nat) :
  weight ref (l1 ++ l2) = (weight ref l1 + weight ref l2)%nat.
Proof. unfold weight. rewrite List.filter_app, length_app. reflexivity. Qed.

Lemma weight_filter_seq (ref : nat) (test : nat -> bool) (start len : nat) :
  weight ref (List.filter test (seq start len))
  = if test ref && (start <=? ref)%nat && (ref <? start + len)%nat
    then 1%nat else 0%nat.
Proof.
  revert start. induction len as [| len IH]; intros start.
  - unfold weight. cbn [seq List.filter length].
    destruct (test ref); [| reflexivity]. cbn [andb].
    destruct (Nat.leb_spec start ref), (Nat.ltb_spec ref (start + 0));
      try reflexivity; lia.
  - cbn [seq List.filter].
    assert (Htail : weight ref (List.filter test (seq (S start) len))
                    = if test ref && (S start <=? ref)%nat
                         && (ref <? start + S len)%nat
                      then 1%nat else 0%nat).
    { rewrite IH. replace (S start + len)%nat with (start + S len)%nat by lia.
      reflexivity. }
    destruct (test start) eqn:Hstart.
    + change (weight ref (start :: List.filter test (seq (S start) len)))
        with (weight ref ([start] ++ List.filter test (seq (S start) len))).
      rewrite weight_app, Htail. unfold weight at 1. cbn [List.filter].
      destruct (Nat.eqb_spec ref start) as [-> | Hne].
      * rewrite Hstart. cbn [length andb].
        rewrite Nat.leb_refl.
        replace (S start <=? start)%nat with false
          by (symmetry; apply Nat.leb_gt; lia).
        replace (start <? start + S len)%nat with true
          by (symmetry; apply Nat.ltb_lt; lia).
        reflexivity.
      * cbn [length Nat.add].
        destruct (test ref); [| reflexivity]. cbn [andb].
        destruct (Nat.leb_spec (S start) ref), (Nat.leb_spec start ref);
          try reflexivity; lia.
    + rewrite Htail.
      destruct (Nat.eqb_spec ref start) as [-> | Hne].
      * rewrite Hstart. reflexivity.
      * destruct (test ref); [| reflexivity]. cbn [andb].
        destruct (Nat.leb_spec (S start) ref), (Nat.leb_spec start ref);
          try reflexivity; lia.
Qed.

Lemma weight_refsWith (key : Location -> string) (code : string) (objects : Store)
    (ref : nat) (l : Location) :
  objects !! ref = Some (ObjLocation l) ->
  weight ref (refsWith key code objects)
  = if String.eqb (key l) code then 1%nat else 0%nat.
Proof.
  intros Hl. unfold refsWith. rewrite weight_filter_seq.
  unfold keyedAt. rewrite Hl.
  apply lookup_lt_Some in Hl.
  replace (0 <=? ref)%nat with true by (symmetry; apply Nat.leb_le; lia).
  replace (ref <? 0 + length objects)%nat with true
    by (symmetry; apply Nat.ltb_lt; lia).
  rewrite !andb_true_r. reflexivity.
Qed.

Lemma weight_pool_loop (app : AppState) (objects : Store) (ref : nat) (l : Location) :
  (forall code, default [] (locationsByFeatureCode app !! code)
                = refsWith fullFeatureCode code objects) ->
  (forall code, default [] (locationsByFeatureClass app !! code)
                = refsWith featureClass code objects) ->
  objects !! ref = Some (ObjLocation l) ->
  forall (codes : list string) (pool : list nat),
    weight ref (fold_left (spottingCalculator.poolStep app) codes pool)
    = (weight ref pool + length (List.filter (matchesCode l) codes))%nat.
Proof.
  intros Hcode Hclass Hl. induction codes as [| code codes IH]; intros pool.
  - cbn [fold_left List.filter length]. lia.
  - cbn [fold_left List.filter]. rewrite IH.
    unfold spottingCalculator.poolStep, matchesCode.
    destruct (spottingCalculator.includesDot code).
    + rewrite weight_app, Hcode, (weight_refsWith _ _ _ _ _ Hl).
      destruct (String.eqb (fullFeatureCode l) code); cbn [length]; lia.
    + rewrite weight_app, Hclass, (weight_refsWith _ _ _ _ _ Hl).
      destruct (String.eqb (featureClass l) code); cbn [length]; lia.
Qed.

Lemma matching_codes_at_most_two (l : Location) (codes : list string) :
  NoDup codes -> (length (List.filter (matchesCode l) codes) <= 2)%nat.
Proof.
  intros Hnodup. apply NoDup_ListNoDup in Hnodup.
  change 2%nat with (length [fullFeatureCode l; featureClass l]).
  apply NoDup_incl_length.
  - apply List.NoDup_filter. exact Hnodup.
  - intros code Hin. apply filter_In in Hin. destruct Hin as [_ Hmatch].
    unfold matchesCode in Hmatch.
    destruct (spottingCalculator.includesDot code);
      apply String.eqb_eq in Hmatch; subst code; cbn; tauto.
Qed.

(** X17: after [processLoadedData], a location is in the pool of a monster
    once for every resolved code that matches it, so at most twice: once
    for its full feature code and once for its feature class. *)
Theorem pool_holds_a_location_once_per_matching_code (date : Z)
    (locations : list dataLoader.RawLocation) (m : monster.Monster)
    (ref : nat) (l : Location) :
  fst (dataLoader.processLoadedData date locations) !! ref = Some (ObjLocation l) ->
  weight ref (spottingCalculator.buildLocationPool
                (snd (dataLoader.processLoadedData date locations)) m)
  = length (List.filter (matchesCode l) (spottingCalculator.resolveFeatureCodes m))
  /\ (weight ref (spottingCalculator.buildLocationPool
                    (snd (dataLoader.processLoadedData date locations)) m)
      <= 2)%nat.
Proof.
  pose proof (processLoadedData_refs date locations) as H.
  destruct (dataLoader.processLoadedData date locations) as [objects app].
  cbn [fst snd]. destruct H as [_ [_ [Hcode Hclass]]]. intros Hl.
  assert (Hweight :
            weight ref (spottingCalculator.buildLocationPool app m)
            = length (List.filter (matchesCode l)
                        (spottingCalculator.resolveFeatureCodes m))).
  { unfold spottingCalculator.buildLocationPool.
    rewrite (weight_pool_loop app objects ref l
               (fun code => proj1 (Hcode code)) (fun code => proj1 (Hclass code)) Hl).
    reflexivity. }
  split; [exact Hweight |]. rewrite Hweight.
  apply matching_codes_at_most_two, NoDup_resolveFeatureCodes.
Qed.

Lemma pool_holds_a_location_once_per_matching_code_witness :
  exists l,
    fst (dataLoader.processLoadedData sample.march2024 sample.rawLocations) !! 0%nat
    = Some (ObjLocation l)
    /\ weight 0 (spottingCalculator.buildLocationPool
                   (snd (dataLoader.processLoadedData sample.march2024
                           sample.rawLocations)) sample.troll)
       = length (List.filter (matchesCode l)
                   (spottingCalculator.resolveFeatureCodes sample.troll)).
Proof.
  eexists. split; [reflexivity |].
  apply (pool_holds_a_location_once_per_matching_code sample.march2024
           sample.rawLocations sample.troll 0).
  reflexivity.
Defined.

End Indexes.

(** ** The helpers of the panels *)

Section Helpers.
Import state store.

(** X18: every band that the simulation gives has a class of its own: the
    default branch of [getLikelihoodClass] is reached by "Very Low" only,
    and "likelihood-impossible" by "Impossible" only. *)
Theorem every_band_has_its_own_class (seedrandom : string -> nat -> number)
    (env : Env) (dateSeed : string) (m : monster.Monster) (st st' : SimState)
    (data : spottingCalculator.SpottedMonster) :
  spottingCalculator.spotMonster seedrandom env dateSeed m st = Some (data, st') ->
  (spottingCalculator.likelihood data,
   helpers.getLikelihoodClass (spottingCalculator.likelihood data))
  ∈ [("Impossible", "likelihood-impossible"); ("Very Low", "likelihood-vlow");
     ("Low", "likelihood-low"); ("Medium", "likelihood-medium");
     ("High", "likelihood-high")].
Proof.
  unfold spottingCalculator.spotMonster.
  destruct (Num.leb (monster.chance (monster.calculateSpottingData env m)) 0).
  - unfold ret. intros [= <- <-]. cbn [spottingCalculator.likelihood].
    destruct (existsb spottingCalculator.isImpossibleStep _); set_solver.
  - unfold bind.
    destruct (spottingCalculator.rollSightings _ _ _ _ st)
      as [[spottedCount st1] |]; [| discriminate].
    destruct (spottingCalculator.generateMonsterLocations _ _ _ _ st1)
      as [[placed st2] |]; [| discriminate].
    unfold ret. intros [= <- <-]. cbn [spottingCalculator.likelihood].
    destruct (getLikelihood_cases (Z.of_nat spottedCount)) as [-> | [-> | [-> | ->]]];
      set_solver.
Qed.

Lemma every_band_has_its_own_class_witness :
  ("Impossible", helpers.getLikelihoodClass "Impossible")
  ∈ [("Impossible", "likelihood-impossible"); ("Very Low", "likelihood-vlow");
     ("Low", "likelihood-low"); ("Medium", "likelihood-medium");
     ("High", "likelihood-high")].
Proof.
  apply (every_band_has_its_own_class (sample.constantStream 0.5)
           (sample.envOn sample.march2024 sample.noon) "2024-03-12" sample.troll
           {| drawn := 0; objects := sample.objects |}
           {| drawn := 0; objects := sample.objects |}
           {| spottingCalculator.count := 0;
              spottingCalculator.locations := [];
              spottingCalculator.likelihood := "Impossible";
              spottingCalculator.currentChance := 0;
              spottingCalculator.breakdown := [monster.impossible "Requires: Night"];
              spottingCalculator.event := None |}).
  reflexivity.
Defined.

Lemma truthyName_not_empty (info : option helpers.FeatureCodeInfo) (n : string) :
  helpers.truthyName info = Some n -> n <> "".
Proof.
  unfold helpers.truthyName. destruct info as [i |]; [| discriminate].
  destruct (helpers.name i) as [n' |]; [| discriminate].
  destruct (String.eqb_spec n' ""); [discriminate |]. intros [= <-]. assumption.
Qed.

(** X19: the type name of a location is never the empty text: it is the
    name that the map holds for the full feature code when that name is
    not empty, else the name for the feature class when that is not empty,
    else "Area"; and "Unknown" when there is no location. *)
Theorem location_type_name_is_never_empty
    (featureCodeMap : gmap string helpers.FeatureCodeInfo)
    (location : option Location) :
  helpers.getLocationTypeName featureCodeMap location <> ""
  /\ (location = None ->
      helpers.getLocationTypeName featureCodeMap location = "Unknown")
  /\ forall l, location = Some l ->
       match helpers.truthyName (featureCodeMap !! fullFeatureCode l),
             helpers.truthyName (featureCodeMap !! featureClass l) with
       | Some specificName, _ =>
           helpers.getLocationTypeName featureCodeMap location = specificName
       | None, Some generalName =>
           helpers.getLocationTypeName featureCodeMap location = generalName
       | None, None =>
           helpers.getLocationTypeName featureCodeMap location = "Area"
       end.
Proof.
  split; [| split].
  - unfold helpers.getLocationTypeName. destruct location as [l |]; [| discriminate].
    destruct (helpers.truthyName (featureCodeMap !! fullFeatureCode l)) eqn:E1;
      [exact (truthyName_not_empty _ _ E1) |].
    destruct (helpers.truthyName (featureCodeMap !! featureClass l)) eqn:E2;
      [exact (truthyName_not_empty _ _ E2) | discriminate].
  - intros ->. reflexivity.
  - intros l ->. unfold helpers.getLocationTypeName.
    destruct (helpers.truthyName (featureCodeMap !! fullFeatureCode l));
      [reflexivity |].
    destruct (helpers.truthyName (featureCodeMap !! featureClass l)); reflexivity.
Qed.

Lemma groups_have_no_icon (locIdentifier : string) :
  is_Some (config.LOCATION_GROUPS !! locIdentifier) ->
  helpers.getLocationIcon locIdentifier = "❓".
Proof.
  intros [group H]. unfold config.LOCATION_GROUPS in H.
  apply elem_of_list_to_map_2 in H.
  repeat (apply elem_of_cons in H as [H | H];
          [injection H as -> _; reflexivity |]).
  inversion H.
Qed.

(** X20: [getLocationIcon] tells nothing of a habitat identifier that
    names a group of [LOCATION_GROUPS]: it gives the question mark, and a
    monster whose habitats are all groups has that one icon in its
    panel. *)
Theorem group_habitats_show_the_question_mark (m : monster.Monster) :
  monster.locations m <> [] ->
  (forall locIdentifier, locIdentifier ∈ monster.locations m ->
                         is_Some (config.LOCATION_GROUPS !! locIdentifier)) ->
  monsterPanel.uniqueLocIcons m = ["❓"].
Proof.
  unfold monsterPanel.uniqueLocIcons.
  destruct (monster.locations m) as [| first rest]; [contradiction |].
  intros _ Hgroups. cbn [List.map fold_left].
  rewrite (groups_have_no_icon first) by (apply Hgroups; left).
  unfold spottingCalculator.setAdd at 2.
  rewrite bool_decide_eq_false_2 by (intros H; inversion H).
  unfold push. rewrite app_nil_l.
  assert (Hrest : forall ids, (forall id, id ∈ ids ->
                                 is_Some (config.LOCATION_GROUPS !! id)) ->
                  fold_left spottingCalculator.setAdd
                    (List.map helpers.getLocationIcon ids) ["❓"] = ["❓"]).
  { induction ids as [| id ids IH]; intros Hids; [reflexivity |].
    cbn [List.map fold_left].
    rewrite (groups_have_no_icon id) by (apply Hids; left).
    unfold spottingCalculator.setAdd at 2.
    rewrite bool_decide_eq_true_2 by left.
    apply IH. intros id' Hid'. apply Hids. right. exact Hid'. }
  apply Hrest. intros id Hid. apply Hgroups. right. exact Hid.
Qed.

Lemma group_habitats_show_the_question_mark_witness :
  monsterPanel.uniqueLocIcons sample.tomte = ["❓"].
Proof.
  apply (group_habitats_show_the_question_mark sample.tomte).
  - discriminate.
  - intros id Hid. change (id ∈ ["settlements_urban"]) in Hid.
    apply list_elem_of_singleton in Hid. subst id.
    eexists. vm_compute. reflexivity.
Defined.

End Helpers.

(** ** The administrative parents of a location *)

Section Parents.
Import store.

Lemma find_some (test : Location -> bool) (allLocations : list Location)
    (l : Location) :
  map.find test allLocations = Some l -> test l = true /\ l ∈ allLocations.
Proof.
  induction allLocations as [| x rest IH]; [discriminate |].
  cbn [map.find]. destruct (test x) eqn:Hx.
  - intros [= <-]. split; [exact Hx | left].
  - intros H. destruct (IH H) as [Ht Hin]. split; [exact Ht | right; exact Hin].
Qed.

(** A parent is one administrative level above its child, and is a
    location of the list. *)
Lemma findParent_level (allLocations : list Location) (location parent : Location) :
  map.findParent allLocations (Some location) = Some parent ->
  parent ∈ allLocations
  /\ ((fullFeatureCode location = "A.ADM2" /\ fullFeatureCode parent = "A.ADM1")
      \/ (fullFeatureCode location = "A.ADM3" /\ fullFeatureCode parent = "A.ADM2")
      \/ (fullFeatureCode location = "A.ADM4" /\ fullFeatureCode parent = "A.ADM3")).
Proof.
  unfold map.findParent.
  destruct (String.eqb (featureClass location) ""
            || negb (String.eqb (featureClass location) "A")
            || String.eqb (fullFeatureCode location) "A.ADM1"); [discriminate |].
  destruct (String.eqb_spec (fullFeatureCode location) "A.ADM2") as [E2 | _].
  { intros H. apply find_some in H. destruct H as [Ht Hin].
    apply andb_true_iff in Ht. destruct Ht as [Ht _].
    apply String.eqb_eq in Ht. split; [exact Hin | left; split; assumption]. }
  destruct (String.eqb_spec (fullFeatureCode location) "A.ADM3") as [E3 | _].
  { intros H. apply find_some in H. destruct H as [Ht Hin].
    apply andb_true_iff in Ht. destruct Ht as [Ht _].
    apply andb_true_iff in Ht. destruct Ht as [Ht _].
    apply String.eqb_eq in Ht.
    split; [exact Hin | right; left; split; assumption]. }
  destruct (String.eqb_spec (fullFeatureCode location) "A.ADM4") as [E4 | _];
    [| discriminate].
  intros H. apply find_some in H. destruct H as [Ht Hin].
  apply andb_true_iff in Ht. destruct Ht as [Ht _].
  apply andb_true_iff in Ht. destruct Ht as [Ht _].
  apply andb_true_iff in Ht. destruct Ht as [Ht _].
  apply String.eqb_eq in Ht.
  split; [exact Hin | right; right; split; assumption].
Qed.

Lemma findParent_top (allLocations : list Location) (location : Location) :
  fullFeatureCode location = "A.ADM1" ->
  map.findParent allLocations (Some location) = None.
Proof.
  intros H. unfold map.findParent. rewrite H. cbn [String.eqb Ascii.eqb].
  rewrite !orb_true_r. reflexivity.
Qed.

(** The loop from a location of the first, second and third level. *)
Lemma climb_level1 (allLocations : list Location) (turns : nat) (p : Location)
    (ancestry : list Location) :
  fullFeatureCode p = "A.ADM1" ->
  map.climb allLocations (S turns) (Some p) ancestry = Some (p :: ancestry).
Proof.
  intros H. cbn [map.climb]. rewrite (findParent_top _ _ H).
  destruct turns; reflexivity.
Qed.

Lemma climb_level2 (allLocations : list Location) (p : Location) :
  fullFeatureCode p = "A.ADM2" ->
  exists above,
    (forall turns ancestry,
        map.climb allLocations (S (S turns)) (Some p) ancestry
        = Some (above ++ p :: ancestry)%list)
    /\ Forall (fun l => l ∈ allLocations) above
    /\ (List.map fullFeatureCode above = []
        \/ List.map fullFeatureCode above = ["A.ADM1"]).
Proof.
  intros H.
  destruct (map.findParent allLocations (Some p)) as [q |] eqn:Hq.
  - destruct (findParent_level _ _ _ Hq) as [Hin [[_ Hl] | [[E _] | [E _]]]];
      try congruence.
    exists [q]. split.
    { intros turns ancestry.
      change (map.climb allLocations (S (S turns)) (Some p) ancestry)
        with (map.climb allLocations (S turns)
                (map.findParent allLocations (Some p)) (p :: ancestry)).
      rewrite Hq. apply (climb_level1 _ _ _ _ Hl). }
    split; [repeat constructor; exact Hin |].
    right. cbn. rewrite Hl. reflexivity.
  - exists []. split.
    { intros turns ancestry.
      change (map.climb allLocations (S (S turns)) (Some p) ancestry)
        with (map.climb allLocations (S turns)
                (map.findParent allLocations (Some p)) (p :: ancestry)).
      rewrite Hq. reflexivity. }
    split; [constructor | left; reflexivity].
Qed.

Lemma climb_level3 (allLocations : list Location) (p : Location) :
  fullFeatureCode p = "A.ADM3" ->
  exists above,
    (forall turns ancestry,
        map.climb allLocations (S (S (S turns))) (Some p) ancestry
        = Some (above ++ p :: ancestry)%list)
    /\ Forall (fun l => l ∈ allLocations) above
    /\ (List.map fullFeatureCode above = []
        \/ List.map fullFeatureCode above = ["A.ADM2"]
        \/ List.map fullFeatureCode above = ["A.ADM1"; "A.ADM2"]).
Proof.
  intros H.
  destruct (map.findParent allLocations (Some p)) as [q |] eqn:Hq.
  - destruct (findParent_level _ _ _ Hq) as [Hin [[E _] | [[_ Hl] | [E _]]]];
      try congruence.
    destruct (climb_level2 allLocations q Hl) as [above [Hrun [Hall Hcodes]]].
    exists (above ++ [q])%list. split.
    { intros turns ancestry.
      change (map.climb allLocations (S (S (S turns))) (Some p) ancestry)
        with (map.climb allLocations (S (S turns))
                (map.findParent allLocations (Some p)) (p :: ancestry)).
      rewrite Hq, Hrun, <- app_assoc. reflexivity. }
    split; [apply Forall_app; split; [exact Hall | repeat constructor; exact Hin] |].
    rewrite List.map_app. cbn [List.map]. rewrite Hl.
    destruct Hcodes as [-> | ->]; [right; left | right; right]; reflexivity.
  - exists []. split.
    { intros turns ancestry.
      change (map.climb allLocations (S (S (S turns))) (Some p) ancestry)
        with (map.climb allLocations (S (S turns))
                (map.findParent allLocations (Some p)) (p :: ancestry)).
      rewrite Hq. reflexivity. }
    split; [constructor | left; reflexivity].
Qed.

(** X21: the loop of [updateRegionBrowser] that collects the parents of
    the current location ends within three turns, whatever the list of
    locations holds; what it collects are locations of the list, one
    administrative level after the other from the top down. *)
Theorem ancestry_ends_within_three_turns (allLocations : list Location)
    (currentLocation : Location) :
  exists ancestry,
    (forall extra,
        map.climb allLocations (3 + extra)
          (map.findParent allLocations (Some currentLocation)) []
        = Some ancestry)
    /\ (length ancestry <= 3)%nat
    /\ Forall (fun l => l ∈ allLocations) ancestry
    /\ exists lower upper,
         ["A.ADM1"; "A.ADM2"; "A.ADM3"]
         = (lower ++ List.map fullFeatureCode ancestry ++ upper)%list.
Proof.
  destruct (map.findParent allLocations (Some currentLocation)) as [p |] eqn:Hp.
  - destruct (findParent_level _ _ _ Hp) as [Hin [[_ Hl] | [[_ Hl] | [_ Hl]]]].
    + exists [p]. split; [intros extra; apply (climb_level1 _ _ _ _ Hl) |].
      split; [cbn; lia |]. split; [repeat constructor; exact Hin |].
      exists [], ["A.ADM2"; "A.ADM3"]. cbn. rewrite Hl. reflexivity.
    + destruct (climb_level2 allLocations p Hl) as [above [Hrun [Hall Hcodes]]].
      exists (above ++ [p])%list. split; [intros extra; apply Hrun |].
      assert (Hlen : length (List.map fullFeatureCode above) = length above)
        by apply length_map.
      split; [rewrite length_app; cbn [length];
              destruct Hcodes as [E | E]; rewrite E in Hlen; cbn in Hlen; lia |].
      split; [apply Forall_app; split; [exact Hall | repeat constructor; exact Hin] |].
      rewrite List.map_app. cbn [List.map]. rewrite Hl.
      destruct Hcodes as [-> | ->].
      * exists ["A.ADM1"], ["A.ADM3"]. reflexivity.
      * exists [], ["A.ADM3"]. reflexivity.
    + destruct (climb_level3 allLocations p Hl) as [above [Hrun [Hall Hcodes]]].
      exists (above ++ [p])%list. split; [intros extra; apply Hrun |].
      assert (Hlen : length (List.map fullFeatureCode above) = length above)
        by apply length_map.
      split; [rewrite length_app; cbn [length];
              destruct Hcodes as [E | [E | E]]; rewrite E in Hlen; cbn in Hlen; lia |].
      split; [apply Forall_app; split; [exact Hall | repeat constructor; exact Hin] |].
      rewrite List.map_app. cbn [List.map]. rewrite Hl.
      destruct Hcodes as [-> | [-> | ->]].
      * exists ["A.ADM1"; "A.ADM2"], []. reflexivity.
      * exists ["A.ADM1"], []. reflexivity.
      * exists [], []. reflexivity.
  - exists []. split; [intros extra; reflexivity |].
    split; [cbn; lia |]. split; [constructor |].
    exists ["A.ADM1"; "A.ADM2"; "A.ADM3"], []. reflexivity.
Qed.



End Parents.

(** ** The date of a shared view *)

Section SharedDate.
Import state.

(** The two conversions between day numbers and Gregorian dates agree. *)
Lemma civil_round_trip (z : Z) :
  let '(y, m, d) := JSDate.civil_from_days z in
  1 <= m <= 12 /\ 1 <= d <= 31 /\ JSDate.days_from_civil y m d = z.
Proof.
  unfold JSDate.civil_from_days. cbv zeta.
  set (z' := z + 719468).
  set (era := z' / 146097).
  set (doe := z' - era * 146097).
  assert (Hdoe : 0 <= doe <= 146096)
    by (subst doe era; Z.to_euclidean_division_equations; lia).
  assert (Hz : z = era * 146097 + doe - 719468) by (subst doe z'; lia).
  clearbody doe era. clear z'. subst z.
  set (yoe := (doe - doe / 1460 + doe / 36524 - doe / 146096) / 365).
  assert (Hyoe : 0 <= yoe <= 399)
    by (subst yoe; Z.to_euclidean_division_equations; lia).
  set (doy := doe - (365 * yoe + yoe / 4 - yoe / 100)).
  assert (Hdoy : 0 <= doy <= 365)
    by (subst doy yoe; Z.to_euclidean_division_equations; lia).
  assert (Hdoe' : doe = yoe * 365 + yoe / 4 - yoe / 100 + doy) by (subst doy; lia).
  clearbody doy yoe. subst doe.
  set (mp := (5 * doy + 2) / 153).
  assert (Hmp : 0 <= mp <= 11)
    by (subst mp; Z.to_euclidean_division_equations; lia).
  set (d := doy - (153 * mp + 2) / 5 + 1).
  assert (Hd : 1 <= d <= 31)
    by (subst d mp; Z.to_euclidean_division_equations; lia).
  assert (Hdoy' : doy = (153 * mp + 2) / 5 + d - 1) by (subst d; lia).
  clearbody d mp. subst doy.
  unfold JSDate.days_from_civil.
  destruct (mp <? 10) eqn:E; [apply Z.ltb_lt in E | apply Z.ltb_ge in E].
  - split; [lia |]. split; [lia |].
    replace (mp + 3 <=? 2) with false by (symmetry; apply Z.leb_gt; lia).
    replace (2 <? mp + 3) with true by (symmetry; apply Z.ltb_lt; lia).
    cbv zeta. replace (mp + 3 - 3) with mp by lia.
    replace ((yoe + era * 400) / 400) with era
      by (Z.to_euclidean_division_equations; lia).
    replace (yoe + era * 400 - era * 400) with yoe by lia. lia.
  - split; [lia |]. split; [lia |].
    replace (mp - 9 <=? 2) with true by (symmetry; apply Z.leb_le; lia).
    replace (2 <? mp - 9) with false by (symmetry; apply Z.ltb_ge; lia).
    cbv zeta. replace (mp - 9 + 9) with mp by lia.
    replace (yoe + era * 400 + 1 - 1) with (yoe + era * 400) by lia.
    replace ((yoe + era * 400) / 400) with era
      by (Z.to_euclidean_division_equations; lia).
    replace (yoe + era * 400 - era * 400) with yoe by lia. lia.
Qed.

Lemma allFrom_spec (check : Z -> bool) (n : nat) :
  forall z, allFrom check n z = true ->
            forall i, z <= i < z + Z.of_nat n -> check i = true.
Proof.
  induction n as [| n IH]; intros z Hall i Hi; [lia |].
  cbn [allFrom] in Hall. apply andb_true_iff in Hall. destruct Hall as [Hz Hrest].
  destruct (Z.eq_dec i z) as [-> | Hne]; [exact Hz |].
  apply (IH (z + 1) Hrest). lia.
Qed.

(** [String(year)] for a year of four digits, and the two padded fields. *)
Lemma year_text (y : Z) :
  1000 <= y <= 9999 -> fourDigits (pretty y) y = true.
Proof.
  intros Hy.
  apply (allFrom_spec (fun y => fourDigits (pretty y) y) (Z.to_nat 9000) 1000);
    [vm_compute; reflexivity | rewrite Z2Nat.id; lia].
Qed.

Lemma field_text (n : Z) :
  1 <= n <= 31 -> twoDigits (JSDate.padStart2 (pretty n)) n = true.
Proof.
  intros Hn.
  apply (allFrom_spec (fun n => twoDigits (JSDate.padStart2 (pretty n)) n)
           (Z.to_nat 31) 1);
    [vm_compute; reflexivity | rewrite Z2Nat.id; lia].
Qed.

Lemma dateParts_of_fields (year month day : string) (y m d : Z) :
  fourDigits year y = true -> twoDigits month m = true -> twoDigits day d = true ->
  url.dateParts
    (String.append year
       (String.append "-" (String.append month (String.append "-" day))))
  = Some (year, month, day)
  /\ url.digitsValue year 0 = y
  /\ url.digitsValue month 0 = m
  /\ url.digitsValue day 0 = d.
Proof.
  unfold fourDigits, twoDigits.
  destruct year as [| y1 [| y2 [| y3 [| y4 [| ? ?]]]]]; try discriminate.
  destruct month as [| m1 [| m2 [| ? ?]]]; try discriminate.
  destruct day as [| d1 [| d2 [| ? ?]]]; try discriminate.
  intros Hy Hm Hd.
  apply andb_true_iff in Hy as [Hy Hyv]. apply andb_true_iff in Hy as [Hy Hy4].
  apply andb_true_iff in Hy as [Hy Hy3]. apply andb_true_iff in Hy as [Hy1 Hy2].
  apply andb_true_iff in Hm as [Hm Hmv]. apply andb_true_iff in Hm as [Hm1 Hm2].
  apply andb_true_iff in Hd as [Hd Hdv]. apply andb_true_iff in Hd as [Hd1 Hd2].
  cbv [String.append]. unfold url.dateParts.
  rewrite Hy1, Hy2, Hy3, Hy4, Hm1, Hm2, Hd1, Hd2.
  split; [reflexivity |]. split; [| split]; apply Z.eqb_eq; assumption.
Qed.

Lemma DateUTC_of_date (y m d : Z) :
  ~ 0 <= y <= 99 -> 1 <= m <= 12 ->
  url.DateUTC y (m - 1) d = JSDate.days_from_civil y m d * JSDate.msPerDay.
Proof.
  intros Hy Hm. unfold url.DateUTC.
  replace ((0 <=? y) && (y <=? 99)) with false
    by (symmetry; apply andb_false_iff;
        destruct (Z.leb_spec 0 y), (Z.leb_spec y 99); auto; lia).
  replace ((m - 1) / 12) with 0 by (Z.to_euclidean_division_equations; lia).
  replace ((m - 1) mod 12 + 1) with m by (Z.to_euclidean_division_equations; lia).
  f_equal. unfold JSDate.days_from_civil. rewrite Z.add_0_r. cbv zeta. lia.
Qed.

(** X23: the date that [getDateSeed] writes reads back, in [parseUrlHash],
    as midnight UTC of the same day, when the year has four digits: a date
    that is a midnight UTC reads back as itself, any other as an earlier
    instant of its day; the date seed of the restored date is the one that
    was written. *)
Theorem shared_date_reads_back_as_the_same_day (env env' : Env) :
  1000 <= JSDate.getUTCFullYear (currentDate (appState env)) <= 9999 ->
  url.dateFromParam (Some (time.getDateSeed env))
  = Some (currentDate (appState env) / JSDate.msPerDay * JSDate.msPerDay)
  /\ (currentDate (appState env) mod JSDate.msPerDay = 0 ->
      url.dateFromParam (Some (time.getDateSeed env))
      = Some (currentDate (appState env)))
  /\ (currentDate (appState env) mod JSDate.msPerDay <> 0 ->
      exists restored,
        url.dateFromParam (Some (time.getDateSeed env)) = Some restored
        /\ restored < currentDate (appState env) < restored + JSDate.msPerDay)
  /\ (Some (currentDate (appState env'))
      = url.dateFromParam (Some (time.getDateSeed env)) ->
      time.getDateSeed env' = time.getDateSeed env).
Proof.
  intros Hyear.
  assert (Hread : url.dateFromParam (Some (time.getDateSeed env))
                  = Some (currentDate (appState env) / JSDate.msPerDay
                          * JSDate.msPerDay)).
  { unfold url.dateFromParam, time.getDateSeed. cbv zeta.
    unfold JSDate.getUTCFullYear, JSDate.getUTCMonth, JSDate.getUTCDate in *.
    pose proof (civil_round_trip (currentDate (appState env) / JSDate.msPerDay))
      as Hcivil.
    destruct (JSDate.civil_from_days (currentDate (appState env) / JSDate.msPerDay))
      as [[y m] d].
    cbn [fst snd] in *. destruct Hcivil as [Hm [Hd Hdays]].
    replace (m - 1 + 1) with m by lia.
    destruct (dateParts_of_fields (pretty y) (JSDate.padStart2 (pretty m))
                (JSDate.padStart2 (pretty d)) y m d
                (year_text y Hyear) (field_text m ltac:(lia)) (field_text d Hd))
      as [-> [-> [-> ->]]].
    rewrite DateUTC_of_date by lia. rewrite Hdays. reflexivity. }
  assert (Hday : JSDate.msPerDay = 86400000) by reflexivity.
  split; [exact Hread |].
  split.
  { intros Hmidnight. rewrite Hread. f_equal. rewrite Hday in *.
    Z.to_euclidean_division_equations; lia. }
  split.
  { intros Hlater. eexists. split; [exact Hread |]. rewrite Hday in *.
    Z.to_euclidean_division_equations; lia. }
  rewrite Hread. intros [= Hdate].
  unfold time.getDateSeed, JSDate.getUTCFullYear, JSDate.getUTCMonth,
    JSDate.getUTCDate.
  rewrite Hdate. rewrite Z.div_mul by discriminate. reflexivity.
Qed.

Lemma shared_date_reads_back_as_the_same_day_witness :
  url.dateFromParam
    (Some (time.getDateSeed (sample.envOn (sample.march2024 + 1234567) sample.noon)))
  = Some sample.march2024.
Proof.
  apply (proj1 (shared_date_reads_back_as_the_same_day
                  (sample.envOn (sample.march2024 + 1234567) sample.noon)
                  (sample.envOn sample.march2024 sample.noon)
                  ltac:(vm_compute; split; discriminate))).
Defined.

(** The restored date is not the instant that was shared: late on 19
    January 2000 the moon is full, at the midnight that reads back it is
    not yet. *)
Example restored_date_is_an_earlier_instant :
  url.dateFromParam
    (Some (time.getDateSeed (sample.envOn (JSDate.UTC 2000 0 19 23 0) sample.noon)))
  = Some (JSDate.UTC 2000 0 19 0 0)
  /\ time.isFullMoon (sample.envOn (JSDate.UTC 2000 0 19 23 0) sample.noon) = true
  /\ time.isFullMoon (sample.envOn (JSDate.UTC 2000 0 19 0 0) sample.noon) = false.
Proof.
  vm_compute. repeat split.
Qed.

End SharedDate.

(** ** The days of the full moon *)

Section FullMoon.
Import state.



End FullMoon.

Section FullMoonWitness.
Import state.


End FullMoonWitness.
